(** * qi: a client for the QiCard payment gateway

    A shallow embedding of the request pipeline (the client, package file
    with [doRequest] and the seven operations), the error model (errors.go)
    and the timestamp codec (the [Time] type of the types file), together
    with the parts of the Go standard library they call: [strings.Trim],
    [time.Parse], [time.Time.Format], [encoding/json], [encoding/base64] and
    the header map of [net/http].  The library parts follow the library's
    documented behaviour and its source as of Go 1.21.

    Go strings are byte sequences: they are [string] here, one [ascii] per
    byte.  Go's [int] is carried as [Z]; the places where the library checks
    a 64-bit bound are written out. *)

From stdpp Require Import gmap strings.
From Stdlib Require Import ZArith List String Ascii Bool Lia.
Import ListNotations.

Local Open Scope string_scope.
Local Open Scope Z_scope.

(** ** Errors as values *)

Inductive result (E A : Type) : Type :=
| Ok (a : A)
| Fail (e : E).
Arguments Ok {E A} a.
Arguments Fail {E A} e.

(** The error monad, under stdpp's [x ← m; k] notation. *)
#[global] Instance result_bind {E} : MBind (result E) := fun A B k r =>
  match r with
  | Ok a => k a
  | Fail e => Fail e
  end.
#[global] Instance result_ret {E} : MRet (result E) := fun A a => Ok a.

(** ** Bytes *)

Definition byte_val (c : ascii) : Z := Z.of_nat (nat_of_ascii c).
Definition byte_of (n : Z) : ascii := ascii_of_nat (Z.to_nat n).

Definition quote_byte : ascii := "034"%char.
Definition quote_str : string := String quote_byte "".

Definition isDigitByte (c : ascii) : bool :=
  (48 <=? byte_val c) && (byte_val c <=? 57).

Definition digit_val (c : ascii) : Z := byte_val c - 48.
Definition digit_byte (d : Z) : ascii := byte_of (48 + d).

(** ** package strings *)

Module strings.

Fixpoint IndexByte (cutset : string) (c : ascii) : bool :=
  match cutset with
  | "" => false
  | String k rest => if Ascii.eqb k c then true else IndexByte rest c
  end.

Fixpoint TrimLeft (s cutset : string) : string :=
  match s with
  | "" => ""
  | String c rest => if IndexByte cutset c then TrimLeft rest cutset else s
  end.

Fixpoint rev_onto (s acc : string) : string :=
  match s with
  | "" => acc
  | String c rest => rev_onto rest (String c acc)
  end.

Definition TrimRight (s cutset : string) : string :=
  rev_onto (TrimLeft (rev_onto s "") cutset) "".

(** [strings.Trim]: every leading and trailing byte of [cutset] removed
    (the cutset used by the client is one ASCII byte, for which Go trims
    the right end and then the left end byte by byte). *)
Definition Trim (s cutset : string) : string :=
  TrimLeft (TrimRight s cutset) cutset.

End strings.

(** ** package time

    A [Time] is an instant and the zone it is shown in.  Go keeps seconds and
    nanoseconds since January 1 of year 1, 00:00:00 UTC, and a [*Location];
    formatting and parsing only ever ask the location for the offset in
    effect at that instant, so the model carries that offset (seconds east
    of UTC; 0 for UTC).

    Go computes calendar fields on unsigned 64-bit counts from an epoch
    placed a multiple of 400 years before year 1, so that all its divisions
    are on non-negative numbers.  Here the counts start at year 1 and the
    divisions are floor divisions on [Z], which gives the same fields. *)

Module time.

Record Time : Type := mkTime {
  sec : Z;     (* seconds since 0001-01-01T00:00:00Z *)
  nsec : Z;    (* nanoseconds within the second, 0 .. 999999999 *)
  offset : Z   (* seconds east of UTC of the Time's location at this instant *)
}.

(** The zero value [time.Time{}]. *)
Definition zero : Time := mkTime 0 0 0.

Definition IsZero (t : Time) : bool := (sec t =? 0) && (nsec t =? 0).

(** [t.Equal(u)]: the same instant, whatever the locations. *)
Definition Equal (t u : Time) : bool :=
  (sec t =? sec u) && (nsec t =? nsec u).

Definition secondsPerMinute : Z := 60.
Definition secondsPerHour : Z := 3600.
Definition secondsPerDay : Z := 86400.
Definition daysPer400Years : Z := 146097.
Definition daysPer100Years : Z := 36524.
Definition daysPer4Years : Z := 1461.

Definition isLeap (year : Z) : bool :=
  (Z.rem year 4 =? 0) && (negb (Z.rem year 100 =? 0) || (Z.rem year 400 =? 0)).

Definition daysBefore : list Z :=
  [0; 31; 59; 90; 120; 151; 181; 212; 243; 273; 304; 334; 365].

Definition daysBefore_at (i : Z) : Z := nth (Z.to_nat i) daysBefore 0.

Definition February : Z := 2.
Definition March : Z := 3.

Definition daysIn (m year : Z) : Z :=
  if (m =? February) && isLeap year then 29
  else daysBefore_at m - daysBefore_at (m - 1).

(** Days from January 1 of year 1 to January 1 of [year]. *)
Definition daysSinceEpoch (year : Z) : Z :=
  let y := year - 1 in
  let n := y / 400 in
  let y := y - 400 * n in
  let d := daysPer400Years * n in
  let n := y / 100 in
  let y := y - 100 * n in
  let d := d + daysPer100Years * n in
  let n := y / 4 in
  let y := y - 4 * n in
  let d := d + daysPer4Years * n in
  d + 365 * y.

(** [norm hi lo base]: carry [lo] into [hi] so that [0 <= lo < base]. *)
Definition norm (hi lo base : Z) : Z * Z := (hi + lo / base, lo mod base).

(** [time.Date(year, month, day, hour, min, sec, nsec, time.UTC)]. *)
Definition Date (year month day hour min sec nsec : Z) : Time :=
  let '(year, m) := norm year (month - 1) 12 in
  let month := m + 1 in
  let '(sec, nsec) := norm sec nsec 1000000000 in
  let '(min, sec) := norm min sec 60 in
  let '(hour, min) := norm hour min 60 in
  let '(day, hour) := norm day hour 24 in
  let d := daysSinceEpoch year in
  let d := d + daysBefore_at (month - 1) in
  let d := if isLeap year && (March <=? month) then d + 1 else d in
  let d := d + (day - 1) in
  let abs := d * secondsPerDay in
  let abs := abs + (hour * secondsPerHour + min * secondsPerMinute + sec) in
  mkTime abs nsec 0.

(** [absDate]: the year and the day within the year of a count of days. *)
Definition absYear (d : Z) : Z * Z :=
  let n := d / daysPer400Years in
  let y := 400 * n in
  let d := d - daysPer400Years * n in
  let n := d / daysPer100Years in
  let n := n - Z.shiftr n 2 in
  let y := y + 100 * n in
  let d := d - daysPer100Years * n in
  let n := d / daysPer4Years in
  let y := y + 4 * n in
  let d := d - daysPer4Years * n in
  let n := d / 365 in
  let n := n - Z.shiftr n 2 in
  let y := y + n in
  let d := d - 365 * n in
  (y + 1, d).

(** The month and the day of the month of a day within a year. *)
Definition absMonthDay (year yday : Z) : Z * Z :=
  let day := yday in
  if isLeap year && (day =? 31 + 29 - 1) then (February, 29)
  else
    let day := if isLeap year && (31 + 29 - 1 <? day) then day - 1 else day in
    let month := day / 31 in
    let end_ := daysBefore_at (month + 1) in
    let '(month, begin) :=
      if end_ <=? day then (month + 1, end_) else (month, daysBefore_at month) in
    (month + 1, day - begin + 1).

Definition absDate (abs : Z) : Z * Z * Z :=
  let '(year, yday) := absYear (abs / secondsPerDay) in
  let '(month, day) := absMonthDay year yday in
  (year, month, day).

Definition absClock (abs : Z) : Z * Z * Z :=
  let sec := abs mod secondsPerDay in
  let hour := sec / secondsPerHour in
  let sec := sec - hour * secondsPerHour in
  let min := sec / secondsPerMinute in
  let sec := sec - min * secondsPerMinute in
  (hour, min, sec).

(** [t.Year()]: the year in the Time's own zone. *)
Definition Year (t : Time) : Z :=
  let '(year, _, _) := absDate (sec t + offset t) in year.

(** *** Layouts

    A layout text is cut by [nextStdChunk] into literal pieces and standard
    elements; a layout is kept here with its text and its chunks.  Only the
    elements of the two layouts the client uses are listed. *)

Inductive chunk : Type :=
| literal (s : string)
| stdLongYear          (* 2006 *)
| stdZeroMonth         (* 01 *)
| stdZeroDay           (* 02 *)
| stdHour              (* 15 *)
| stdZeroMinute        (* 04 *)
| stdZeroSecond        (* 05 *)
| stdISO8601ColonTZ.   (* Z07:00 *)

Record layout : Type := mkLayout { text : string; chunks : list chunk }.

Definition dateTimeChunks : list chunk :=
  [stdLongYear; literal "-"; stdZeroMonth; literal "-"; stdZeroDay; literal "T";
   stdHour; literal ":"; stdZeroMinute; literal ":"; stdZeroSecond].

Definition RFC3339 : layout :=
  mkLayout "2006-01-02T15:04:05Z07:00" (dateTimeChunks ++ [stdISO8601ColonTZ]).

(** The layout the client falls back to, without a zone. *)
Definition naiveLayout : layout :=
  mkLayout "2006-01-02T15:04:05" dateTimeChunks.

(** *** Formatting *)

Fixpoint utoa (fuel : nat) (u : Z) (acc : string) : string :=
  match fuel with
  | O => acc
  | S fuel' =>
      let acc' := String (digit_byte (u mod 10)) acc in
      if u / 10 =? 0 then acc' else utoa fuel' (u / 10) acc'
  end.

Fixpoint zeros (n : nat) : string :=
  match n with
  | O => ""
  | S n' => String "0" (zeros n')
  end.

(** [appendInt]: decimal, zero-padded to [width], a minus sign first. *)
Definition appendInt (x : Z) (width : nat) : string :=
  let ds := utoa 20 (Z.abs x) "" in
  (if x <? 0 then "-" else "") +:+ zeros (width - String.length ds) +:+ ds.

Definition appendZone (offset : Z) : string :=
  if offset =? 0 then "Z"
  else
    let zone := Z.quot offset 60 in
    let '(sign, zone) := if zone <? 0 then ("-", - zone) else ("+", zone) in
    sign +:+ appendInt (Z.quot zone 60) 2 +:+ ":" +:+ appendInt (Z.rem zone 60) 2.

Definition formatChunk (t : Time) (c : chunk) : string :=
  let abs := sec t + offset t in
  let '(year, month, day) := absDate abs in
  let '(hour, min, s) := absClock abs in
  match c with
  | literal p => p
  | stdLongYear => appendInt year 4
  | stdZeroMonth => appendInt month 2
  | stdZeroDay => appendInt day 2
  | stdHour => appendInt hour 2
  | stdZeroMinute => appendInt min 2
  | stdZeroSecond => appendInt s 2
  | stdISO8601ColonTZ => appendZone (offset t)
  end.

Definition Format (t : Time) (l : layout) : string :=
  fold_right (fun c out => formatChunk t c +:+ out) "" (chunks l).

(** *** Parsing *)

(** [*time.ParseError]; its remaining fields (the layout element, the
    offending rest of the value and a message) only feed the error text. *)
Record ParseError : Type := mkParseError { Layout : string; Value : string }.

Definition maxInt63 : Z := 9223372036854775808.  (* 1 << 63 *)

(** [leadingInt]: the leading decimal digits and the rest; fails past 1<<63. *)
Fixpoint leadingInt (s : string) (x : Z) : option (Z * string) :=
  match s with
  | String c rest =>
      if isDigitByte c then
        if Z.quot maxInt63 10 <? x then None
        else
          let x := x * 10 + digit_val c in
          if maxInt63 <? x then None else leadingInt rest x
      else Some (x, s)
  | "" => Some (x, s)
  end.

Definition atoi (s : string) : option Z :=
  let '(neg, s) :=
    match s with
    | String "-" rest => (true, rest)
    | String "+" rest => (false, rest)
    | _ => (false, s)
    end in
  match leadingInt s 0 with
  | Some (q, "") => Some (if neg : bool then - q else q)
  | _ => None
  end.

(** [getnum]: one or two digits; exactly two when [fixed]. *)
Definition getnum (s : string) (fixed : bool) : option (Z * string) :=
  match s with
  | String a rest =>
      if isDigitByte a then
        match rest with
        | String b rest' =>
            if isDigitByte b then Some (digit_val a * 10 + digit_val b, rest')
            else if fixed then None else Some (digit_val a, rest)
        | "" => if fixed then None else Some (digit_val a, rest)
        end
      else None
  | "" => None
  end.

(** [skip]: the value must start with the literal (no spaces occur in the
    literals of the two layouts, so the space rule of [skip] is not needed). *)
Fixpoint skip (value prefix : string) {struct prefix} : option string :=
  match prefix with
  | "" => Some value
  | String p prefix' =>
      match value with
      | String v value' => if Ascii.eqb v p then skip value' prefix' else None
      | "" => None
      end
  end.

Definition commaOrPeriod (c : ascii) : bool :=
  Ascii.eqb c "." || Ascii.eqb c ",".

(** The longest run of digits at the head of [s], and the rest. *)
Fixpoint spanDigits (s : string) : string * string :=
  match s with
  | String c rest =>
      if isDigitByte c then
        let '(ds, tl) := spanDigits rest in (String c ds, tl)
      else ("", s)
  | "" => ("", "")
  end.

Fixpoint takeBytes (n : nat) (s : string) : string :=
  match n, s with
  | S n', String c rest => String c (takeBytes n' rest)
  | _, _ => ""
  end.

(** [parseNanoseconds] on the digits after the comma or period: at most nine
    are read, and the value is scaled to nanoseconds. *)
Definition parseNanoseconds (ds : string) : option Z :=
  let ds := takeBytes 9 ds in
  ns ← atoi ds;
  Some (ns * 10 ^ (9 - Z.of_nat (String.length ds))).

Record fields : Type := mkFields {
  f_year : Z; f_month : Z; f_day : Z;
  f_hour : Z; f_min : Z; f_sec : Z; f_nsec : Z;
  f_z : bool;          (* a literal Z was read: the zone is UTC *)
  f_zoneOffset : Z     (* -1 while no offset was read *)
}.

Definition fields0 : fields := mkFields 0 (-1) (-1) 0 0 0 0 false (-1).

(** Assignments to one field. *)
Definition setYear (f : fields) (v : Z) : fields :=
  mkFields v (f_month f) (f_day f) (f_hour f) (f_min f)
    (f_sec f) (f_nsec f) (f_z f) (f_zoneOffset f).

Definition setMonth (f : fields) (v : Z) : fields :=
  mkFields (f_year f) v (f_day f) (f_hour f) (f_min f)
    (f_sec f) (f_nsec f) (f_z f) (f_zoneOffset f).

Definition setDay (f : fields) (v : Z) : fields :=
  mkFields (f_year f) (f_month f) v (f_hour f) (f_min f)
    (f_sec f) (f_nsec f) (f_z f) (f_zoneOffset f).

Definition setHour (f : fields) (v : Z) : fields :=
  mkFields (f_year f) (f_month f) (f_day f) v (f_min f)
    (f_sec f) (f_nsec f) (f_z f) (f_zoneOffset f).

Definition setMin (f : fields) (v : Z) : fields :=
  mkFields (f_year f) (f_month f) (f_day f) (f_hour f) v
    (f_sec f) (f_nsec f) (f_z f) (f_zoneOffset f).

Definition setSec (f : fields) (v : Z) : fields :=
  mkFields (f_year f) (f_month f) (f_day f) (f_hour f)
    (f_min f) v (f_nsec f) (f_z f) (f_zoneOffset f).

Definition setNsec (f : fields) (v : Z) : fields :=
  mkFields (f_year f) (f_month f) (f_day f) (f_hour f)
    (f_min f) (f_sec f) v (f_z f) (f_zoneOffset f).

Definition setZ (f : fields) (v : bool) : fields :=
  mkFields (f_year f) (f_month f) (f_day f) (f_hour f) (f_min f)
    (f_sec f) (f_nsec f) v (f_zoneOffset f).

Definition setZoneOffset (f : fields) (v : Z) : fields :=
  mkFields (f_year f) (f_month f) (f_day f) (f_hour f) (f_min f)
    (f_sec f) (f_nsec f) (f_z f) v.

Definition parseZone (f : fields) (value : string) : option (fields * string) :=
  match value with
  | String "Z" rest => Some (setZ f true, rest)
  | String sign (String h1 (String h2 (String colon (String m1 (String m2 rest))))) =>
      if negb (Ascii.eqb colon ":") then None
      else
        '(hr, _) ← getnum (String h1 (String h2 "")) true;
        '(mm, _) ← getnum (String m1 (String m2 "")) true;
        if (24 <? hr) || (60 <? mm) then None
        else
          let zoneOffset := (hr * 60 + mm) * 60 + 0 in
          zoneOffset ←
            (if Ascii.eqb sign "+" then Some zoneOffset
             else if Ascii.eqb sign "-" then Some (- zoneOffset)
             else None);
          Some (setZoneOffset f zoneOffset, rest)
  | _ => None
  end.

(** A fractional second in the value is read after the seconds even though
    the layout has none (neither layout has a fractional-second element
    after its seconds). *)
Definition parseFraction (f : fields) (value : string) : option (fields * string) :=
  match value with
  | String c (String d rest) =>
      if commaOrPeriod c && isDigitByte d then
        let '(ds, tl) := spanDigits (String d rest) in
        ns ← parseNanoseconds ds;
        Some (setNsec f ns, tl)
      else Some (f, value)
  | _ => Some (f, value)
  end.

(** One element of the layout against the head of the value: the fields
    and the rest of the value, or nothing when the value does not fit or a
    field is out of range. *)
Definition parseChunk (c : chunk) (f : fields) (value : string)
  : option (fields * string) :=
  match c with
  | literal p => value ← skip value p; Some (f, value)
  | stdLongYear =>
      match value with
      | String a (String b (String c (String d rest))) =>
          if isDigitByte a then
            year ← atoi (String a (String b (String c (String d ""))));
            Some (setYear f year, rest)
          else None
      | _ => None
      end
  | stdZeroMonth =>
      '(month, value) ← getnum value true;
      if (month <=? 0) || (12 <? month) then None
      else Some (setMonth f month, value)
  | stdZeroDay =>
      '(day, value) ← getnum value true;
      Some (setDay f day, value)
  | stdHour =>
      '(hour, value) ← getnum value false;
      if (hour <? 0) || (24 <=? hour) then None
      else Some (setHour f hour, value)
  | stdZeroMinute =>
      '(min, value) ← getnum value true;
      if (min <? 0) || (60 <=? min) then None
      else Some (setMin f min, value)
  | stdZeroSecond =>
      '(s, value) ← getnum value true;
      if (s <? 0) || (60 <=? s) then None
      else parseFraction (setSec f s) value
  | stdISO8601ColonTZ => parseZone f value
  end.

Fixpoint parseChunks (cs : list chunk) (f : fields) (value : string)
  : option fields :=
  match cs with
  | [] => if String.eqb value "" then Some f else None   (* extra text *)
  | c :: cs' =>
      '(f, value) ← parseChunk c f value;
      parseChunks cs' f value
  end.

(** The Time of the fields that were read ([time.Parse] reads in UTC). *)
Definition fieldsTime (f : fields) : option Time :=
  let month := if f_month f <? 0 then 1 else f_month f in
  let day := if f_day f <? 0 then 1 else f_day f in
  if (day <? 1) || (daysIn month (f_year f) <? day) then None   (* day out of range *)
  else
    let t := Date (f_year f) month day (f_hour f) (f_min f) (f_sec f) (f_nsec f) in
    if f_z f then Some t
    else if negb (f_zoneOffset f =? -1) then
      Some (mkTime (sec t - f_zoneOffset f) (nsec t) (f_zoneOffset f))
    else Some t.

Definition Parse (l : layout) (value : string) : result ParseError Time :=
  match parseChunks (chunks l) fields0 value ≫= fieldsTime with
  | Some t => Ok t
  | None => Fail (mkParseError (text l) value)
  end.

End time.

(** ** package unicode/utf8 *)

Module utf8.

Definition inRange (lo hi : Z) (c : ascii) : bool :=
  (lo <=? byte_val c) && (byte_val c <=? hi).

(** The length of the well-formed encoding at the head of [s]; 0 when the
    head is not one (a bare continuation byte, an overlong form, a
    surrogate, a value past U+10FFFF or a truncated sequence). *)
Definition encodedLen (s : string) : nat :=
  match s with
  | String a (String b rest) =>
      let cont2 :=
        match rest with
        | String c _ => inRange 128 191 c
        | "" => false
        end in
      let cont3 :=
        match rest with
        | String c (String d _) => inRange 128 191 c && inRange 128 191 d
        | _ => false
        end in
      if inRange 0 127 a then 1%nat
      else if inRange 194 223 a then (if inRange 128 191 b then 2%nat else 0%nat)
      else if inRange 224 224 a then (if inRange 160 191 b && cont2 then 3%nat else 0%nat)
      else if inRange 225 236 a || inRange 238 239 a then
        (if inRange 128 191 b && cont2 then 3%nat else 0%nat)
      else if inRange 237 237 a then (if inRange 128 159 b && cont2 then 3%nat else 0%nat)
      else if inRange 240 240 a then (if inRange 144 191 b && cont3 then 4%nat else 0%nat)
      else if inRange 241 243 a then (if inRange 128 191 b && cont3 then 4%nat else 0%nat)
      else if inRange 244 244 a then (if inRange 128 143 b && cont3 then 4%nat else 0%nat)
      else 0%nat
  | String a "" => if inRange 0 127 a then 1%nat else 0%nat
  | "" => 0%nat
  end.

Definition RuneError : Z := 65533.   (* U+FFFD *)

(** [utf8.AppendRune]. *)
Definition AppendRune (r : Z) : string :=
  let r := if (r <? 0) || (1114111 <? r) || ((55296 <=? r) && (r <=? 57343))
           then RuneError else r in
  if r <? 128 then String (byte_of r) ""
  else if r <? 2048 then
    String (byte_of (Z.lor 192 (Z.shiftr r 6)))
      (String (byte_of (Z.lor 128 (Z.land r 63))) "")
  else if r <? 65536 then
    String (byte_of (Z.lor 224 (Z.shiftr r 12)))
      (String (byte_of (Z.lor 128 (Z.land (Z.shiftr r 6) 63)))
         (String (byte_of (Z.lor 128 (Z.land r 63))) ""))
  else
    String (byte_of (Z.lor 240 (Z.shiftr r 18)))
      (String (byte_of (Z.lor 128 (Z.land (Z.shiftr r 12) 63)))
         (String (byte_of (Z.lor 128 (Z.land (Z.shiftr r 6) 63)))
            (String (byte_of (Z.lor 128 (Z.land r 63))) ""))).

End utf8.

(** ** package encoding/json

    [json.Unmarshal] first checks that the whole input is one JSON text and
    then decodes it into the Go value it is given, guided by that value's
    type.  The model parses the input into a [value] (failing exactly when
    the check fails) and decodes the tree; the decoding at the client's
    envelope type is with the error model below. *)

Module json.

#[warnings="-register-all"]
Inductive value : Type :=
| Null
| Bool (b : bool)
| Number (lit : string)          (* the literal, as written *)
| Str (s : string)               (* unquoted *)
| Array (vs : list value)
| Object (members : list (string * value)).  (* keys unquoted, in order *)

Definition maxNestingDepth : Z := 10000.

Definition isSpace (c : ascii) : bool :=
  Ascii.eqb c " " || Ascii.eqb c "009" || Ascii.eqb c "013" || Ascii.eqb c "010".

Fixpoint skipSpace (s : string) : string :=
  match s with
  | String c rest => if isSpace c then skipSpace rest else s
  | "" => ""
  end.

Definition hexVal (c : ascii) : option Z :=
  let v := byte_val c in
  if (48 <=? v) && (v <=? 57) then Some (v - 48)
  else if (97 <=? v) && (v <=? 102) then Some (v - 97 + 10)
  else if (65 <=? v) && (v <=? 70) then Some (v - 65 + 10)
  else None.

(** The four hex digits of a [\u] escape. *)
Definition getu4 (h1 h2 h3 h4 : ascii) : option Z :=
  a ← hexVal h1; b ← hexVal h2; c ← hexVal h3; d ← hexVal h4;
  Some (((a * 16 + b) * 16 + c) * 16 + d).

Definition isSurrogate (r : Z) : bool := (55296 <=? r) && (r <? 57344).

(** [utf16.DecodeRune]. *)
Definition decodeSurrogates (r1 r2 : Z) : Z :=
  if (55296 <=? r1) && (r1 <? 56320) && (56320 <=? r2) && (r2 <? 57344)
  then Z.lor (Z.shiftl (r1 - 55296) 10) (r2 - 56320) + 65536
  else utf8.RuneError.

(** The low half of a surrogate pair, when [s] starts with a [\u] escape. *)
Definition peekEscape (s : string) : option Z :=
  match s with
  | String "\" (String "u" (String h1 (String h2 (String h3 (String h4 _))))) =>
      getu4 h1 h2 h3 h4
  | _ => None
  end.

(** A string literal after its opening quote: the unquoted bytes and what
    follows the closing quote.  [skip] counts bytes still to be copied or
    dropped: the tail of a multi-byte character, or the second escape of a
    surrogate pair that was decoded with the first.  Bytes that are not
    UTF-8 and unpaired surrogates become U+FFFD. *)
Fixpoint stringBody (s : string) (copy drop : nat) : option (string * string) :=
  match s with
  | "" => None
  | String c rest =>
      match drop, copy with
      | S drop', _ => stringBody rest copy drop'
      | O, S copy' =>
          '(out, tl) ← stringBody rest copy' O; Some (String c out, tl)
      | O, O =>
          if Ascii.eqb c quote_byte then Some ("", rest)
          else if byte_val c <? 32 then None
          else if Ascii.eqb c "\" then
            match rest with
            | String e rest' =>
                let plain (b : ascii) :=
                  '(out, tl) ← stringBody rest' O O; Some (String b out, tl) in
                if Ascii.eqb e quote_byte then plain quote_byte
                else if Ascii.eqb e "\" then plain "\"%char
                else if Ascii.eqb e "/" then plain "/"%char
                else if Ascii.eqb e "b" then plain "008"%char
                else if Ascii.eqb e "f" then plain "012"%char
                else if Ascii.eqb e "n" then plain "010"%char
                else if Ascii.eqb e "r" then plain "013"%char
                else if Ascii.eqb e "t" then plain "009"%char
                else if Ascii.eqb e "u" then
                  match rest' with
                  | String h1 (String h2 (String h3 (String h4 after))) =>
                      rr ← getu4 h1 h2 h3 h4;
                      let pair :=
                        if isSurrogate rr then
                          match peekEscape after with
                          | Some rr1 =>
                              let dec := decodeSurrogates rr rr1 in
                              if dec =? utf8.RuneError then None else Some dec
                          | None => None
                          end
                        else None in
                      match pair with
                      | Some dec =>
                          '(out, tl) ← stringBody rest' O 10;
                          Some (utf8.AppendRune dec +:+ out, tl)
                      | None =>
                          '(out, tl) ← stringBody rest' O 4;
                          Some (utf8.AppendRune rr +:+ out, tl)
                      end
                  | _ => None
                  end
                else None
            | "" => None
            end
          else if byte_val c <? 128 then
            '(out, tl) ← stringBody rest O O; Some (String c out, tl)
          else
            match utf8.encodedLen s with
            | S n =>
                '(out, tl) ← stringBody rest n O; Some (String c out, tl)
            | O =>
                '(out, tl) ← stringBody rest O O;
                Some (utf8.AppendRune utf8.RuneError +:+ out, tl)
            end
      end
  end.

Fixpoint spanDigits (s : string) : string * string :=
  match s with
  | String c rest =>
      if isDigitByte c then
        let '(ds, tl) := spanDigits rest in (String c ds, tl)
      else ("", s)
  | "" => ("", "")
  end.

(** A number literal: its text and what follows it. *)
Definition numberLit (s : string) : option (string * string) :=
  let '(sign, s) :=
    match s with
    | String "-" rest => ("-", rest)
    | _ => ("", s)
    end in
  '(int, s) ←
    match s with
    | String "0" rest => Some ("0", rest)
    | String c rest =>
        if isDigitByte c then
          let '(ds, tl) := spanDigits rest in Some (String c ds, tl)
        else None
    | "" => None
    end;
  '(frac, s) ←
    match s with
    | String "." rest =>
        let '(ds, tl) := spanDigits rest in
        if String.eqb ds "" then None else Some ("." +:+ ds, tl)
    | _ => Some ("", s)
    end;
  '(exp, s) ←
    match s with
    | String e rest =>
        if Ascii.eqb e "e" || Ascii.eqb e "E" then
          let '(sg, rest) :=
            match rest with
            | String "+" r => ("+", r)
            | String "-" r => ("-", r)
            | _ => ("", rest)
            end in
          let '(ds, tl) := spanDigits rest in
          if String.eqb ds "" then None else Some (String e sg +:+ ds, tl)
        else Some ("", s)
    | "" => Some ("", s)
    end;
  Some (sign +:+ int +:+ frac +:+ exp, s).

(** One JSON value at the head of [s] (after white space) and the rest.
    [depth] counts the arrays and objects that are open. *)
Fixpoint parseValue (fuel : nat) (depth : Z) (s : string) : option (value * string) :=
  match fuel with
  | O => None
  | S fuel' =>
      match skipSpace s with
      | String "{" rest =>
          if maxNestingDepth <? depth + 1 then None
          else
            match skipSpace rest with
            | String "}" rest' => Some (Object [], rest')
            | _ =>
                '(ms, rest') ← parseMembers fuel' (depth + 1) rest;
                Some (Object ms, rest')
            end
      | String "[" rest =>
          if maxNestingDepth <? depth + 1 then None
          else
            match skipSpace rest with
            | String "]" rest' => Some (Array [], rest')
            | _ =>
                '(vs, rest') ← parseElements fuel' (depth + 1) rest;
                Some (Array vs, rest')
            end
      | String "t" (String "r" (String "u" (String "e" rest))) =>
          Some (Bool true, rest)
      | String "f" (String "a" (String "l" (String "s" (String "e" rest)))) =>
          Some (Bool false, rest)
      | String "n" (String "u" (String "l" (String "l" rest))) =>
          Some (Null, rest)
      | String c rest =>
          if Ascii.eqb c quote_byte then
            '(str, rest') ← stringBody rest O O; Some (Str str, rest')
          else
            '(lit, rest') ← numberLit (String c rest); Some (Number lit, rest')
      | "" => None
      end
  end
with parseMembers (fuel : nat) (depth : Z) (s : string)
  : option (list (string * value) * string) :=
  match fuel with
  | O => None
  | S fuel' =>
      match skipSpace s with
      | String c rest =>
          if Ascii.eqb c quote_byte then
            '(key, rest) ← stringBody rest O O;
            match skipSpace rest with
            | String ":" rest =>
                '(v, rest) ← parseValue fuel' depth rest;
                match skipSpace rest with
                | String "," rest =>
                    '(ms, rest) ← parseMembers fuel' depth rest;
                    Some ((key, v) :: ms, rest)
                | String "}" rest => Some ([(key, v)], rest)
                | _ => None
                end
            | _ => None
            end
          else None
      | "" => None
      end
  end
with parseElements (fuel : nat) (depth : Z) (s : string)
  : option (list value * string) :=
  match fuel with
  | O => None
  | S fuel' =>
      '(v, rest) ← parseValue fuel' depth s;
      match skipSpace rest with
      | String "," rest =>
          '(vs, rest) ← parseElements fuel' depth rest;
          Some (v :: vs, rest)
      | String "]" rest => Some ([v], rest)
      | _ => None
      end
  end.

(** The whole input as one JSON text ([checkValid]).  Any two nested calls
    use up at least one byte of input between them, so the fuel outlasts
    the input. *)
Definition parse (s : string) : option value :=
  '(v, rest) ← parseValue (2 * String.length s + 2) 0 s;
  if String.eqb (skipSpace rest) "" then Some v else None.

(** *** Field names

    A member of an object is stored in the struct field whose name equals
    its key, or equals it under Unicode simple case folding.  The field names
    of the client are ASCII; the only characters outside ASCII that fold to
    an ASCII letter are U+017F (long s) and U+212A (Kelvin sign), so folding
    ASCII letters and these two decides the match. *)
Fixpoint foldName (s : string) : string :=
  match s with
  | String "197" (String "191" rest) => String "S" (foldName rest)
  | String "226" (String "132" (String "170" rest)) => String "K" (foldName rest)
  | String c rest =>
      let v := byte_val c in
      String (if (97 <=? v) && (v <=? 122) then byte_of (v - 32) else c)
             (foldName rest)
  | "" => ""
  end.

Definition fieldMatches (name key : string) : bool :=
  String.eqb (foldName key) (foldName name).

(** [strconv.ParseInt(lit, 10, 64)] on a JSON number literal: an optional
    minus sign and digits only, within the 64-bit range. *)
Fixpoint decimal (s : string) (acc : Z) : option Z :=
  match s with
  | String c rest => if isDigitByte c then decimal rest (acc * 10 + digit_val c) else None
  | "" => Some acc
  end.

Definition ParseInt64 (lit : string) : option Z :=
  let '(neg, ds) :=
    match lit with
    | String "-" rest => (true, rest)
    | _ => (false, lit)
    end in
  if String.eqb ds "" then None
  else
    n ← decimal ds 0;
    let n := if neg : bool then - n else n in
    if (- 9223372036854775808 <=? n) && (n <=? 9223372036854775807) then Some n
    else None.

(** *** Encoding *)

Definition hexDigit (d : Z) : ascii :=
  if d <? 10 then byte_of (48 + d) else byte_of (97 + d - 10).

(** [appendString] with HTML escaping on, as [json.Marshal] calls it, between
    the quotes.  [copy] counts the bytes of a multi-byte character still to
    be copied. *)
Fixpoint escapeString (s : string) (copy : nat) : string :=
  match s with
  | "" => ""
  | String c rest =>
      match copy with
      | S copy' => String c (escapeString rest copy')
      | O =>
          let v := byte_val c in
          if v <? 128 then
            if Ascii.eqb c quote_byte || Ascii.eqb c "\" then
              String "\" (String c (escapeString rest O))
            else if v =? 8 then "\b" +:+ escapeString rest O
            else if v =? 12 then "\f" +:+ escapeString rest O
            else if v =? 10 then "\n" +:+ escapeString rest O
            else if v =? 13 then "\r" +:+ escapeString rest O
            else if v =? 9 then "\t" +:+ escapeString rest O
            else if (v <? 32) || Ascii.eqb c "<" || Ascii.eqb c ">" || Ascii.eqb c "&" then
              "\" +:+ "u00" +:+ String (hexDigit (Z.shiftr v 4))
                          (String (hexDigit (Z.land v 15)) (escapeString rest O))
            else String c (escapeString rest O)
          else
            match utf8.encodedLen s with
            | O => "\" +:+ "ufffd" +:+ escapeString rest O
            | S n =>
                match s with
                | String "226" (String "128" (String "168" _)) =>
                    "\" +:+ "u2028" +:+ dropTail rest
                | String "226" (String "128" (String "169" _)) =>
                    "\" +:+ "u2029" +:+ dropTail rest
                | _ => String c (escapeString rest n)
                end
            end
      end
  end
with dropTail (s : string) : string :=
  match s with
  | String _ (String _ rest) => escapeString rest O
  | _ => ""
  end.

Inductive error : Type :=
| SyntaxError           (* the input is not one JSON text *)
| UnmarshalTypeError    (* a JSON value does not fit the Go type *)
| MarshalError (msg : string).

(** [json.Marshal(nil)] and [json.Marshal] of a Go string. *)
Definition Marshal_nil : result error string := Ok "null".

Definition Marshal_string (s : string) : result error string :=
  Ok (quote_str +:+ escapeString s O +:+ quote_str).

End json.

(** ** package encoding/base64 *)

Module base64.

Definition encodeStd : string :=
  "ABCDEFGHIJKLMNOPQRSTUVWXYZabcdefghijklmnopqrstuvwxyz0123456789+/".

Definition enc (i : Z) : ascii :=
  match String.get (Z.to_nat (Z.land i 63)) encodeStd with
  | Some c => c
  | None => "="%char
  end.

(** [base64.StdEncoding.EncodeToString]. *)
Fixpoint EncodeToString (src : string) : string :=
  match src with
  | String a (String b (String c rest)) =>
      let v := Z.lor (Z.lor (Z.shiftl (byte_val a) 16) (Z.shiftl (byte_val b) 8)) (byte_val c) in
      String (enc (Z.shiftr v 18)) (String (enc (Z.shiftr v 12))
        (String (enc (Z.shiftr v 6)) (String (enc v) (EncodeToString rest))))
  | String a (String b "") =>
      let v := Z.lor (Z.shiftl (byte_val a) 16) (Z.shiftl (byte_val b) 8) in
      String (enc (Z.shiftr v 18)) (String (enc (Z.shiftr v 12))
        (String (enc (Z.shiftr v 6)) "="))
  | String a "" =>
      let v := Z.shiftl (byte_val a) 16 in
      String (enc (Z.shiftr v 18)) (String (enc (Z.shiftr v 12)) "==")
  | "" => ""
  end.

End base64.

(** ** package net/http

    A request is what the client hands to the transport: method, URL text,
    header map and body bytes.  The context of a request (deadline,
    cancellation) is not modelled. *)

Module http.

Definition MethodGet : string := "GET".
Definition MethodPost : string := "POST".

Record Request : Type := mkRequest {
  Method : string;
  URL : string;
  Header : gmap string (list string);
  Body : option string
}.

(** What [io.ReadAll(resp.Body)] gives is kept with the response. *)
Record Response : Type := mkResponse {
  StatusCode : Z;
  ReadAll : result string string
}.

Definition isTokenByte (c : ascii) : bool :=
  let v := byte_val c in
  ((48 <=? v) && (v <=? 57)) || ((65 <=? v) && (v <=? 90)) || ((97 <=? v) && (v <=? 122))
  || strings.IndexByte "!#$%&'*+-.^_`|~" c.

Fixpoint allToken (s : string) : bool :=
  match s with
  | String c rest => isTokenByte c && allToken rest
  | "" => true
  end.

Fixpoint canonical (s : string) (upper : bool) : string :=
  match s with
  | String c rest =>
      let v := byte_val c in
      let c' :=
        if upper && (97 <=? v) && (v <=? 122) then byte_of (v - 32)
        else if negb upper && (65 <=? v) && (v <=? 90) then byte_of (v + 32)
        else c in
      String c' (canonical rest (Ascii.eqb c "-"))
  | "" => ""
  end.

(** [textproto.CanonicalMIMEHeaderKey]. *)
Definition CanonicalHeaderKey (s : string) : string :=
  if allToken s then canonical s true else s.

(** [Header.Set] and [Header.Get]. *)
Definition Header_Set (h : gmap string (list string)) (key value : string)
  : gmap string (list string) :=
  <[CanonicalHeaderKey key := [value]]> h.

Definition Header_Get (h : gmap string (list string)) (key : string) : string :=
  match h !! CanonicalHeaderKey key with
  | Some (v :: _) => v
  | _ => ""
  end.

Definition setHeader (r : Request) (key value : string) : Request :=
  mkRequest (Method r) (URL r) (Header_Set (Header r) key value) (Body r).

(** [Request.SetBasicAuth]. *)
Definition SetBasicAuth (r : Request) (username password : string) : Request :=
  setHeader r "Authorization"
    ("Basic " +:+ base64.EncodeToString (username +:+ ":" +:+ password)).

Section NewRequest.

(** [url.Parse] is not modelled: whether it accepts a URL text is a
    parameter. *)
Variable url_Parse_ok : string -> bool.

(** [http.NewRequestWithContext] with a context that is not nil. *)
Definition NewRequestWithContext (method url : string) (body : option string)
  : result string Request :=
  let method := if String.eqb method "" then "GET" else method in
  if negb (allToken method) then Fail "net/http: invalid method"
  else if negb (url_Parse_ok url) then Fail "parse: invalid URL"
  else Ok (mkRequest method url ∅ body).

End NewRequest.

End http.

(** ** package fmt

    The verb [%d] of [Sprintf] at an integer argument: the decimal digits
    of its absolute value, a minus sign first when it is negative. *)

Module fmt.

Definition formatInt (x : Z) : string :=
  (if x <? 0 then "-" else "") +:+ time.utoa 20 (Z.abs x) "".

End fmt.

(** ** package qi *)

Module qi.

(** *** errors.go *)

Definition ErrorCode : Type := Z.

Definition ErrorCodeOrderAlreadyExists : ErrorCode := 1.
Definition ErrorCodeOrderNotFound : ErrorCode := 2.
Definition ErrorCodeOrderAlreadyCancelled : ErrorCode := 3.
Definition ErrorCodeNoCompatibleServicesFound : ErrorCode := 4.
Definition ErrorCodeCanNotProcessRequest : ErrorCode := 5.
Definition ErrorCodeRequisitesNotFound : ErrorCode := 6.
Definition ErrorCodeRequisitesAlreadyExists : ErrorCode := 7.
Definition ErrorCodeCanNotCreateNewRequisites : ErrorCode := 8.
Definition ErrorCodeTerminalNotFoundException : ErrorCode := 9.
Definition ErrorCodePaymentAlreadyExists : ErrorCode := 10.
Definition ErrorCodeMaxNumberOfPaymentsForOrderExceeded : ErrorCode := 11.
Definition ErrorCodePaymentNotFound : ErrorCode := 12.
Definition ErrorCodeUnknownStrategy : ErrorCode := 13.
Definition ErrorCodeProcessingImpossible : ErrorCode := 14.
Definition ErrorCodeCanNotCancelPayment : ErrorCode := 15.
Definition ErrorCodeCanNotConfirmPayment : ErrorCode := 16.
Definition ErrorCodeCanNotFinishAuthentication : ErrorCode := 17.
Definition ErrorCodeRefundsNotAllowed : ErrorCode := 18.
Definition ErrorCodePaymentParamsNotFound : ErrorCode := 19.
Definition ErrorCodeRefundError : ErrorCode := 20.
Definition ErrorCodeValidationError : ErrorCode := 21.
Definition ErrorCodeIncorrectPaymentState : ErrorCode := 22.
Definition ErrorCodeInternalSystemError : ErrorCode := 23.
Definition ErrorCodeExternalSystemError : ErrorCode := 24.
Definition ErrorCodeInvalidPaymentFormDomain : ErrorCode := 26.
Definition ErrorCodeBadCredentials : ErrorCode := 27.
Definition ErrorCodeLimitViolation : ErrorCode := 28.
Definition ErrorCodeTransferNotFound : ErrorCode := 29.
Definition ErrorCodeIncorrectTransferState : ErrorCode := 30.
Definition ErrorCodeTokenNotFound : ErrorCode := 31.
Definition ErrorCodeTokenProcessNotAllowed : ErrorCode := 32.
Definition ErrorCodeCanNotCancelTransfer : ErrorCode := 33.
Definition ErrorCodeTransferAlreadyExists : ErrorCode := 34.
Definition ErrorCodeInvalidTokenType : ErrorCode := 35.

Definition ErrorMessage : Type := string.

Definition ErrorMessageOrderAlreadyExists : ErrorMessage := "ORDER_ALREADY_EXISTS".
Definition ErrorMessageOrderNotFound : ErrorMessage := "ORDER_NOT_FOUND".
Definition ErrorMessageOrderAlreadyCancelled : ErrorMessage := "ORDER_ALREADY_CANCELLED".
Definition ErrorMessageNoCompatibleServicesFound : ErrorMessage := "NO_COMPATIBLE_SERVICES_FOUND".
Definition ErrorMessageCanNotProcessRequest : ErrorMessage := "CAN_NOT_PROCESS_REQUEST".
Definition ErrorMessageRequisitesNotFound : ErrorMessage := "REQUISITES_NOT_FOUND".
Definition ErrorMessageRequisitesAlreadyExists : ErrorMessage := "REQUISITES_ALREADY_EXISTS".
Definition ErrorMessageCanNotCreateNewRequisites : ErrorMessage := "CAN_NOT_CREATE_NEW_REQUISITES".
Definition ErrorMessageTerminalNotFoundException : ErrorMessage := "TERMINAL_NOT_FOUND_EXCEPTION".
Definition ErrorMessagePaymentAlreadyExists : ErrorMessage := "PAYMENT_ALREADY_EXISTS".
Definition ErrorMessageMaxNumberOfPaymentsForOrderExceeded : ErrorMessage := "MAX_NUMBER_OF_PAYMENTS_FOR_ORDER_EXCEEDED".
Definition ErrorMessagePaymentNotFound : ErrorMessage := "PAYMENT_NOT_FOUND".
Definition ErrorMessageUnknownStrategy : ErrorMessage := "UNKNOWN_STRATEGY".
Definition ErrorMessageProcessingImpossible : ErrorMessage := "PROCESSING_IMPOSSIBLE".
Definition ErrorMessageCanNotCancelPayment : ErrorMessage := "CAN_NOT_CANCEL_PAYMENT".
Definition ErrorMessageCanNotConfirmPayment : ErrorMessage := "CAN_NOT_CONFIRM_PAYMENT".
Definition ErrorMessageCanNotFinishAuthentication : ErrorMessage := "CAN_NOT_FINISH_AUTHENTICATION".
Definition ErrorMessageRefundsNotAllowed : ErrorMessage := "REFUNDS_NOT_ALLOWED".
Definition ErrorMessagePaymentParamsNotFound : ErrorMessage := "PAYMENT_PARAMS_NOT_FOUND".
Definition ErrorMessageRefundError : ErrorMessage := "REFUND_ERROR".
Definition ErrorMessageValidationError : ErrorMessage := "VALIDATION_ERROR".
Definition ErrorMessageIncorrectPaymentState : ErrorMessage := "INCORRECT_PAYMENT_STATE".
Definition ErrorMessageInternalSystemError : ErrorMessage := "INTERNAL_SYSTEM_ERROR".
Definition ErrorMessageExternalSystemError : ErrorMessage := "EXTERNAL_SYSTEM_ERROR".
Definition ErrorMessageInvalidPaymentFormDomain : ErrorMessage := "INVALID_PAYMENT_FORM_DOMAIN".
Definition ErrorMessageBadCredentials : ErrorMessage := "BAD_CREDENTIALS".
Definition ErrorMessageLimitViolation : ErrorMessage := "LIMIT_VIOLATION".
Definition ErrorMessageTransferNotFound : ErrorMessage := "TRANSFER_NOT_FOUND".
Definition ErrorMessageIncorrectTransferState : ErrorMessage := "INCORRECT_TRANSFER_STATE".
Definition ErrorMessageTokenNotFound : ErrorMessage := "TOKEN_NOT_FOUND".
Definition ErrorMessageTokenProcessNotAllowed : ErrorMessage := "TOKEN_PROCESS_NOT_ALLOWED".
Definition ErrorMessageCanNotCancelTransfer : ErrorMessage := "CAN_NOT_CANCEL_TRANSFER".
Definition ErrorMessageTransferAlreadyExists : ErrorMessage := "TRANSFER_ALREADY_EXISTS".
Definition ErrorMessageInvalidTokenType : ErrorMessage := "INVALID_TOKEN_TYPE".

Record ErrorDetails : Type := mkErrorDetails {
  Code : ErrorCode;
  Message : ErrorMessage
}.

(** The envelope [{"error": {"code": ..., "message": ...}}]. *)
Record Error : Type := mkError { Error_ : ErrorDetails }.

Record APIError : Type := mkAPIError {
  StatusCode : Z;
  APIError_Message : string;
  Err : option Error      (* a pointer: [None] is nil *)
}.

Definition IsNotFound (e : APIError) : bool :=
  match Err e with
  | Some err =>
      (Code (Error_ err) =? ErrorCodePaymentNotFound)
      || (Code (Error_ err) =? ErrorCodeOrderNotFound)
      || (Code (Error_ err) =? ErrorCodeTransferNotFound)
      || (Code (Error_ err) =? ErrorCodeTokenNotFound)
  | None => StatusCode e =? 404
  end.

Definition IsValidationError (e : APIError) : bool :=
  match Err e with
  | Some err => Code (Error_ err) =? ErrorCodeValidationError
  | None => StatusCode e =? 400
  end.

Definition IsAuthenticationError (e : APIError) : bool :=
  match Err e with
  | Some err => Code (Error_ err) =? ErrorCodeBadCredentials
  | None => StatusCode e =? 401
  end.

(** [(e *APIError) Error()]: the text of the error. *)
Definition APIError_Error (e : APIError) : string :=
  match Err e with
  | Some err =>
      "API error (status " +:+ fmt.formatInt (StatusCode e) +:+ "): code="
      +:+ fmt.formatInt (Code (Error_ err)) +:+ ", message=" +:+ Message (Error_ err)
  | None =>
      "API error (status " +:+ fmt.formatInt (StatusCode e) +:+ "): "
      +:+ APIError_Message e
  end.

(** The zero values [ErrorDetails{}] and [Error{}]. *)
Definition zeroErrorDetails : ErrorDetails := mkErrorDetails 0 "".
Definition zeroError : Error := mkError zeroErrorDetails.

(** *** [json.Unmarshal] at the envelope type

    What the decoder does with a JSON value for a destination of type
    [ErrorDetails] (fields [code] of integer kind and [message] of string
    kind) and of type [Error] (field [error]).  A [null] leaves the
    destination as it is, an unknown key is skipped, a later duplicate key
    overwrites, and a value of the wrong JSON kind makes the call return an
    [UnmarshalTypeError]. *)

Definition storeDetailsField (d : ErrorDetails) (m : string * json.value)
  : option ErrorDetails :=
  let '(key, v) := m in
  if json.fieldMatches "code" key then
    match v with
    | json.Null => Some d
    | json.Number lit => n ← json.ParseInt64 lit; Some (mkErrorDetails n (Message d))
    | _ => None
    end
  else if json.fieldMatches "message" key then
    match v with
    | json.Null => Some d
    | json.Str str => Some (mkErrorDetails (Code d) str)
    | _ => None
    end
  else Some d.

Fixpoint storeAll {A : Type} (store : A -> string * json.value -> option A)
    (ms : list (string * json.value)) (a : A) : option A :=
  match ms with
  | [] => Some a
  | m :: ms' => a' ← store a m; storeAll store ms' a'
  end.

Definition decodeErrorDetails (v : json.value) (d : ErrorDetails)
  : option ErrorDetails :=
  match v with
  | json.Null => Some d
  | json.Object ms => storeAll storeDetailsField ms d
  | _ => None
  end.

Definition storeErrorField (e : Error) (m : string * json.value) : option Error :=
  let '(key, v) := m in
  if json.fieldMatches "error" key then
    d ← decodeErrorDetails v (Error_ e); Some (mkError d)
  else Some e.

Definition decodeError (v : json.value) (e : Error) : option Error :=
  match v with
  | json.Null => Some e
  | json.Object ms => storeAll storeErrorField ms e
  | _ => None
  end.

(** [json.Unmarshal(data, &apiErr)]. *)
Definition Unmarshal_Error (data : string) (apiErr : Error) : result json.error Error :=
  match json.parse data with
  | None => Fail json.SyntaxError
  | Some v =>
      match decodeError v apiErr with
      | Some e => Ok e
      | None => Fail json.UnmarshalTypeError
      end
  end.

(** *** The types file: the timestamp codec *)

Record Time : Type := NewTime { Time_ : time.Time }.

(** The zero value [Time{}]. *)
Definition zeroTime : Time := NewTime time.zero.

(** [(t *Time) UnmarshalJSON(data)]: the Time the receiver holds after the
    call, and the error returned. *)
Definition UnmarshalJSON (t : Time) (data : string) : Time * option time.ParseError :=
  let s := strings.Trim data quote_str in
  if String.eqb s "null" || String.eqb s "" then (t, None)
  else
    match time.Parse time.RFC3339 s with
    | Ok parsed => (NewTime parsed, None)
    | Fail _ =>
        match time.Parse time.naiveLayout s with
        | Fail err => (t, Some err)
        | Ok parsed => (NewTime parsed, None)
        end
    end.

Definition MarshalJSON (t : Time) : result json.error string :=
  if time.IsZero (Time_ t) then json.Marshal_nil
  else json.Marshal_string (time.Format (Time_ t) time.RFC3339).

(** *** The client file *)

Definition DefaultBaseURL : string := "https://api.qi.iq/api/v1".

(** The HTTP client of a [Client] is what its [Do] answers to a request: a
    response, or a transport error. *)
Definition HTTPClient : Type := http.Request -> result string http.Response.

Record Client : Type := mkClient {
  baseURL : string;
  terminalID : string;
  username : string;
  password : string;
  signature : string;
  httpClient : HTTPClient
}.

Definition ClientOption : Type := Client -> Client.

Definition WithBaseURL (url : string) : ClientOption := fun c =>
  mkClient url (terminalID c) (username c) (password c) (signature c) (httpClient c).

Definition WithHTTPClient (client : HTTPClient) : ClientOption := fun c =>
  mkClient (baseURL c) (terminalID c) (username c) (password c) (signature c) client.

Definition WithBasicAuth (username password : string) : ClientOption := fun c =>
  mkClient (baseURL c) (terminalID c) username password (signature c) (httpClient c).

Definition WithSignature (signature : string) : ClientOption := fun c =>
  mkClient (baseURL c) (terminalID c) (username c) (password c) signature (httpClient c).

(** The errors a call returns. *)
Inductive error : Type :=
| failedToMarshal (cause : json.error)      (* failed to marshal request body *)
| failedToCreate (cause : string)           (* failed to create request *)
| failedToExecute (cause : string)          (* failed to execute request *)
| failedToRead (cause : string)             (* failed to read response body *)
| failedToUnmarshal (cause : json.error)    (* failed to unmarshal response *)
| apiError (e : APIError).                  (* an *APIError *)

(** What a call did: the requests it handed to the HTTP client, the value
    behind the result pointer afterwards ([None] for a nil pointer) and the
    error it returned ([None] for nil). *)
Record Call (R : Type) : Type := mkCall {
  sent : list http.Request;
  value : option R;
  failure : option error
}.
Arguments mkCall {R} sent value failure.
Arguments sent {R} c.
Arguments value {R} c.
Arguments failure {R} c.

(** [json.Marshal] and [json.Unmarshal] at the types of the request and
    response records.  The records hold [float64] amounts and open maps, so
    their codecs are taken as given; [Unmarshal] returns the destination as
    the decoder left it and the error. *)
Class Marshal (B : Type) : Type := marshal : B -> result json.error string.
Class Unmarshal (R : Type) : Type := unmarshal : string -> R -> R * option json.error.
Class Zero (R : Type) : Type := zeroValue : R.

(** A pointer marshals as [null] when nil and as what it points to otherwise. *)
#[global] Instance marshal_pointer {B} `{Marshal B} : Marshal (option B) := fun p =>
  match p with
  | Some b => marshal b
  | None => Ok "null"
  end.

(** A call without a body passes the untyped nil: a body of no type. *)
#[global] Instance marshal_nil : Marshal Empty_set := fun b => match b with end.

Definition noBody : option Empty_set := None.

Section Pipeline.

Variable url_Parse_ok : string -> bool.

(** The Go runtime's default transport: the network. *)
Variable defaultHTTPClient : HTTPClient.

Definition NewClient (terminalID : string) (opts : list ClientOption) : Client :=
  let c := mkClient DefaultBaseURL terminalID "" "" "" defaultHTTPClient in
  fold_left (fun c opt => opt c) opts c.

(** The headers every request gets, and the two kinds of credentials. *)
Definition setHeaders (c : Client) (req : http.Request) : http.Request :=
  let req := http.setHeader req "Content-Type" "application/json" in
  let req := http.setHeader req "Accept" "application/json" in
  let req := http.setHeader req "X-Terminal-Id" (terminalID c) in
  let req :=
    if negb (String.eqb (username c) "") && negb (String.eqb (password c) "")
    then http.SetBasicAuth req (username c) (password c) else req in
  if negb (String.eqb (signature c) "")
  then http.setHeader req "X-Signature" (signature c) else req.

(** The first half of [doRequest]: the body is encoded, the request is
    created and its headers are set. *)
Definition buildRequest {B : Type} `{Marshal B}
    (c : Client) (method path : string) (body : option B)
  : result error http.Request :=
  let reqBody :=
    match body with
    | Some b =>
        match marshal b with
        | Ok jsonBody => Ok (Some jsonBody)
        | Fail err => Fail (failedToMarshal err)
        end
    | None => Ok None
    end in
  match reqBody with
  | Fail err => Fail err
  | Ok reqBody =>
      match http.NewRequestWithContext url_Parse_ok method (baseURL c +:+ path) reqBody with
      | Fail err => Fail (failedToCreate err)
      | Ok req => Ok (setHeaders c req)
      end
  end.

(** [doRequest]: [body] and [result] are [None] when the caller passes nil. *)
Definition doRequest {B R : Type} `{Marshal B} `{Unmarshal R}
    (c : Client) (method path : string) (body : option B) (result : option R)
  : Call R :=
  match buildRequest c method path body with
  | Fail err => mkCall [] result (Some err)
  | Ok req =>
      match httpClient c req with
      | Fail err => mkCall [req] result (Some (failedToExecute err))
      | Ok resp =>
          match http.ReadAll resp with
          | Fail err => mkCall [req] result (Some (failedToRead err))
          | Ok respBody =>
              if 400 <=? http.StatusCode resp then
                match Unmarshal_Error respBody zeroError with
                | Fail _ =>
                    mkCall [req] result
                      (Some (apiError (mkAPIError (http.StatusCode resp) respBody None)))
                | Ok apiErr =>
                    mkCall [req] result
                      (Some (apiError (mkAPIError (http.StatusCode resp) "" (Some apiErr))))
                end
              else
                match result with
                | Some r =>
                    if (0 <? String.length respBody)%nat then
                      match unmarshal respBody r with
                      | (r', Some err) =>
                          mkCall [req] (Some r') (Some (failedToUnmarshal err))
                      | (r', None) => mkCall [req] (Some r') None
                      end
                    else mkCall [req] result None
                | None => mkCall [req] result None
                end
          end
      end
  end.

(** An exported operation declares a zero result, runs [doRequest] on a
    pointer to it, and returns nil and the error, or the pointer and nil. *)
Definition returned {R : Type} (call : Call R) : Call R :=
  match failure call with
  | Some err => mkCall (sent call) None (Some err)
  | None => mkCall (sent call) (value call) None
  end.

(** The request and response records of the types file. *)
Context {CreatePaymentRequest CancelPaymentRequest CreateRefundRequest : Type}.
Context {Payment PaymentStatusResponse PaymentCancelResponse Refund : Type}.
Context `{Marshal CreatePaymentRequest} `{Marshal CancelPaymentRequest}
        `{Marshal CreateRefundRequest}.
Context `{Unmarshal Payment} `{Zero Payment}
        `{Unmarshal PaymentStatusResponse} `{Zero PaymentStatusResponse}
        `{Unmarshal PaymentCancelResponse} `{Zero PaymentCancelResponse}
        `{Unmarshal Refund} `{Zero Refund}.

Definition CreatePayment (c : Client) (req : option CreatePaymentRequest)
  : Call Payment :=
  returned (doRequest c http.MethodPost "/payment" (Some req) (Some zeroValue)).

Definition GetPaymentStatus (c : Client) (paymentID : string)
  : Call PaymentStatusResponse :=
  returned (doRequest c http.MethodGet ("/payment/" +:+ paymentID +:+ "/status")
              noBody (Some zeroValue)).

Definition GetPaymentStatusByRequest (c : Client) (requestID : string)
  : Call PaymentStatusResponse :=
  returned (doRequest c http.MethodGet ("/payment/status/by/request/" +:+ requestID)
              noBody (Some zeroValue)).

Definition CancelPayment (c : Client) (paymentID : string)
    (req : option CancelPaymentRequest) : Call PaymentCancelResponse :=
  returned (doRequest c http.MethodPost ("/payment/" +:+ paymentID +:+ "/cancel")
              (Some req) (Some zeroValue)).

Definition CancelPaymentByRequest (c : Client) (requestID : string)
    (req : option CancelPaymentRequest) : Call PaymentCancelResponse :=
  returned (doRequest c http.MethodPost ("/payment/cancel/by/request/" +:+ requestID)
              (Some req) (Some zeroValue)).

Definition RefundPayment (c : Client) (paymentID : string)
    (req : option CreateRefundRequest) : Call Refund :=
  returned (doRequest c http.MethodPost ("/payment/" +:+ paymentID +:+ "/refund")
              (Some req) (Some zeroValue)).

Definition RefundPaymentByRequest (c : Client) (requestID : string)
    (req : option CreateRefundRequest) : Call Refund :=
  returned (doRequest c http.MethodPost ("/payment/refund/by/request/" +:+ requestID)
              (Some req) (Some zeroValue)).

End Pipeline.

End qi.

(** ** Test fixtures: servers, record types and texts used in examples *)

Module fixtures.

(** JSON texts are written with apostrophes for the quotes. *)
Fixpoint dq (s : string) : string :=
  match s with
  | String c rest => String (if Ascii.eqb c "'" then quote_byte else c) (dq rest)
  | "" => ""
  end.

(** A server that answers every request with one status and body. *)
Definition server (status : Z) (body : string) : qi.HTTPClient :=
  fun _ => Ok (http.mkResponse status (Ok body)).

Definition anyURL : string -> bool := fun _ => true.

Definition offline : qi.HTTPClient := fun _ => Fail "dial tcp: connection refused".

(** A record type that is its own JSON text. *)
Record raw : Type := mkRaw { rawText : string }.

#[global] Instance raw_marshal : qi.Marshal raw := fun r => Ok (rawText r).
#[global] Instance raw_unmarshal : qi.Unmarshal raw := fun data _ => (mkRaw data, None).
#[global] Instance raw_zero : qi.Zero raw := mkRaw "".

Definition testClient (h : qi.HTTPClient) : qi.Client :=
  qi.NewClient offline "test-terminal"
    [qi.WithBaseURL "http://127.0.0.1:8080"; qi.WithHTTPClient h].

Definition authClient (h : qi.HTTPClient) : qi.Client :=
  qi.NewClient offline "test-terminal"
    [qi.WithBaseURL "http://127.0.0.1:8080"; qi.WithHTTPClient h;
     qi.WithBasicAuth "username" "password"; qi.WithSignature "sig-1"].

End fixtures.

(** ** Vocabulary of the statements *)

Module spec.

(** The basic-auth header value for a user name and password. *)
Definition basicAuth (username password : string) : string :=
  "Basic " +:+ base64.EncodeToString (username +:+ ":" +:+ password).

(** The header contract of a request sent by client [c]. *)
Definition headerContract (c : qi.Client) (req : http.Request) : Prop :=
  let h := http.Header req in
  h !! "X-Terminal-Id" = Some [qi.terminalID c]
  /\ h !! "Authorization"
     = (if decide (qi.username c <> "" /\ qi.password c <> "")
        then Some [basicAuth (qi.username c) (qi.password c)] else None)
  /\ h !! "X-Signature"
     = (if decide (qi.signature c <> "") then Some [qi.signature c] else None).

(** A call issues [method] on [url]: it sends at most one request, and a
    request it sends has that method and that URL. *)
Definition issues {R : Type} (call : qi.Call R) (method url : string) : Prop :=
  (List.length (qi.sent call) <= 1)%nat
  /\ forall r, In r (qi.sent call) -> http.Method r = method /\ http.URL r = url.

(** A call sends [method] on [url]: it hands the HTTP client exactly one
    request, with that method and that URL. *)
Definition sends {R : Type} (call : qi.Call R) (method url : string) : Prop :=
  exists r, qi.sent call = [r] /\ http.Method r = method /\ http.URL r = url.

(** A call issues [method] on [url] when [ready]: it sends this request
    exactly when [ready] holds, and whatever it sends is this request, once. *)
Definition issuesWhen {R : Type} (ready : Prop) (call : qi.Call R)
    (method url : string) : Prop :=
  issues call method url /\ (sends call method url <-> ready).

(** The URL of a path parses and the request record encodes. *)
Definition ready {B : Type} `{qi.Marshal B} (url_Parse_ok : string -> bool)
    (url : string) (body : option B) : Prop :=
  url_Parse_ok url = true
  /\ match body with
     | Some b => exists j, qi.marshal b = Ok j
     | None => True
     end.

(** A JSON string token: the text between quotes. *)
Definition quoted (s : string) : string := quote_str +:+ s +:+ quote_str.

(** A JSON text that decodes into the envelope type and says nothing about
    the error: [null], or an object none of whose keys matches [error]. *)
Definition silentOnError (v : json.value) : Prop :=
  match v with
  | json.Null => True
  | json.Object ms => forall k w, In (k, w) ms -> json.fieldMatches "error" k = false
  | _ => False
  end.

(** *** The options of a client, as data *)

Inductive setting : Type :=
| SetBaseURL (url : string)
| SetHTTPClient (client : qi.HTTPClient)
| SetBasicAuth (username password : string)
| SetSignature (signature : string).

Definition optionOf (s : setting) : qi.ClientOption :=
  match s with
  | SetBaseURL url => qi.WithBaseURL url
  | SetHTTPClient client => qi.WithHTTPClient client
  | SetBasicAuth username password => qi.WithBasicAuth username password
  | SetSignature signature => qi.WithSignature signature
  end.

(** The last setting of a kind in a list of settings, or the default. *)
Definition lastOf {A : Type} (pick : setting -> option A) (ss : list setting)
    (d : A) : A :=
  List.last (omap pick ss) d.

Definition pickBaseURL (s : setting) : option string :=
  match s with SetBaseURL url => Some url | _ => None end.

Definition pickHTTPClient (s : setting) : option qi.HTTPClient :=
  match s with SetHTTPClient client => Some client | _ => None end.

Definition pickBasicAuth (s : setting) : option (string * string) :=
  match s with SetBasicAuth u p => Some (u, p) | _ => None end.

Definition pickSignature (s : setting) : option string :=
  match s with SetSignature sig => Some sig | _ => None end.

(** The names of the headers a request of the client can carry. *)
Definition headerNames : list string :=
  ["Content-Type"; "Accept"; "X-Terminal-Id"; "Authorization"; "X-Signature"].

(** What an operation returns: a value and no error, or no value and an
    error. *)
Definition valueOrError {R : Type} (call : qi.Call R) : Prop :=
  (exists v, qi.value call = Some v /\ qi.failure call = None)
  \/ (exists e, qi.value call = None /\ qi.failure call = Some e).

(** Every request of a call has this body ([None]: no body). *)
Definition carries {R : Type} (call : qi.Call R) (body : option string) : Prop :=
  forall r, In r (qi.sent call) -> http.Body r = body.

(** *** Error envelopes *)

(** The text of an error envelope with a code and a message. *)
Definition envelopeText (code : Z) (message : string) : string :=
  fixtures.dq "{'error':{'code':" +:+ fmt.formatInt code
  +:+ fixtures.dq ",'message':'" +:+ message +:+ fixtures.dq "'}}".

(** A byte that stands for itself in a JSON string: ASCII, no control
    byte, no quote and no backslash. *)
Definition safeByte (c : ascii) : bool :=
  (32 <=? byte_val c) && (byte_val c <? 128)
  && negb (Ascii.eqb c quote_byte) && negb (Ascii.eqb c "\").

Fixpoint allSafe (s : string) : bool :=
  match s with
  | String c rest => safeByte c && allSafe rest
  | "" => true
  end.

(** *** Times *)

(** A Time as the decoder produces them: nanoseconds within the second, a
    year of four digits in its own zone, and a zone offset of whole minutes
    of at most 25 hours. *)
Definition wellFormed (t : time.Time) : Prop :=
  0 <= time.nsec t < 1000000000
  /\ 0 <= time.Year t <= 9999
  /\ Z.rem (time.offset t) 60 = 0
  /\ -90000 <= time.offset t <= 90000.

(** The text of calendar fields without a zone: [2006-01-02T15:04:05]. *)
Definition zoneless (y m d h mi s : Z) : string :=
  time.appendInt y 4 +:+ "-" +:+ time.appendInt m 2 +:+ "-" +:+ time.appendInt d 2
  +:+ "T" +:+ time.appendInt h 2 +:+ ":" +:+ time.appendInt mi 2 +:+ ":"
  +:+ time.appendInt s 2.

(** *** The texts of the fallback layout, in the words of the specification *)

Fixpoint allDigits (s : string) : bool :=
  match s with
  | String c rest => isDigitByte c && allDigits rest
  | "" => true
  end.

(** The number a run of digits writes. *)
Fixpoint numberFrom (acc : Z) (s : string) : Z :=
  match s with
  | String c rest => numberFrom (acc * 10 + digit_val c) rest
  | "" => acc
  end.

Definition number (s : string) : Z := numberFrom 0 s.

(** [k] digits. *)
Definition digitsOf (k : nat) (s : string) : Prop :=
  String.length s = k /\ allDigits s = true.

(** An optional fraction of a second: nothing, or a period or comma and
    one or more digits. *)
Definition fraction (s : string) : Prop :=
  s = "" \/ exists c ds, s = String c ds /\ time.commaOrPeriod c = true
                         /\ ds <> "" /\ allDigits ds = true.

(** Year-month-dayThour:minute:second, each field in its calendar range,
    and the optional fraction. *)
Definition naiveText (s : string) : Prop :=
  exists Y M D h mi se frac : string,
    s = Y +:+ "-" +:+ M +:+ "-" +:+ D +:+ "T" +:+ h +:+ ":" +:+ mi +:+ ":" +:+ se +:+ frac
    /\ digitsOf 4 Y /\ digitsOf 2 M /\ digitsOf 2 D
    /\ (digitsOf 1 h \/ digitsOf 2 h) /\ digitsOf 2 mi /\ digitsOf 2 se
    /\ fraction frac
    /\ 1 <= number M <= 12
    /\ 1 <= number D <= time.daysIn (number M) (number Y)
    /\ number h <= 23 /\ number mi <= 59 /\ number se <= 59.

End spec.

(** ** Auxiliary definitions of the proofs *)

Module aux.

(** The two and four decimal digits of a number. *)
Definition two (x : Z) : string :=
  String (digit_byte (x / 10)) (String (digit_byte (x mod 10)) "").

Definition four (x : Z) : string :=
  String (digit_byte (x / 1000))
    (String (digit_byte (x / 100 mod 10))
       (String (digit_byte (x / 10 mod 10)) (String (digit_byte (x mod 10)) ""))).

(** The bytes of a formatted timestamp: digits and the separators. *)
Definition plainb (c : ascii) : bool :=
  isDigitByte c || strings.IndexByte "-T:Z+" c.

Fixpoint allPlain (s : string) : bool :=
  match s with
  | String c rest => plainb c && allPlain rest
  | "" => true
  end.

(** What holds of the fields while a value is parsed. *)
Definition fieldsOK (f : time.fields) : Prop :=
  0 <= time.f_year f <= 9999
  /\ 0 <= time.f_hour f < 24 /\ 0 <= time.f_min f < 60 /\ 0 <= time.f_sec f < 60
  /\ 0 <= time.f_nsec f < 1000000000
  /\ (time.f_month f = -1 \/ 1 <= time.f_month f <= 12)
  /\ (time.f_zoneOffset f = -1
      \/ (Z.rem (time.f_zoneOffset f) 60 = 0 /\ -90000 <= time.f_zoneOffset f <= 90000)).

End aux.

(** * Properties *)

Import spec aux.

(** ** The error model *)

(** C1.  The three predicates classify by the envelope's code alone when an
    envelope is present, whatever the status code and raw message, and by the
    status code (404, 400, 401) when there is none. *)
Theorem classification_two_tier (status : Z) (msg : string) :
  (forall env : qi.Error,
      let e := qi.mkAPIError status msg (Some env) in
      let code := qi.Code (qi.Error_ env) in
      (qi.IsNotFound e = true <->
         code = qi.ErrorCodePaymentNotFound \/ code = qi.ErrorCodeOrderNotFound \/
         code = qi.ErrorCodeTransferNotFound \/ code = qi.ErrorCodeTokenNotFound) /\
      (qi.IsValidationError e = true <-> code = qi.ErrorCodeValidationError) /\
      (qi.IsAuthenticationError e = true <-> code = qi.ErrorCodeBadCredentials)) /\
  (let e := qi.mkAPIError status msg None in
   (qi.IsNotFound e = true <-> status = 404) /\
   (qi.IsValidationError e = true <-> status = 400) /\
   (qi.IsAuthenticationError e = true <-> status = 401)).
Proof.
  split.
  - intros env e code. unfold qi.IsNotFound, qi.IsValidationError,
      qi.IsAuthenticationError. cbn [qi.Err e]. fold code.
    rewrite !orb_true_iff, !Z.eqb_eq. tauto.
  - cbn. rewrite !Z.eqb_eq. tauto.
Qed.

(** ** The request pipeline *)

Section PipelineFacts.

Variable url_Parse_ok : string -> bool.
Context {B R : Type} `{qi.Marshal B} `{qi.Unmarshal R}.

(** A call hands the HTTP client the request it built, once, or nothing. *)
Lemma doRequest_sent c method path (body : option B) (result : option R) :
  qi.sent (qi.doRequest url_Parse_ok c method path body result)
  = match qi.buildRequest url_Parse_ok c method path body with
    | Ok req => [req]
    | Fail _ => []
    end.
Proof.
  unfold qi.doRequest.
  destruct (qi.buildRequest _ _ _ _ _) as [req|]; [|reflexivity].
  destruct (qi.httpClient c _) as [resp|]; [|reflexivity].
  destruct (http.ReadAll resp); [|reflexivity].
  destruct (400 <=? _); [destruct (qi.Unmarshal_Error _ _); reflexivity|].
  destruct result as [r|]; [|reflexivity].
  destruct (_ <? _)%nat; [|reflexivity].
  destruct (qi.unmarshal _ _) as [r' [e|]]; reflexivity.
Qed.

Lemma doRequest_sent_inv c method path (body : option B) (result : option R) req :
  In req (qi.sent (qi.doRequest url_Parse_ok c method path body result)) ->
  qi.buildRequest url_Parse_ok c method path body = Ok req.
Proof.
  rewrite doRequest_sent.
  destruct (qi.buildRequest _ _ _ _ _) as [req0|]; cbn; [|intros []].
  intros [->|[]]. reflexivity.
Qed.

(** A request that was built went through [setHeaders]. *)
Lemma buildRequest_inv c method path (body : option B) req :
  qi.buildRequest url_Parse_ok c method path body = Ok req ->
  exists m reqBody,
    req = qi.setHeaders c (http.mkRequest m (qi.baseURL c +:+ path) ∅ reqBody)
    /\ m = (if String.eqb method "" then "GET" else method)
    /\ url_Parse_ok (qi.baseURL c +:+ path) = true
    /\ match body with
       | Some b => exists j, qi.marshal b = Ok j /\ reqBody = Some j
       | None => reqBody = None
       end.
Proof.
  unfold qi.buildRequest, http.NewRequestWithContext. intros Hb.
  destruct body as [b|]; [destruct (qi.marshal b) as [j|] eqn:Hj; [|discriminate]|];
    (destruct (negb (http.allToken _)); [discriminate|]);
    (destruct (url_Parse_ok _) eqn:Hu; [|discriminate]);
    cbn in Hb; injection Hb as <-; eauto 8.
Qed.

(** The error of a call whose request was answered with a status of 400 or
    more and a body that was read. *)
Lemma doRequest_error_status c method path (body : option B) (result : option R)
    req resp respBody :
  qi.buildRequest url_Parse_ok c method path body = Ok req ->
  qi.httpClient c req = Ok resp ->
  http.ReadAll resp = Ok respBody ->
  400 <= http.StatusCode resp ->
  qi.failure (qi.doRequest url_Parse_ok c method path body result)
  = Some (qi.apiError
            match qi.Unmarshal_Error respBody qi.zeroError with
            | Ok env => qi.mkAPIError (http.StatusCode resp) "" (Some env)
            | Fail _ => qi.mkAPIError (http.StatusCode resp) respBody None
            end).
Proof.
  intros Hb Hdo Hread Hst. unfold qi.doRequest. rewrite Hb, Hdo, Hread.
  apply Z.leb_le in Hst. rewrite Hst.
  destruct (qi.Unmarshal_Error respBody qi.zeroError); reflexivity.
Qed.

End PipelineFacts.

(** Five keys set in a row, the last two on condition: what is found under
    the last three, whatever the keys are, as long as they differ. *)
Lemma five_headers (kct kac kti kau ksi : string) (vct vac vti vau vsi : list string)
    (auth sig : bool) :
  kct <> kti -> kac <> kti -> kti <> kau -> kti <> ksi -> kau <> ksi ->
  kct <> kau -> kac <> kau -> kct <> ksi -> kac <> ksi ->
  let h3 : gmap string (list string) := <[kti := vti]> (<[kac := vac]> (<[kct := vct]> ∅)) in
  let h4 := if auth then <[kau := vau]> h3 else h3 in
  let h5 := if sig then <[ksi := vsi]> h4 else h4 in
  h5 !! kti = Some vti
  /\ h5 !! kau = (if auth then Some vau else None)
  /\ h5 !! ksi = (if sig then Some vsi else None).
Proof.
  cbv zeta. intros. destruct auth, sig; repeat split; by simplify_map_eq.
Qed.

Lemma decide_non_empty (s : string) (A : Type) (x y : A) :
  (if negb (String.eqb s "") then x else y) = (if decide (s <> "") then x else y).
Proof.
  destruct (String.eqb_spec s "") as [->|Hne]; cbn [negb].
  - destruct (decide ("" <> "")) as [Hn|_]; [destruct Hn|]; reflexivity.
  - destruct (decide (s <> "")) as [_|Hn]; [|destruct (Hn Hne)]; reflexivity.
Qed.

Lemma decide_both_non_empty (s t : string) (A : Type) (x y : A) :
  (if negb (String.eqb s "") && negb (String.eqb t "") then x else y)
  = (if decide (s <> "" /\ t <> "") then x else y).
Proof.
  destruct (String.eqb_spec s "") as [->|Hs], (String.eqb_spec t "") as [->|Ht];
    cbn [negb andb];
    match goal with
    | |- _ = if decide ?P then _ else _ => destruct (decide P) as [Hp|Hp]
    end; try reflexivity; try (destruct Hp; congruence); tauto.
Qed.

Lemma setHeaders_contract (c : qi.Client) (req : http.Request) :
  http.Header req = ∅ -> spec.headerContract c (qi.setHeaders c req).
Proof.
  destruct req as [m u h b]. cbn [http.Header]. intros ->.
  unfold spec.headerContract.
  rewrite <- (decide_both_non_empty (qi.username c) (qi.password c)).
  rewrite <- (decide_non_empty (qi.signature c)).
  pose proof (five_headers "Content-Type" "Accept" "X-Terminal-Id" "Authorization"
                "X-Signature" ["application/json"] ["application/json"]
                [qi.terminalID c] [spec.basicAuth (qi.username c) (qi.password c)]
                [qi.signature c]
                (negb (String.eqb (qi.username c) "") && negb (String.eqb (qi.password c) ""))
                (negb (String.eqb (qi.signature c) ""))) as Hfive.
  unfold qi.setHeaders.
  destruct (negb (String.eqb (qi.username c) "") && negb (String.eqb (qi.password c) ""));
    destruct (negb (String.eqb (qi.signature c) ""));
    apply Hfive; discriminate.
Qed.

Lemma setHeaders_line c req :
  http.Method (qi.setHeaders c req) = http.Method req
  /\ http.URL (qi.setHeaders c req) = http.URL req
  /\ http.Body (qi.setHeaders c req) = http.Body req.
Proof.
  unfold qi.setHeaders.
  destruct (_ && _), (negb _); repeat split; reflexivity.
Qed.

Lemma returned_sent {R : Type} (call : qi.Call R) : qi.sent (qi.returned call) = qi.sent call.
Proof. unfold qi.returned. destruct (qi.failure call); reflexivity. Qed.

Lemma returned_issues {R : Type} (call : qi.Call R) method url :
  spec.issues call method url -> spec.issues (qi.returned call) method url.
Proof. unfold spec.issues. rewrite returned_sent. tauto. Qed.

(** Decoding a JSON object that has no member for a field leaves the
    destination as it was. *)
Lemma storeAll_no_error_key (ms : list (string * json.value)) (e : qi.Error) :
  (forall k v, In (k, v) ms -> json.fieldMatches "error" k = false) ->
  qi.storeAll qi.storeErrorField ms e = Some e.
Proof.
  induction ms as [|[k v] ms IH]; intros Hno; [reflexivity|].
  cbn [qi.storeAll].
  assert (qi.storeErrorField e (k, v) = Some e) as ->
    by (unfold qi.storeErrorField; rewrite (Hno k v) by (left; reflexivity);
        reflexivity).
  cbn. apply IH. intros k' v' Hin. apply (Hno k' v'). right. exact Hin.
Qed.

Section PipelineClaims.

Variable url_Parse_ok : string -> bool.
Context {B R : Type} `{qi.Marshal B} `{qi.Unmarshal R}.

Lemma buildRequest_contract c method path (body : option B) req :
  qi.buildRequest url_Parse_ok c method path body = Ok req ->
  spec.headerContract c req.
Proof.
  intros Hb. apply buildRequest_inv in Hb as (m & rb & -> & _).
  apply setHeaders_contract. reflexivity.
Qed.

Lemma doRequest_issues c method path (body : option B) (result : option R) :
  method <> "" ->
  spec.issues (qi.doRequest url_Parse_ok c method path body result)
    method (qi.baseURL c +:+ path).
Proof.
  intros Hm. split.
  - rewrite doRequest_sent. destruct (qi.buildRequest _ _ _ _ _); cbn; lia.
  - intros r Hin. apply doRequest_sent_inv, buildRequest_inv in Hin
      as (m & rb & -> & -> & _).
    destruct (setHeaders_line c
      (http.mkRequest (if String.eqb method "" then "GET" else method)
         (qi.baseURL c +:+ path) ∅ rb)) as (-> & -> & _).
    destruct (String.eqb_spec method ""); [contradiction|]. split; reflexivity.
Qed.

(** A call sends its request exactly when the URL parses and the body
    encodes. *)
Lemma doRequest_sends c method path (body : option B) (result : option R) :
  method <> "" -> http.allToken method = true ->
  spec.sends (qi.doRequest url_Parse_ok c method path body result)
    method (qi.baseURL c +:+ path)
  <-> spec.ready url_Parse_ok (qi.baseURL c +:+ path) body.
Proof.
  intros Hm Htok. unfold spec.sends, spec.ready. rewrite doRequest_sent.
  unfold qi.buildRequest, http.NewRequestWithContext.
  destruct (String.eqb_spec method ""); [contradiction|]. rewrite Htok. cbn [negb].
  assert (forall rb,
            (exists r,
               match (if negb (url_Parse_ok (qi.baseURL c +:+ path))
                      then Fail "parse: invalid URL"
                      else Ok (http.mkRequest method (qi.baseURL c +:+ path) ∅ rb))
               with
               | Fail err => @nil http.Request
               | Ok req => [qi.setHeaders c req]
               end = [r]
               /\ http.Method r = method /\ http.URL r = qi.baseURL c +:+ path)
            <-> url_Parse_ok (qi.baseURL c +:+ path) = true) as Hurl.
  { intros rb. destruct (url_Parse_ok (qi.baseURL c +:+ path)); cbn [negb]; split.
    - reflexivity.
    - intros _. eexists. split; [reflexivity|].
      destruct (setHeaders_line c (http.mkRequest method (qi.baseURL c +:+ path) ∅ rb))
        as (-> & -> & _). split; reflexivity.
    - intros (r & [=] & _).
    - discriminate. }
  destruct body as [b|].
  - destruct (qi.marshal b) as [j|e].
    + split.
      * intros Hs. split; [|eauto].
        apply (Hurl (Some j)). destruct Hs as (r & Hs & Hmu). exists r. split; [|exact Hmu].
        rewrite <- Hs. destruct (negb _); reflexivity.
      * intros [Hu _]. apply (Hurl (Some j)) in Hu as (r & Hs & Hmu). exists r.
        split; [|exact Hmu]. rewrite <- Hs. destruct (negb _); reflexivity.
    + split; [intros (r & [=] & _)|intros [_ (j & [=])]].
  - split.
    + intros Hs. split; [|exact I].
      apply (Hurl None). destruct Hs as (r & Hs & Hmu). exists r. split; [|exact Hmu].
      rewrite <- Hs. destruct (negb _); reflexivity.
    + intros [Hu _]. apply (Hurl None) in Hu as (r & Hs & Hmu). exists r.
      split; [|exact Hmu]. rewrite <- Hs. destruct (negb _); reflexivity.
Qed.

Lemma doRequest_issuesWhen c method path (body : option B) (result : option R) :
  method <> "" -> http.allToken method = true ->
  spec.issuesWhen (spec.ready url_Parse_ok (qi.baseURL c +:+ path) body)
    (qi.returned (qi.doRequest url_Parse_ok c method path body result))
    method (qi.baseURL c +:+ path).
Proof.
  intros Hm Htok. split.
  - apply returned_issues, doRequest_issues, Hm.
  - unfold spec.sends. rewrite returned_sent. apply doRequest_sends; assumption.
Qed.

(** C2.  Once a request is out and answered with a status of 400 or more and
    a body that was read, the call fails with an [APIError] of that status:
    with the envelope and no raw text when the body decodes as an envelope,
    with the body as raw text and no envelope when it does not. *)
Theorem error_response_is_classified c method path (body : option B)
    (result : option R) req resp respBody :
  In req (qi.sent (qi.doRequest url_Parse_ok c method path body result)) ->
  qi.httpClient c req = Ok resp ->
  http.ReadAll resp = Ok respBody ->
  400 <= http.StatusCode resp ->
  let call := qi.doRequest url_Parse_ok c method path body result in
  (forall env, qi.Unmarshal_Error respBody qi.zeroError = Ok env ->
     qi.failure call
     = Some (qi.apiError (qi.mkAPIError (http.StatusCode resp) "" (Some env))))
  /\ (forall err, qi.Unmarshal_Error respBody qi.zeroError = Fail err ->
     qi.failure call
     = Some (qi.apiError (qi.mkAPIError (http.StatusCode resp) respBody None))).
Proof.
  intros Hin Hdo Hread Hst call. apply doRequest_sent_inv in Hin.
  subst call.
  rewrite (doRequest_error_status url_Parse_ok c method path body result req resp
             respBody Hin Hdo Hread Hst).
  split; intros x Hx; rewrite Hx; reflexivity.
Qed.

(** C7.  Once a request is out and answered with a status below 400, a call
    with a result pointer leaves the result as it was and returns no error
    when the body is empty, and decodes the body into the result only when
    the body is not empty; an operation, whose result starts as the zero
    value, then returns the zero value. *)
Theorem empty_success_body_keeps_result c method path (body : option B) (r : R)
    req resp respBody :
  In req (qi.sent (qi.doRequest url_Parse_ok c method path body (Some r))) ->
  qi.httpClient c req = Ok resp ->
  http.ReadAll resp = Ok respBody ->
  http.StatusCode resp < 400 ->
  let call := qi.doRequest url_Parse_ok c method path body (Some r) in
  (respBody = "" ->
     call = qi.mkCall [req] (Some r) None
     /\ qi.returned call = qi.mkCall [req] (Some r) None)
  /\ (respBody <> "" ->
     call = qi.mkCall [req] (Some (fst (qi.unmarshal respBody r)))
              (qi.failedToUnmarshal <$> snd (qi.unmarshal respBody r))).
Proof.
  intros Hin Hdo Hread Hst call. apply doRequest_sent_inv in Hin.
  subst call. unfold qi.doRequest. rewrite Hin, Hdo, Hread.
  apply Z.leb_gt in Hst. rewrite Hst. split.
  - intros ->. cbn. split; reflexivity.
  - intros Hne. destruct respBody as [|ch tl]; [contradiction|]. cbn.
    destruct (qi.unmarshal _ r) as [r' [e|]]; reflexivity.
Qed.

(** C10 (amended).  An error response whose body is [null] or a JSON object
    with no member for the [error] field gives an [APIError] with an
    envelope whose code and message are the zero values, and none of the
    predicates holds of it, whatever the status. *)
Theorem object_without_error_key_has_zero_envelope c method path
    (body : option B) (result : option R) req resp respBody v :
  In req (qi.sent (qi.doRequest url_Parse_ok c method path body result)) ->
  qi.httpClient c req = Ok resp ->
  http.ReadAll resp = Ok respBody ->
  400 <= http.StatusCode resp ->
  json.parse respBody = Some v ->
  spec.silentOnError v ->
  let e := qi.mkAPIError (http.StatusCode resp) "" (Some qi.zeroError) in
  qi.failure (qi.doRequest url_Parse_ok c method path body result)
  = Some (qi.apiError e)
  /\ qi.IsNotFound e = false
  /\ qi.IsValidationError e = false
  /\ qi.IsAuthenticationError e = false.
Proof.
  intros Hin Hdo Hread Hst Hparse Hsilent e. split; [|repeat split; reflexivity].
  apply doRequest_sent_inv in Hin.
  rewrite (doRequest_error_status url_Parse_ok c method path body result req resp
             respBody Hin Hdo Hread Hst).
  unfold qi.Unmarshal_Error. rewrite Hparse.
  destruct v as [| | | | |ms]; try contradiction; cbn [qi.decodeError];
    [reflexivity|].
  rewrite storeAll_no_error_key by exact Hsilent. reflexivity.
Qed.

End PipelineClaims.

Section OperationClaims.

Variable url_Parse_ok : string -> bool.
Context {CreatePaymentRequest CancelPaymentRequest CreateRefundRequest : Type}.
Context {Payment PaymentStatusResponse PaymentCancelResponse Refund : Type}.
Context `{qi.Marshal CreatePaymentRequest} `{qi.Marshal CancelPaymentRequest}
        `{qi.Marshal CreateRefundRequest}.
Context `{qi.Unmarshal Payment} `{qi.Zero Payment}
        `{qi.Unmarshal PaymentStatusResponse} `{qi.Zero PaymentStatusResponse}
        `{qi.Unmarshal PaymentCancelResponse} `{qi.Zero PaymentCancelResponse}
        `{qi.Unmarshal Refund} `{qi.Zero Refund}.

(** C6.  Every request that [doRequest] sends, and so every request of each
    of the seven operations, has the terminal id under [X-Terminal-Id], has
    the basic-auth [Authorization] header exactly when user name and password
    are both non-empty, and has [X-Signature] exactly when the signature is
    non-empty; the two conditions are independent, so both headers are set
    when all three values are non-empty. *)
Theorem header_contract_of_every_request {B R : Type} `{qi.Marshal B} `{qi.Unmarshal R}
    (c : qi.Client) (method path : string) (body : option B) (result : option R)
    (paymentID requestID : string) (create : option CreatePaymentRequest)
    (cancel : option CancelPaymentRequest) (refund : option CreateRefundRequest)
    (req : http.Request) :
  In req (qi.sent (qi.doRequest url_Parse_ok c method path body result))
  \/ In req (qi.sent (qi.CreatePayment (Payment := Payment) url_Parse_ok c create))
  \/ In req (qi.sent (qi.GetPaymentStatus
                        (PaymentStatusResponse := PaymentStatusResponse)
                        url_Parse_ok c paymentID))
  \/ In req (qi.sent (qi.GetPaymentStatusByRequest
                        (PaymentStatusResponse := PaymentStatusResponse)
                        url_Parse_ok c requestID))
  \/ In req (qi.sent (qi.CancelPayment
                        (PaymentCancelResponse := PaymentCancelResponse)
                        url_Parse_ok c paymentID cancel))
  \/ In req (qi.sent (qi.CancelPaymentByRequest
                        (PaymentCancelResponse := PaymentCancelResponse)
                        url_Parse_ok c requestID cancel))
  \/ In req (qi.sent (qi.RefundPayment (Refund := Refund)
                        url_Parse_ok c paymentID refund))
  \/ In req (qi.sent (qi.RefundPaymentByRequest (Refund := Refund)
                        url_Parse_ok c requestID refund)) ->
  spec.headerContract c req.
Proof.
  unfold qi.CreatePayment, qi.GetPaymentStatus, qi.GetPaymentStatusByRequest,
    qi.CancelPayment, qi.CancelPaymentByRequest, qi.RefundPayment,
    qi.RefundPaymentByRequest.
  rewrite !returned_sent.
  intros Hin; repeat (destruct Hin as [Hin|Hin]);
    apply doRequest_sent_inv in Hin;
    exact (buildRequest_contract url_Parse_ok _ _ _ _ _ Hin).
Qed.

(** C9.  Each operation issues its own method on the base URL followed by
    its own path, with the identifier put into the path as it is: it hands
    the HTTP client exactly this one request whenever the URL parses and the
    request record encodes (the two status operations have no record), and
    it sends nothing otherwise. *)
Theorem operations_issue_fixed_requests (c : qi.Client)
    (paymentID requestID : string) (create : option CreatePaymentRequest)
    (cancel : option CancelPaymentRequest) (refund : option CreateRefundRequest) :
  let on (path : string) := qi.baseURL c +:+ path in
  spec.issuesWhen (spec.ready url_Parse_ok (on "/payment") (Some create))
    (qi.CreatePayment (Payment := Payment) url_Parse_ok c create)
    "POST" (on "/payment")
  /\ spec.issuesWhen
       (spec.ready url_Parse_ok (on ("/payment/" +:+ paymentID +:+ "/status")) qi.noBody)
       (qi.GetPaymentStatus (PaymentStatusResponse := PaymentStatusResponse)
          url_Parse_ok c paymentID)
       "GET" (on ("/payment/" +:+ paymentID +:+ "/status"))
  /\ spec.issuesWhen
       (spec.ready url_Parse_ok (on ("/payment/status/by/request/" +:+ requestID))
          qi.noBody)
       (qi.GetPaymentStatusByRequest (PaymentStatusResponse := PaymentStatusResponse)
          url_Parse_ok c requestID)
       "GET" (on ("/payment/status/by/request/" +:+ requestID))
  /\ spec.issuesWhen
       (spec.ready url_Parse_ok (on ("/payment/" +:+ paymentID +:+ "/cancel"))
          (Some cancel))
       (qi.CancelPayment (PaymentCancelResponse := PaymentCancelResponse)
          url_Parse_ok c paymentID cancel)
       "POST" (on ("/payment/" +:+ paymentID +:+ "/cancel"))
  /\ spec.issuesWhen
       (spec.ready url_Parse_ok (on ("/payment/cancel/by/request/" +:+ requestID))
          (Some cancel))
       (qi.CancelPaymentByRequest (PaymentCancelResponse := PaymentCancelResponse)
          url_Parse_ok c requestID cancel)
       "POST" (on ("/payment/cancel/by/request/" +:+ requestID))
  /\ spec.issuesWhen
       (spec.ready url_Parse_ok (on ("/payment/" +:+ paymentID +:+ "/refund"))
          (Some refund))
       (qi.RefundPayment (Refund := Refund) url_Parse_ok c paymentID refund)
       "POST" (on ("/payment/" +:+ paymentID +:+ "/refund"))
  /\ spec.issuesWhen
       (spec.ready url_Parse_ok (on ("/payment/refund/by/request/" +:+ requestID))
          (Some refund))
       (qi.RefundPaymentByRequest (Refund := Refund) url_Parse_ok c requestID refund)
       "POST" (on ("/payment/refund/by/request/" +:+ requestID)).
Proof.
  cbv zeta.
  unfold qi.CreatePayment, qi.GetPaymentStatus, qi.GetPaymentStatusByRequest,
    qi.CancelPayment, qi.CancelPaymentByRequest, qi.RefundPayment,
    qi.RefundPaymentByRequest.
  refine (conj _ (conj _ (conj _ (conj _ (conj _ (conj _ _))))));
    apply doRequest_issuesWhen; first [discriminate | reflexivity].
Qed.

End OperationClaims.

(** ** The pipeline on the test servers *)

Import fixtures.

(** The request [testClient] builds for a create-payment call. *)
Lemma testClient_builds h :
  qi.buildRequest anyURL (testClient h) "POST" "/payment" (Some (Some (mkRaw "{}")))
  = Ok (qi.setHeaders (testClient h)
          (http.mkRequest "POST" "http://127.0.0.1:8080/payment" ∅ (Some "{}"))).
Proof. reflexivity. Qed.

Lemma testClient_sends {R : Type} `{qi.Unmarshal R} h (result : option R) :
  In (qi.setHeaders (testClient h)
        (http.mkRequest "POST" "http://127.0.0.1:8080/payment" ∅ (Some "{}")))
     (qi.sent (qi.doRequest anyURL (testClient h) "POST" "/payment"
                 (Some (Some (mkRaw "{}"))) result)).
Proof. rewrite doRequest_sent, testClient_builds. left. reflexivity. Qed.

(** A 400 answer with a validation envelope, as in the client's API-error
    test, and a 502 answer with a proxy's HTML page. *)
Lemma error_response_witness :
  qi.failure (qi.doRequest anyURL
                (testClient (server 400
                   (dq "{'error':{'code':21,'message':'VALIDATION_ERROR'}}")))
                "POST" "/payment" (Some (Some (mkRaw "{}"))) (Some (mkRaw "")))
  = Some (qi.apiError (qi.mkAPIError 400 ""
            (Some (qi.mkError (qi.mkErrorDetails 21 "VALIDATION_ERROR")))))
  /\ qi.failure (qi.doRequest anyURL
                   (testClient (server 502 "<html>Bad Gateway</html>"))
                   "POST" "/payment" (Some (Some (mkRaw "{}"))) (Some (mkRaw "")))
     = Some (qi.apiError (qi.mkAPIError 502 "<html>Bad Gateway</html>" None)).
Proof.
  split.
  - refine (proj1 (error_response_is_classified anyURL _ _ _ _ _ _
                     (http.mkResponse 400 (Ok _)) _
                     (testClient_sends _ _) eq_refl eq_refl _) _ _);
      [cbn; lia | reflexivity].
  - refine (proj2 (error_response_is_classified anyURL _ _ _ _ _ _
                     (http.mkResponse 502 (Ok _)) _
                     (testClient_sends _ _) eq_refl eq_refl _) json.SyntaxError _);
      [cbn; lia | reflexivity].
Defined.

(** A 200 answer with an empty body leaves the zero result. *)
Lemma empty_success_body_witness :
  qi.doRequest anyURL (testClient (server 200 "")) "POST" "/payment"
    (Some (Some (mkRaw "{}"))) (Some (qi.zeroValue : raw))
  = qi.mkCall
      [qi.setHeaders (testClient (server 200 ""))
         (http.mkRequest "POST" "http://127.0.0.1:8080/payment" ∅ (Some "{}"))]
      (Some (mkRaw "")) None.
Proof.
  refine (proj1 (proj1 (empty_success_body_keeps_result anyURL _ _ _ _ _ _
                          (http.mkResponse 200 (Ok "")) _
                          (testClient_sends _ _) eq_refl eq_refl _) eq_refl)).
  cbn; lia.
Defined.

(** A 404 answer whose body is the empty object. *)
Lemma zero_envelope_witness :
  qi.failure (qi.doRequest anyURL (testClient (server 404 "{}")) "POST" "/payment"
                (Some (Some (mkRaw "{}"))) (Some (mkRaw "")))
  = Some (qi.apiError (qi.mkAPIError 404 "" (Some qi.zeroError)))
  /\ qi.IsNotFound (qi.mkAPIError 404 "" (Some qi.zeroError)) = false.
Proof.
  refine (let H := object_without_error_key_has_zero_envelope anyURL _ _ _ _ _ _
                     (http.mkResponse 404 (Ok "{}")) _ (json.Object [])
                     (testClient_sends _ _) eq_refl eq_refl _ eq_refl _
          in conj (proj1 H) (proj1 (proj2 H))).
  - cbn; lia.
  - intros k v [].
Defined.

(** C10, as stated, fails on a body that is JSON but not an object: the
    empty array does not decode into the envelope type, so a 404 answer
    carrying it has no envelope, keeps the body as raw text, and classifies
    as not-found by its status. *)
Lemma array_body_falls_back_to_status :
  json.parse "[]" = Some (json.Array [])
  /\ qi.failure (qi.doRequest anyURL (testClient (server 404 "[]")) "POST" "/payment"
                   (Some (Some (mkRaw "{}"))) (Some (mkRaw "")))
     = Some (qi.apiError (qi.mkAPIError 404 "[]" None))
  /\ qi.IsNotFound (qi.mkAPIError 404 "[]" None) = true.
Proof. repeat split; reflexivity. Qed.

(** A client with both kinds of credentials sends both headers. *)
Lemma header_contract_witness :
  spec.headerContract (authClient (server 200 ""))
    (qi.setHeaders (authClient (server 200 ""))
       (http.mkRequest "POST" "http://127.0.0.1:8080/payment" ∅ (Some "{}")))
  /\ spec.basicAuth "username" "password" = "Basic dXNlcm5hbWU6cGFzc3dvcmQ=".
Proof.
  split; [|reflexivity].
  exact (header_contract_of_every_request anyURL
           (CancelPaymentRequest := raw) (CreateRefundRequest := raw)
           (Payment := raw) (PaymentStatusResponse := raw)
           (PaymentCancelResponse := raw) (Refund := raw) (B := raw) (R := raw)
           (authClient (server 200 "")) "" "" None None "" ""
           (Some (mkRaw "{}")) None None _
           (or_intror (or_introl (or_introl eq_refl)))).
Defined.

(** The test client, whose URLs all parse, sends a status request and a
    refund request. *)
Lemma operations_issue_witness :
  spec.sends (qi.GetPaymentStatus (PaymentStatusResponse := raw) anyURL
                (testClient (server 200 "")) "test-payment-id")
    "GET" "http://127.0.0.1:8080/payment/test-payment-id/status"
  /\ spec.sends (qi.RefundPaymentByRequest (Refund := raw) anyURL
                   (testClient (server 200 "")) "r-7" (Some (mkRaw "{}")))
       "POST" "http://127.0.0.1:8080/payment/refund/by/request/r-7".
Proof.
  pose proof (operations_issue_fixed_requests anyURL
                (CreatePaymentRequest := raw) (CancelPaymentRequest := raw)
                (Payment := raw) (PaymentStatusResponse := raw)
                (PaymentCancelResponse := raw) (Refund := raw)
                (testClient (server 200 "")) "test-payment-id" "r-7"
                None None (Some (mkRaw "{}"))) as H.
  split.
  - exact (proj2 (proj2 (proj1 (proj2 H))) (conj eq_refl I)).
  - exact (proj2 (proj2 (proj2 (proj2 (proj2 (proj2 (proj2 (proj2 H)))))))
             (conj eq_refl (ex_intro _ "{}" eq_refl))).
Defined.

(** ** The timestamp codec *)

(** C5.  On the input [null], on the empty input and on the empty JSON
    string the receiver is left as it is and no error is returned, so a
    fresh (zero-value) Time stays the zero value; and a Time formats to
    [null] exactly when it is the zero instant (otherwise the output is a
    quoted text). *)
Theorem null_and_empty_timestamps :
  (forall t : qi.Time,
      qi.UnmarshalJSON t "null" = (t, None)
      /\ qi.UnmarshalJSON t "" = (t, None)
      /\ qi.UnmarshalJSON t (spec.quoted "") = (t, None))
  /\ qi.UnmarshalJSON qi.zeroTime "null" = (qi.zeroTime, None)
  /\ qi.UnmarshalJSON qi.zeroTime "" = (qi.zeroTime, None)
  /\ qi.MarshalJSON qi.zeroTime = Ok "null"
  /\ (forall t : qi.Time,
        qi.MarshalJSON t = Ok "null" <-> time.IsZero (qi.Time_ t) = true).
Proof.
  split; [intros t; repeat split; reflexivity|].
  do 3 (split; [reflexivity|]).
  intros t. unfold qi.MarshalJSON, json.Marshal_nil, json.Marshal_string.
  destruct (time.IsZero _); split; intros Heq; try reflexivity; discriminate.
Qed.

(** C4.  The naive text is refused by the RFC 3339 layout, accepted by the
    fallback layout, and decodes to the instant 2026-01-20 11:57:31 UTC,
    the same Time the text with a [Z] decodes to; bare or as a JSON string,
    whatever the receiver held. *)
Theorem naive_text_is_read_as_UTC (t : qi.Time) :
  let instant := qi.NewTime (time.Date 2026 1 20 11 57 31 0) in
  time.Parse time.RFC3339 "2026-01-20T11:57:31"
  = Fail (time.mkParseError "2006-01-02T15:04:05Z07:00" "2026-01-20T11:57:31")
  /\ time.Parse time.naiveLayout "2026-01-20T11:57:31" = Ok (qi.Time_ instant)
  /\ qi.UnmarshalJSON t "2026-01-20T11:57:31" = (instant, None)
  /\ qi.UnmarshalJSON t "2026-01-20T11:57:31Z" = (instant, None)
  /\ qi.UnmarshalJSON t (spec.quoted "2026-01-20T11:57:31") = (instant, None)
  /\ qi.UnmarshalJSON t (spec.quoted "2026-01-20T11:57:31Z") = (instant, None)
  /\ time.offset (qi.Time_ instant) = 0.
Proof. repeat split; vm_compute; reflexivity. Qed.

(** *** The calendar *)

Lemma rem_eqb_0 (a b : Z) : b <> 0 -> (Z.rem a b =? 0) = (a mod b =? 0).
Proof.
  intros Hb. apply eq_iff_eq_true. rewrite !Z.eqb_eq.
  rewrite Z.rem_divide, Z.mod_divide by exact Hb. tauto.
Qed.

Lemma isLeap_spec (y : Z) :
  time.isLeap y = true <-> y mod 4 = 0 /\ (y mod 100 <> 0 \/ y mod 400 = 0).
Proof.
  unfold time.isLeap. rewrite !rem_eqb_0 by lia.
  rewrite andb_true_iff, orb_true_iff, negb_true_iff, !Z.eqb_eq, Z.eqb_neq.
  tauto.
Qed.

Lemma absYear_spec (d : Z) :
  time.daysSinceEpoch (fst (time.absYear d)) + snd (time.absYear d) = d
  /\ 0 <= snd (time.absYear d)
     < (if time.isLeap (fst (time.absYear d)) then 366 else 365).
Proof.
  unfold time.absYear, time.daysPer400Years, time.daysPer100Years, time.daysPer4Years.
  rewrite !Z.shiftr_div_pow2 by lia. change (2 ^ 2) with 4. cbv zeta. cbn [fst snd].
  set (a := d / 146097).
  set (r1 := d - 146097 * a).
  set (n100 := r1 / 36524).
  set (b := n100 - n100 / 4).
  set (r2 := r1 - 36524 * b).
  set (c := r2 / 1461).
  set (r3 := r2 - 1461 * c).
  set (n1 := r3 / 365).
  set (e := n1 - n1 / 4).
  set (r4 := r3 - 365 * e).
  assert (Hr1 : 0 <= r1 < 146097) by (subst r1 a; Z.to_euclidean_division_equations; lia).
  assert (Hb : 0 <= b <= 3 /\ 0 <= r2 <= 36524 /\ (b < 3 -> r2 < 36524))
    by (subst r2 b n100; Z.to_euclidean_division_equations; lia).
  assert (Hc : 0 <= c <= 24 /\ 0 <= r3 <= 1460 /\ r2 = 1461 * c + r3)
    by (subst r3 c; Z.to_euclidean_division_equations; lia).
  assert (He : 0 <= e <= 3 /\ 0 <= r4 <= 365 /\ (r4 = 365 -> e = 3 /\ r3 = 1460))
    by (subst r4 e n1; Z.to_euclidean_division_equations; lia).
  replace (400 * a + 100 * b + 4 * c + e + 1) with (400 * a + (100 * b + 4 * c + e) + 1) by lia.
  set (y := 400 * a + (100 * b + 4 * c + e) + 1).
  split.
  - unfold time.daysSinceEpoch, time.daysPer400Years, time.daysPer100Years,
      time.daysPer4Years. cbv zeta.
    replace (y - 1) with (100 * b + 4 * c + e + a * 400) by (subst y; lia).
    rewrite Z.div_add by lia.
    rewrite (Z.div_small (100 * b + 4 * c + e) 400) by lia.
    replace (100 * b + 4 * c + e + a * 400 - 400 * (0 + a)) with (4 * c + e + b * 100) by lia.
    rewrite Z.div_add by lia. rewrite (Z.div_small (4 * c + e) 100) by lia.
    replace (4 * c + e + b * 100 - 100 * (0 + b)) with (e + c * 4) by lia.
    rewrite Z.div_add by lia. rewrite (Z.div_small e 4) by lia.
    subst r4 r3 r2 r1. lia.
  - split; [lia|].
    destruct (time.isLeap y) eqn:Hleap; [lia|].
    destruct (Z.eq_dec r4 365) as [H365|]; [|lia].
    exfalso. destruct He as (_ & _ & He). destruct (He H365) as [He3 Hr3].
    assert (time.isLeap y = true) as Hl; [|congruence].
    apply isLeap_spec. subst y. rewrite He3.
    split; [Z.to_euclidean_division_equations; lia|].
    destruct (Z.eq_dec c 24) as [Hc24|Hc24].
    + right. assert (b = 3) by lia. Z.to_euclidean_division_equations; lia.
    + left. Z.to_euclidean_division_equations; lia.
Qed.

Lemma forall_below (P : Z -> bool) (n : nat) :
  forallb P (map Z.of_nat (seq 0 n)) = true ->
  forall x, 0 <= x < Z.of_nat n -> P x = true.
Proof.
  rewrite forallb_forall. intros Hall x Hx. apply Hall.
  apply in_map_iff. exists (Z.to_nat x). split; [lia|]. apply in_seq. lia.
Qed.

Lemma absMonthDay_spec (y yd : Z) :
  0 <= yd < (if time.isLeap y then 366 else 365) ->
  let m := fst (time.absMonthDay y yd) in
  let dd := snd (time.absMonthDay y yd) in
  1 <= m <= 12 /\ 1 <= dd <= time.daysIn m y
  /\ time.daysBefore_at (m - 1)
     + (if time.isLeap y && (time.March <=? m) then 1 else 0) + (dd - 1) = yd.
Proof.
  intros Hyd.
  enough ((let m := fst (time.absMonthDay y yd) in
           let dd := snd (time.absMonthDay y yd) in
           (1 <=? m) && (m <=? 12) && (1 <=? dd) && (dd <=? time.daysIn m y)
           && (time.daysBefore_at (m - 1)
               + (if time.isLeap y && (time.March <=? m) then 1 else 0) + (dd - 1) =? yd))
          = true) as Hb.
  { cbv zeta in Hb. rewrite !andb_true_iff, !Z.leb_le, Z.eqb_eq in Hb. cbv zeta. lia. }
  unfold time.absMonthDay, time.daysIn.
  destruct (time.isLeap y); cbv zeta;
    match goal with
    | |- ?b = true =>
        let P := eval pattern yd in b in
        match P with
        | ?f _ => change (f yd = true)
        end
    end.
  - apply (forall_below _ 366); [vm_compute; reflexivity | lia].
  - apply (forall_below _ 365); [vm_compute; reflexivity | lia].
Qed.

Lemma absClock_spec (abs : Z) :
  let '(h, mi, s) := time.absClock abs in
  0 <= h < 24 /\ 0 <= mi < 60 /\ 0 <= s < 60
  /\ h * 3600 + mi * 60 + s = abs mod 86400.
Proof.
  unfold time.absClock, time.secondsPerDay, time.secondsPerHour,
    time.secondsPerMinute. cbv zeta.
  Z.to_euclidean_division_equations; lia.
Qed.

Lemma Date_in_range (y m d h mi s : Z) :
  1 <= m <= 12 -> 0 <= h < 24 -> 0 <= mi < 60 -> 0 <= s < 60 ->
  time.Date y m d h mi s 0
  = time.mkTime
      ((time.daysSinceEpoch y + time.daysBefore_at (m - 1)
        + (if time.isLeap y && (time.March <=? m) then 1 else 0) + (d - 1)) * 86400
       + (h * 3600 + mi * 60 + s)) 0 0.
Proof.
  intros Hm Hh Hmi Hs. unfold time.Date, time.norm. cbv beta iota zeta.
  rewrite (Z.div_small (m - 1) 12), (Z.mod_small (m - 1) 12) by lia.
  change (0 / 1000000000) with 0. change (0 mod 1000000000) with 0.
  rewrite !Z.add_0_r, (Z.div_small s 60), (Z.mod_small s 60) by lia.
  rewrite !Z.add_0_r, (Z.div_small mi 60), (Z.mod_small mi 60) by lia.
  rewrite !Z.add_0_r, (Z.div_small h 24), (Z.mod_small h 24) by lia.
  rewrite !Z.add_0_r. replace (m - 1 + 1) with m by lia.
  unfold time.secondsPerDay, time.secondsPerHour, time.secondsPerMinute.
  destruct (time.isLeap y && (time.March <=? m)); f_equal; lia.
Qed.

(** The calendar fields of a count of seconds give the count back. *)
Lemma Date_absDate (abs : Z) :
  let '(y, m, d) := time.absDate abs in
  let '(h, mi, s) := time.absClock abs in
  time.Date y m d h mi s 0 = time.mkTime abs 0 0
  /\ 1 <= m <= 12 /\ 1 <= d <= time.daysIn m y
  /\ 0 <= h < 24 /\ 0 <= mi < 60 /\ 0 <= s < 60.
Proof.
  pose proof (absClock_spec abs) as Hclock.
  unfold time.absDate.
  pose proof (absYear_spec (abs / time.secondsPerDay)) as [Hdays Hyd].
  destruct (time.absYear _) as [y yd]. cbn [fst snd] in *.
  pose proof (absMonthDay_spec y yd Hyd) as Hmd. cbv zeta in Hmd.
  destruct (time.absMonthDay y yd) as [m d]. cbn [fst snd] in *.
  destruct (time.absClock abs) as [[h mi] s].
  destruct Hclock as (Hh & Hmi & Hs & Hsum), Hmd as (Hm & Hd & Hyday).
  repeat split; try lia.
  rewrite Date_in_range by lia. f_equal.
  set (adj := if time.isLeap y && (time.March <=? m) then 1 else 0) in *.
  unfold time.secondsPerDay in *.
  Z.to_euclidean_division_equations; lia.
Qed.

Lemma digit_byte_facts (d : Z) :
  0 <= d < 10 ->
  isDigitByte (digit_byte d) = true /\ digit_val (digit_byte d) = d.
Proof.
  intros Hd.
  enough ((isDigitByte (digit_byte d) && (digit_val (digit_byte d) =? d)) = true) as Hb
    by (apply andb_true_iff in Hb as [? ?%Z.eqb_eq]; tauto).
  revert d Hd. apply (forall_below _ 10). vm_compute. reflexivity.
Qed.

Lemma appendInt_two (x : Z) : 0 <= x < 100 -> time.appendInt x 2 = two x.
Proof.
  intros Hx. apply String.eqb_eq. revert x Hx.
  apply (forall_below (fun x => String.eqb (time.appendInt x 2) (two x)) (Z.to_nat 100)).
  vm_compute. reflexivity.
Qed.

Lemma four_quotients (x : Z) :
  0 <= x < 10000 ->
  x / 10 / 10 / 10 = x / 1000 /\ x / 10 / 10 = x / 100
  /\ 0 <= x / 1000 < 10 /\ x / 1000 mod 10 = x / 1000.
Proof. intros Hx. Z.to_euclidean_division_equations; lia. Qed.

Lemma appendInt_four (x : Z) : 0 <= x < 10000 -> time.appendInt x 4 = four x.
Proof.
  intros Hx. destruct (four_quotients x Hx) as (Hq3 & Hq2 & Hr3 & Hm3).
  unfold time.appendInt, four. rewrite Z.abs_eq by lia.
  destruct (Z.ltb_spec x 0); [lia|]. cbn [time.utoa].
  destruct (Z.eqb_spec (x / 10) 0) as [H1|H1].
  { replace (x / 1000) with 0 by (Z.to_euclidean_division_equations; lia).
    replace (x / 100) with 0 by (Z.to_euclidean_division_equations; lia).
    rewrite H1. reflexivity. }
  destruct (Z.eqb_spec (x / 10 / 10) 0) as [H2|H2].
  { replace (x / 1000) with 0 by (Z.to_euclidean_division_equations; lia).
    replace (x / 100) with 0 by (Z.to_euclidean_division_equations; lia).
    reflexivity. }
  destruct (Z.eqb_spec (x / 10 / 10 / 10) 0) as [H3|H3].
  { replace (x / 1000) with 0 by (Z.to_euclidean_division_equations; lia).
    rewrite Hq2. reflexivity. }
  destruct (Z.eqb_spec (x / 10 / 10 / 10 / 10) 0) as [H4|H4];
    [|exfalso; Z.to_euclidean_division_equations; lia].
  rewrite Hq3, Hq2, Hm3. reflexivity.
Qed.

Lemma atoi_unsigned (a : ascii) (r : string) :
  isDigitByte a = true ->
  time.atoi (String a r)
  = match time.leadingInt (String a r) 0 with
    | Some (q, "") => Some q
    | _ => None
    end.
Proof.
  intros Ha. destruct a as [b0 b1 b2 b3 b4 b5 b6 b7].
  destruct b0, b1, b2, b3, b4, b5, b6, b7;
    try (vm_compute in Ha; discriminate Ha); reflexivity.
Qed.

Lemma atoi_four (x : Z) : 0 <= x < 10000 -> time.atoi (four x) = Some x.
Proof.
  intros Hx. unfold four.
  destruct (digit_byte_facts (x / 1000)) as [H1 V1];
    [Z.to_euclidean_division_equations; lia|].
  destruct (digit_byte_facts (x / 100 mod 10)) as [H2 V2];
    [Z.to_euclidean_division_equations; lia|].
  destruct (digit_byte_facts (x / 10 mod 10)) as [H3 V3];
    [Z.to_euclidean_division_equations; lia|].
  destruct (digit_byte_facts (x mod 10)) as [H4 V4];
    [Z.to_euclidean_division_equations; lia|].
  rewrite atoi_unsigned by assumption. cbn [time.leadingInt].
  rewrite H1, H2, H3, H4, V1, V2, V3, V4.
  unfold time.maxInt63. change (Z.quot 9223372036854775808 10) with 922337203685477580.
  assert (R1 : 0 <= x / 1000 < 10) by (Z.to_euclidean_division_equations; lia).
  assert (R2 : 0 <= x / 100 mod 10 < 10) by (Z.to_euclidean_division_equations; lia).
  assert (R3 : 0 <= x / 10 mod 10 < 10) by (Z.to_euclidean_division_equations; lia).
  assert (R4 : 0 <= x mod 10 < 10) by (Z.to_euclidean_division_equations; lia).
  assert (V : (((0 * 10 + x / 1000) * 10 + x / 100 mod 10) * 10 + x / 10 mod 10) * 10
              + x mod 10 = x) by (Z.to_euclidean_division_equations; lia).
  set (a := x / 1000) in *. set (b := x / 100 mod 10) in *.
  set (c := x / 10 mod 10) in *. set (d := x mod 10) in *.
  clearbody a b c d.
  repeat match goal with
    | |- context [?u <? ?w] => destruct (Z.ltb_spec u w); [lia|]
    end.
  rewrite V. reflexivity.
Qed.

(** *** Parsing what was formatted *)

Lemma append_cons (c : ascii) (s t : string) : String c s +:+ t = String c (s +:+ t).
Proof. reflexivity. Qed.

Lemma append_nil (t : string) : "" +:+ t = t.
Proof. reflexivity. Qed.

Ltac norm_app := rewrite ?append_cons, ?append_nil.

Lemma getnum_two (x : Z) (rest : string) (fixed : bool) :
  0 <= x < 100 -> time.getnum (two x +:+ rest) fixed = Some (x, rest).
Proof.
  intros Hx. unfold two, time.getnum. norm_app.
  destruct (digit_byte_facts (x / 10)) as [-> ->]; [Z.to_euclidean_division_equations; lia|].
  destruct (digit_byte_facts (x mod 10)) as [-> ->]; [Z.to_euclidean_division_equations; lia|].
  do 2 f_equal. Z.to_euclidean_division_equations; lia.
Qed.

Lemma parse_year (f : time.fields) (y : Z) (rest : string) :
  0 <= y < 10000 ->
  time.parseChunk time.stdLongYear f (four y +:+ rest)
  = Some (time.setYear f y, rest).
Proof.
  intros Hy. pose proof (atoi_four y Hy) as Hatoi. unfold four in *. norm_app.
  cbn [time.parseChunk].
  destruct (digit_byte_facts (y / 1000)) as [-> _]; [Z.to_euclidean_division_equations; lia|].
  rewrite Hatoi. reflexivity.
Qed.

Lemma parse_literal (f : time.fields) (c : ascii) (rest : string) :
  time.parseChunk (time.literal (String c "")) f (String c rest) = Some (f, rest).
Proof. cbn. rewrite Ascii.eqb_refl. reflexivity. Qed.

(** The zone text of an offset of whole minutes under 25 hours. *)
Lemma appendZone_minutes (off : Z) :
  Z.rem off 60 = 0 -> -90000 < off < 90000 -> off <> 0 ->
  time.appendZone off
  = String (if off <? 0 then "-"%char else "+"%char)
      (two (Z.abs off / 3600) +:+ ":" +:+ two (Z.abs off / 60 mod 60)).
Proof.
  intros Hrem Hrange Hnz. unfold time.appendZone.
  destruct (Z.eqb_spec off 0) as [|_]; [contradiction|].
  assert (Hq : off = Z.quot off 60 * 60)
    by (pose proof (Z.quot_rem' off 60); lia).
  set (q := Z.quot off 60) in *. clearbody q. subst off. clear Hrem.
  destruct (Z.ltb_spec q 0) as [Hneg|Hpos].
  - assert ((q * 60 <? 0) = true) as -> by (apply Z.ltb_lt; lia).
    rewrite Z.quot_div_nonneg, Z.rem_mod_nonneg by lia.
    rewrite !appendInt_two by (Z.to_euclidean_division_equations; lia).
    replace (Z.abs (q * 60) / 3600) with (- q / 60)
      by (Z.to_euclidean_division_equations; lia).
    replace (Z.abs (q * 60) / 60) with (- q)
      by (Z.to_euclidean_division_equations; lia).
    reflexivity.
  - assert ((q * 60 <? 0) = false) as -> by (apply Z.ltb_ge; lia).
    rewrite Z.quot_div_nonneg, Z.rem_mod_nonneg by lia.
    rewrite !appendInt_two by (Z.to_euclidean_division_equations; lia).
    replace (Z.abs (q * 60) / 3600) with (q / 60)
      by (Z.to_euclidean_division_equations; lia).
    replace (Z.abs (q * 60) / 60) with q
      by (Z.to_euclidean_division_equations; lia).
    reflexivity.
Qed.

Lemma getnum_digits (x : Z) (rest : string) (fixed : bool) :
  0 <= x < 100 ->
  time.getnum (String (digit_byte (x / 10)) (String (digit_byte (x mod 10)) rest)) fixed
  = Some (x, rest).
Proof. intros Hx. apply (getnum_two x rest fixed Hx). Qed.

Lemma parseZone_appendZone (f : time.fields) (off : Z) :
  Z.rem off 60 = 0 -> -90000 < off < 90000 ->
  time.parseZone f (time.appendZone off)
  = Some (if off =? 0
          then time.setZ f true
          else time.setZoneOffset f off, "").
Proof.
  intros Hrem Hrange. destruct (Z.eqb_spec off 0) as [->|Hnz]; [reflexivity|].
  rewrite appendZone_minutes by assumption.
  assert (Hq : off = Z.quot off 60 * 60)
    by (pose proof (Z.quot_rem' off 60); lia).
  set (hh := Z.abs off / 3600). set (mm := Z.abs off / 60 mod 60).
  assert (Hhh : 0 <= hh <= 24) by (subst hh; Z.to_euclidean_division_equations; lia).
  assert (Hmm : 0 <= mm < 60) by (subst mm; Z.to_euclidean_division_equations; lia).
  assert (Habs : (hh * 60 + mm) * 60 + 0 = Z.abs off)
    by (subst hh mm; Z.to_euclidean_division_equations; lia).
  unfold two. norm_app.
  destruct (Z.ltb_spec off 0); cbn [time.parseZone Ascii.eqb Bool.eqb negb];
    rewrite !getnum_digits by lia; cbn [mbind option_bind];
    (assert ((24 <? hh) = false) as -> by (apply Z.ltb_ge; lia));
    (assert ((60 <? mm) = false) as -> by (apply Z.ltb_ge; lia));
    cbn [orb mbind option_bind Ascii.eqb Bool.eqb]; rewrite Habs;
    do 3 f_equal; lia.
Qed.

Lemma parseFraction_appendZone (f : time.fields) (off : Z) :
  Z.rem off 60 = 0 -> -90000 < off < 90000 ->
  time.parseFraction f (time.appendZone off) = Some (f, time.appendZone off).
Proof.
  intros Hrem Hrange. destruct (Z.eq_dec off 0) as [->|Hnz]; [reflexivity|].
  rewrite appendZone_minutes by assumption. unfold two. norm_app.
  destruct (off <? 0); reflexivity.
Qed.

Lemma append_empty_r (s : string) : s +:+ "" = s.
Proof. induction s as [|c s IH]; [reflexivity|]. rewrite append_cons, IH. reflexivity. Qed.

Ltac decide_ranges :=
  repeat match goal with
    | |- context [?a <? ?b] => destruct (Z.ltb_spec a b); [try lia|try lia]
    | |- context [?a <=? ?b] => destruct (Z.leb_spec a b); [try lia|try lia]
    end.

Lemma parse_month (f : time.fields) (m : Z) (rest : string) :
  1 <= m <= 12 ->
  time.parseChunk time.stdZeroMonth f (two m +:+ rest)
  = Some (time.setMonth f m, rest).
Proof.
  intros Hm. cbn [time.parseChunk]. rewrite getnum_two by lia.
  cbn [mbind option_bind]. decide_ranges. reflexivity.
Qed.

Lemma parse_day (f : time.fields) (d : Z) (rest : string) :
  0 <= d < 100 ->
  time.parseChunk time.stdZeroDay f (two d +:+ rest)
  = Some (time.setDay f d, rest).
Proof.
  intros Hd. cbn [time.parseChunk]. rewrite getnum_two by lia. reflexivity.
Qed.

Lemma parse_hour (f : time.fields) (h : Z) (rest : string) :
  0 <= h < 24 ->
  time.parseChunk time.stdHour f (two h +:+ rest)
  = Some (time.setHour f h, rest).
Proof.
  intros Hh. cbn [time.parseChunk]. rewrite getnum_two by lia.
  cbn [mbind option_bind]. decide_ranges. reflexivity.
Qed.

Lemma parse_minute (f : time.fields) (mi : Z) (rest : string) :
  0 <= mi < 60 ->
  time.parseChunk time.stdZeroMinute f (two mi +:+ rest)
  = Some (time.setMin f mi, rest).
Proof.
  intros Hh. cbn [time.parseChunk]. rewrite getnum_two by lia.
  cbn [mbind option_bind]. decide_ranges. reflexivity.
Qed.

Lemma parse_second_zone (f : time.fields) (s off : Z) :
  0 <= s < 60 -> Z.rem off 60 = 0 -> -90000 < off < 90000 ->
  time.parseChunk time.stdZeroSecond f (two s +:+ time.appendZone off)
  = Some (time.setSec f s, time.appendZone off).
Proof.
  intros Hs Hrem Hrange. cbn [time.parseChunk]. rewrite getnum_two by lia.
  cbn [mbind option_bind]. decide_ranges.
  rewrite parseFraction_appendZone by assumption. reflexivity.
Qed.

Lemma parseChunks_step (c : time.chunk) (cs : list time.chunk)
    (f f' : time.fields) (v v' : string) :
  time.parseChunk c f v = Some (f', v') ->
  time.parseChunks (c :: cs) f v = time.parseChunks cs f' v'.
Proof. intros Hc. cbn [time.parseChunks]. rewrite Hc. reflexivity. Qed.

Lemma parse_literal_app (f : time.fields) (c : ascii) (rest : string) :
  time.parseChunk (time.literal (String c "")) f (String c "" +:+ rest) = Some (f, rest).
Proof. apply parse_literal. Qed.

Lemma parseChunks_zone (f : time.fields) (off : Z) :
  Z.rem off 60 = 0 -> -90000 < off < 90000 ->
  time.parseChunks [time.stdISO8601ColonTZ] f (time.appendZone off)
  = Some (if off =? 0
          then time.setZ f true
          else time.setZoneOffset f off).
Proof.
  intros Hrem Hrange.
  pose proof (parseZone_appendZone f off Hrem Hrange) as Hzone.
  change (time.parseZone f (time.appendZone off))
    with (time.parseChunk time.stdISO8601ColonTZ f (time.appendZone off)) in Hzone.
  rewrite (parseChunks_step _ _ _ _ _ _ Hzone). reflexivity.
Qed.

Lemma fieldsTime_valid (y m d h mi s ns zo : Z) (z : bool) :
  1 <= m -> 1 <= d <= time.daysIn m y ->
  time.fieldsTime (time.mkFields y m d h mi s ns z zo)
  = Some (let t := time.Date y m d h mi s ns in
          if z then t
          else if negb (zo =? -1)
               then time.mkTime (time.sec t - zo) (time.nsec t) zo
               else t).
Proof.
  intros Hm Hd. unfold time.fieldsTime.
  cbn [time.f_year time.f_month time.f_day time.f_hour time.f_min time.f_sec
       time.f_nsec time.f_z time.f_zoneOffset].
  decide_ranges. cbn [orb]. destruct z; [reflexivity|].
  destruct (negb (zo =? -1)); reflexivity.
Qed.

Lemma daysIn_le_31 (m y : Z) : 1 <= m <= 12 -> time.daysIn m y <= 31.
Proof.
  intros Hm. unfold time.daysIn. destruct (_ && _); [lia|].
  assert (m = 1 \/ m = 2 \/ m = 3 \/ m = 4 \/ m = 5 \/ m = 6 \/ m = 7 \/ m = 8
          \/ m = 9 \/ m = 10 \/ m = 11 \/ m = 12) as Hcases by lia.
  repeat (destruct Hcases as [->|Hcases]; [vm_compute; discriminate|]).
  subst m. vm_compute. discriminate.
Qed.

(** The RFC 3339 text of a Time, field by field. *)
Lemma Format_RFC3339 (t : time.Time) :
  time.Format t time.RFC3339
  = let '(y, m, d) := time.absDate (time.sec t + time.offset t) in
    let '(h, mi, s) := time.absClock (time.sec t + time.offset t) in
    time.appendInt y 4 +:+ "-" +:+ time.appendInt m 2 +:+ "-" +:+ time.appendInt d 2
    +:+ "T" +:+ time.appendInt h 2 +:+ ":" +:+ time.appendInt mi 2 +:+ ":"
    +:+ time.appendInt s 2 +:+ time.appendZone (time.offset t).
Proof.
  unfold time.Format, time.RFC3339, time.dateTimeChunks.
  cbn [time.chunks app fold_right]. unfold time.formatChunk.
  destruct (time.absDate _) as [[y m] d]. destruct (time.absClock _) as [[h mi] s].
  rewrite append_empty_r. reflexivity.
Qed.

Ltac fields_simpl :=
  cbv beta delta [time.setYear time.setMonth time.setDay time.setHour time.setMin
                  time.setSec time.setNsec time.setZ time.setZoneOffset];
  cbn [time.f_year time.f_month time.f_day time.f_hour time.f_min time.f_sec
       time.f_nsec time.f_z time.f_zoneOffset time.fields0].

(** Parsing the RFC 3339 text of a Time gives the Time back. *)
Lemma Parse_Format_RFC3339 (t : time.Time) :
  time.nsec t = 0 ->
  0 <= time.Year t <= 9999 ->
  Z.rem (time.offset t) 60 = 0 ->
  -90000 < time.offset t < 90000 ->
  time.Parse time.RFC3339 (time.Format t time.RFC3339) = Ok t.
Proof.
  destruct t as [sec nsec off]. unfold time.Year. cbn [time.sec time.nsec time.offset].
  intros -> Hyear Hrem Hrange.
  pose proof (Date_absDate (sec + off)) as HD.
  rewrite Format_RFC3339. cbn [time.sec time.nsec time.offset].
  destruct (time.absDate (sec + off)) as [[y m] d].
  destruct (time.absClock (sec + off)) as [[h mi] s].
  destruct HD as (HDate & Hm & Hd & Hh & Hmi & Hs).
  pose proof (daysIn_le_31 m y Hm) as Hd31.
  rewrite appendInt_four, !appendInt_two by lia.
  unfold time.Parse, time.RFC3339, time.dateTimeChunks. cbn [time.chunks time.text app].
  rewrite (parseChunks_step _ _ _ _ _ _ (parse_year _ y _ ltac:(lia))). fields_simpl.
  rewrite (parseChunks_step _ _ _ _ _ _ (parse_literal_app _ _ _)).
  rewrite (parseChunks_step _ _ _ _ _ _ (parse_month _ m _ Hm)). fields_simpl.
  rewrite (parseChunks_step _ _ _ _ _ _ (parse_literal_app _ _ _)).
  rewrite (parseChunks_step _ _ _ _ _ _ (parse_day _ d _ ltac:(lia))). fields_simpl.
  rewrite (parseChunks_step _ _ _ _ _ _ (parse_literal_app _ _ _)).
  rewrite (parseChunks_step _ _ _ _ _ _ (parse_hour _ h _ Hh)). fields_simpl.
  rewrite (parseChunks_step _ _ _ _ _ _ (parse_literal_app _ _ _)).
  rewrite (parseChunks_step _ _ _ _ _ _ (parse_minute _ mi _ Hmi)). fields_simpl.
  rewrite (parseChunks_step _ _ _ _ _ _ (parse_literal_app _ _ _)).
  rewrite (parseChunks_step _ _ _ _ _ _ (parse_second_zone _ s off Hs Hrem Hrange)).
  fields_simpl.
  rewrite (parseChunks_zone _ off Hrem Hrange). fields_simpl.
  cbn [mbind option_bind].
  destruct (Z.eqb_spec off 0) as [->|Hnz]; fields_simpl;
    rewrite fieldsTime_valid by lia; rewrite HDate; cbv zeta;
    cbn [time.sec time.nsec negb].
  - rewrite Z.add_0_r. reflexivity.
  - destruct (Z.eqb_spec off (-1)) as [->|_]; [discriminate Hrem|].
    cbn [negb]. do 2 f_equal. lia.
Qed.

(** *** The JSON form of a timestamp *)

Lemma allPlain_app (a b : string) : allPlain (a +:+ b) = allPlain a && allPlain b.
Proof.
  induction a as [|c a IH]; [reflexivity|].
  rewrite append_cons. cbn [allPlain]. rewrite IH, andb_assoc. reflexivity.
Qed.

Lemma plainb_digit (d : Z) : 0 <= d < 10 -> plainb (digit_byte d) = true.
Proof.
  intros Hd. unfold plainb. destruct (digit_byte_facts d Hd) as [-> _]. reflexivity.
Qed.

Lemma allPlain_two (x : Z) : 0 <= x < 100 -> allPlain (two x) = true.
Proof.
  intros Hx. unfold two. cbn [allPlain].
  rewrite !plainb_digit by (Z.to_euclidean_division_equations; lia). reflexivity.
Qed.

Lemma allPlain_four (x : Z) : 0 <= x < 10000 -> allPlain (four x) = true.
Proof.
  intros Hx. unfold four. cbn [allPlain].
  rewrite !plainb_digit by (Z.to_euclidean_division_equations; lia). reflexivity.
Qed.

Lemma allPlain_zone (off : Z) :
  Z.rem off 60 = 0 -> -90000 < off < 90000 -> allPlain (time.appendZone off) = true.
Proof.
  intros Hrem Hrange. destruct (Z.eq_dec off 0) as [->|Hnz]; [reflexivity|].
  rewrite appendZone_minutes by assumption.
  cbn [allPlain]. rewrite !allPlain_app, !allPlain_two
    by (Z.to_euclidean_division_equations; lia).
  destruct (off <? 0); reflexivity.
Qed.

Lemma plainb_not (c k : ascii) : plainb c = true -> plainb k = false -> Ascii.eqb c k = false.
Proof.
  intros Hc Hk. destruct (Ascii.eqb_spec c k) as [->|]; [congruence|reflexivity].
Qed.

Lemma escape_plain_byte (c : ascii) (rest : string) :
  plainb c = true ->
  json.escapeString (String c rest) O = String c (json.escapeString rest O).
Proof.
  intros Hc. destruct c as [b0 b1 b2 b3 b4 b5 b6 b7].
  destruct b0, b1, b2, b3, b4, b5, b6, b7;
    try (vm_compute in Hc; discriminate Hc); reflexivity.
Qed.

Lemma escape_plain (s : string) : allPlain s = true -> json.escapeString s O = s.
Proof.
  induction s as [|c s IH]; [reflexivity|]. cbn [allPlain].
  intros [Hc Hs]%andb_true_iff. rewrite escape_plain_byte, IH by assumption.
  reflexivity.
Qed.

Lemma rev_onto_app (s t acc : string) :
  strings.rev_onto (s +:+ t) acc = strings.rev_onto t (strings.rev_onto s acc).
Proof.
  revert acc. induction s as [|c s IH]; intros acc; [reflexivity|].
  rewrite append_cons. cbn [strings.rev_onto]. apply IH.
Qed.

Lemma rev_onto_rev_onto (s acc acc' : string) :
  strings.rev_onto (strings.rev_onto s acc) acc' = strings.rev_onto acc (s +:+ acc').
Proof.
  revert acc acc'. induction s as [|c s IH]; intros acc acc'; [reflexivity|].
  cbn [strings.rev_onto]. rewrite IH. reflexivity.
Qed.

(** A non-empty plain text ends with a plain byte. *)
Lemma plain_last (s : string) :
  allPlain s = true -> s <> "" ->
  exists s0 c, s = s0 +:+ String c "" /\ plainb c = true.
Proof.
  induction s as [|c s IH]; [intros _ []; reflexivity|].
  cbn [allPlain]. intros [Hc Hs]%andb_true_iff _.
  destruct s as [|c' s'].
  - exists "", c. split; [reflexivity|assumption].
  - destruct (IH Hs) as (s0 & l & Heq & Hl); [discriminate|].
    exists (String c s0), l. rewrite append_cons, <- Heq. split; [reflexivity|assumption].
Qed.

Lemma quote_not_plain (c : ascii) :
  plainb c = true -> Ascii.eqb quote_byte c = false.
Proof.
  intros Hc. rewrite Ascii.eqb_sym. apply (plainb_not c quote_byte Hc). reflexivity.
Qed.

Lemma Trim_quoted (s : string) :
  allPlain s = true -> s <> "" -> strings.Trim (spec.quoted s) quote_str = s.
Proof.
  intros Hs Hne. pose proof Hs as Hfirst.
  destruct (plain_last s Hs Hne) as (s0 & l & -> & Hl).
  unfold strings.Trim, strings.TrimRight, spec.quoted, quote_str.
  rewrite append_cons, append_nil. cbn [strings.rev_onto].
  rewrite !rev_onto_app. cbn [strings.rev_onto strings.TrimLeft strings.IndexByte].
  rewrite Ascii.eqb_refl, (quote_not_plain l Hl).
  cbn [strings.rev_onto]. rewrite rev_onto_rev_onto. cbn [strings.rev_onto].
  cbn [strings.TrimLeft strings.IndexByte]. rewrite Ascii.eqb_refl.
  destruct s0 as [|c s0]; rewrite ?append_cons, ?append_nil in *;
    cbn [strings.TrimLeft strings.IndexByte].
  - rewrite (quote_not_plain l Hl). reflexivity.
  - cbn [allPlain] in Hfirst. apply andb_true_iff in Hfirst as [Hc _].
    rewrite (quote_not_plain c Hc). reflexivity.
Qed.

Lemma plain_not_null (s : string) :
  allPlain s = true -> s <> "" -> String.eqb s "null" || String.eqb s "" = false.
Proof.
  intros Hs Hne. destruct s as [|c s]; [contradiction|].
  cbn [allPlain] in Hs. apply andb_true_iff in Hs as [Hc _].
  cbn [String.eqb]. rewrite (plainb_not c "n" Hc) by reflexivity. reflexivity.
Qed.

(** The RFC 3339 text of a Time in the years 0 to 9999 is plain: digits and
    the separators only. *)
Lemma Format_plain (t : time.Time) :
  0 <= time.Year t <= 9999 ->
  Z.rem (time.offset t) 60 = 0 ->
  -90000 < time.offset t < 90000 ->
  allPlain (time.Format t time.RFC3339) = true /\ time.Format t time.RFC3339 <> "".
Proof.
  unfold time.Year. intros Hyear Hrem Hrange.
  pose proof (Date_absDate (time.sec t + time.offset t)) as HD.
  rewrite Format_RFC3339.
  destruct (time.absDate _) as [[y m] d]. destruct (time.absClock _) as [[h mi] s].
  destruct HD as (_ & Hm & Hd & Hh & Hmi & Hs).
  pose proof (daysIn_le_31 m y Hm) as Hd31.
  rewrite appendInt_four, !appendInt_two by lia. split.
  - rewrite !allPlain_app, allPlain_four, !allPlain_two, allPlain_zone by lia.
    reflexivity.
  - unfold four. rewrite append_cons. discriminate.
Qed.

(** C3 (amended).  A Time on a whole second, in the years 0 to 9999 of its
    own zone and with a zone offset of whole minutes under 25 hours, formats
    to a text that parses, into a fresh Time, to the same instant; unless it
    is the zero instant (which formats to [null]) the parsed Time is the very
    same Time, offset included. *)
Theorem timestamp_round_trip (T : qi.Time) :
  time.nsec (qi.Time_ T) = 0 ->
  0 <= time.Year (qi.Time_ T) <= 9999 ->
  Z.rem (time.offset (qi.Time_ T)) 60 = 0 ->
  -90000 < time.offset (qi.Time_ T) < 90000 ->
  exists (out : string) (T' : qi.Time),
    qi.MarshalJSON T = Ok out
    /\ qi.UnmarshalJSON qi.zeroTime out = (T', None)
    /\ time.Equal (qi.Time_ T') (qi.Time_ T) = true
    /\ (time.IsZero (qi.Time_ T) = false -> T' = T).
Proof.
  destruct T as [t]. cbn [qi.Time_]. intros Hns Hyear Hrem Hrange.
  unfold qi.MarshalJSON. cbn [qi.Time_].
  destruct (time.IsZero t) eqn:Hzero.
  - exists "null", qi.zeroTime. repeat split; [|discriminate].
    unfold time.IsZero in Hzero. unfold time.Equal. cbn.
    apply andb_true_iff in Hzero as [->%Z.eqb_eq ->%Z.eqb_eq]. reflexivity.
  - destruct (Format_plain t Hyear Hrem Hrange) as [Hplain Hne].
    exists (spec.quoted (time.Format t time.RFC3339)), (qi.NewTime t).
    split; [|split; [|split]].
    + unfold json.Marshal_string. rewrite escape_plain by assumption. reflexivity.
    + unfold qi.UnmarshalJSON. rewrite Trim_quoted by assumption.
      rewrite plain_not_null by assumption.
      rewrite Parse_Format_RFC3339 by assumption. reflexivity.
    + unfold time.Equal. cbn [qi.Time_]. rewrite !Z.eqb_refl. reflexivity.
    + reflexivity.
Qed.

Lemma timestamp_round_trip_witness :
  exists (out : string) (T' : qi.Time),
    qi.MarshalJSON (qi.NewTime (time.mkTime 63904507051 0 (-12600))) = Ok out
    /\ qi.UnmarshalJSON qi.zeroTime out = (T', None)
    /\ time.Equal (qi.Time_ T') (time.mkTime 63904507051 0 (-12600)) = true
    /\ (time.IsZero (time.mkTime 63904507051 0 (-12600)) = false ->
        T' = qi.NewTime (time.mkTime 63904507051 0 (-12600))).
Proof.
  apply (timestamp_round_trip (qi.NewTime (time.mkTime 63904507051 0 (-12600)))).
  - reflexivity.
  - vm_compute. split; discriminate.
  - reflexivity.
  - cbn. lia.
Defined.

(** C3, as stated, fails for an instant with a fraction of a second: the
    text has whole seconds only, so half a second past 11:57:31 comes back
    as 11:57:31. *)
Lemma subsecond_instant_does_not_round_trip :
  qi.MarshalJSON (qi.NewTime (time.mkTime 63904507051 500000000 0))
  = Ok (spec.quoted "2026-01-20T11:57:31Z")
  /\ qi.UnmarshalJSON qi.zeroTime (spec.quoted "2026-01-20T11:57:31Z")
     = (qi.NewTime (time.mkTime 63904507051 0 0), None)
  /\ time.Equal (time.mkTime 63904507051 0 0) (time.mkTime 63904507051 500000000 0)
     = false.
Proof. repeat split; vm_compute; reflexivity. Qed.

(** *** The fallback layout *)

Lemma digit_val_range (c : ascii) : isDigitByte c = true -> 0 <= digit_val c <= 9.
Proof.
  unfold isDigitByte, digit_val. rewrite andb_true_iff, !Z.leb_le. lia.
Qed.

Lemma leadingInt_inv (s : string) (x q : Z) :
  time.leadingInt s x = Some (q, "") -> allDigits s = true /\ q = numberFrom x s.
Proof.
  revert x. induction s as [|c s IH]; intros x; cbn [time.leadingInt allDigits numberFrom].
  - intros [= ->]. split; reflexivity.
  - destruct (isDigitByte c); [|discriminate].
    destruct (_ <? x); [discriminate|]. destruct (_ <? _); [discriminate|].
    intros Hrec. destruct (IH _ Hrec) as [-> ->]. split; reflexivity.
Qed.

Lemma leadingInt_digits (s : string) (x : Z) :
  allDigits s = true -> 0 <= x ->
  (x + 1) * 10 ^ Z.of_nat (String.length s) <= 10 ^ 18 ->
  time.leadingInt s x = Some (numberFrom x s, "").
Proof.
  revert x. induction s as [|c s IH]; intros x Hs Hx Hbound; [reflexivity|].
  cbn [allDigits] in Hs. apply andb_true_iff in Hs as [Hc Hs].
  pose proof (digit_val_range c Hc) as Hv.
  cbn [String.length] in Hbound. rewrite Nat2Z.inj_succ, Z.pow_succ_r in Hbound by lia.
  assert (Hp : 0 < 10 ^ Z.of_nat (String.length s)) by (apply Z.pow_pos_nonneg; lia).
  set (p := 10 ^ Z.of_nat (String.length s)) in *.
  assert (Hx10 : (x + 1) * 10 <= 10 ^ 18) by nia.
  change (10 ^ 18) with 1000000000000000000 in *.
  cbn [time.leadingInt numberFrom]. rewrite Hc.
  unfold time.maxInt63. change (Z.quot 9223372036854775808 10) with 922337203685477580.
  decide_ranges. apply IH; [assumption|lia|].
  change (10 ^ 18) with 1000000000000000000. fold p. nia.
Qed.

Lemma atoi_inv (a : ascii) (r : string) (y : Z) :
  isDigitByte a = true -> time.atoi (String a r) = Some y ->
  allDigits (String a r) = true /\ y = number (String a r).
Proof.
  intros Ha. rewrite atoi_unsigned by assumption.
  destruct (time.leadingInt _ 0) as [[q [|? ?]]|] eqn:Hl; try discriminate.
  intros [= <-]. exact (leadingInt_inv _ _ _ Hl).
Qed.

Lemma atoi_digits (s : string) :
  allDigits s = true -> s <> "" -> (String.length s <= 18)%nat ->
  time.atoi s = Some (number s).
Proof.
  intros Hs Hne Hlen. destruct s as [|a r]; [contradiction|].
  pose proof Hs as Ha. cbn [allDigits] in Ha. apply andb_true_iff in Ha as [Ha _].
  rewrite atoi_unsigned, leadingInt_digits; try assumption; try lia; [reflexivity|].
  rewrite Z.mul_1_l. apply Z.pow_le_mono_r; lia.
Qed.

Lemma parseChunks_cons_iff (c : time.chunk) (cs : list time.chunk)
    (f r : time.fields) (v : string) :
  time.parseChunks (c :: cs) f v = Some r
  <-> exists f' v', time.parseChunk c f v = Some (f', v')
                    /\ time.parseChunks cs f' v' = Some r.
Proof.
  cbn [time.parseChunks]. destruct (time.parseChunk c f v) as [[f' v']|]; cbn; split.
  - intros Hr. exists f', v'. split; [reflexivity|assumption].
  - intros (f'' & v'' & [= <- <-] & Hr). assumption.
  - discriminate.
  - intros (f'' & v'' & [=] & _).
Qed.

Lemma parseChunks_nil_iff (f r : time.fields) (v : string) :
  time.parseChunks [] f v = Some r <-> v = "" /\ r = f.
Proof.
  cbn [time.parseChunks]. destruct (String.eqb_spec v ""); split.
  - intros [= <-]. tauto.
  - intros [_ ->]. reflexivity.
  - discriminate.
  - tauto.
Qed.

Lemma skip_one_iff (c : ascii) (v v' : string) :
  time.skip v (String c "") = Some v' <-> v = String c v'.
Proof.
  destruct v as [|a v0]; cbn [time.skip]; [split; discriminate|].
  destruct (Ascii.eqb_spec a c) as [->|Hne]; split.
  - intros [= ->]. reflexivity.
  - intros [= ->]. reflexivity.
  - discriminate.
  - intros [= ? ?]. contradiction.
Qed.

Lemma literal_iff (c : ascii) (f f' : time.fields) (v v' : string) :
  time.parseChunk (time.literal (String c "")) f v = Some (f', v')
  <-> v = String c v' /\ f' = f.
Proof.
  cbn [time.parseChunk]. rewrite <- skip_one_iff.
  destruct (time.skip v (String c "")) as [w|]; cbn; split.
  - intros [= <- <-]. tauto.
  - intros [[= ->] ->]. reflexivity.
  - discriminate.
  - intros [[=] _].
Qed.

Lemma digitsOf_2 (s : string) :
  digitsOf 2 s
  <-> exists a b, s = String a (String b "")
                  /\ isDigitByte a = true /\ isDigitByte b = true.
Proof.
  unfold digitsOf. split.
  - intros [Hlen Hd]. destruct s as [|a [|b [|? ?]]]; try discriminate Hlen.
    cbn [allDigits] in Hd. apply andb_true_iff in Hd as [Ha Hb].
    rewrite andb_true_r in Hb. eauto.
  - intros (a & b & -> & Ha & Hb). cbn [allDigits]. rewrite Ha, Hb. split; reflexivity.
Qed.

Lemma digitsOf_1 (s : string) :
  digitsOf 1 s <-> exists a, s = String a "" /\ isDigitByte a = true.
Proof.
  unfold digitsOf. split.
  - intros [Hlen Hd]. destruct s as [|a [|? ?]]; try discriminate Hlen.
    cbn [allDigits] in Hd. rewrite andb_true_r in Hd. eauto.
  - intros (a & -> & Ha). cbn [allDigits]. rewrite Ha. split; reflexivity.
Qed.

Lemma number_2 (a b : ascii) :
  number (String a (String b "")) = digit_val a * 10 + digit_val b.
Proof. unfold number. cbn [numberFrom]. lia. Qed.

(** [getnum] with [fixed]: exactly two digits. *)
Lemma getnum_fixed_iff (v v' : string) (n : Z) :
  time.getnum v true = Some (n, v')
  <-> exists d, v = d +:+ v' /\ digitsOf 2 d /\ n = number d.
Proof.
  split.
  - unfold time.getnum. destruct v as [|a [|b rest]]; try discriminate.
    + destruct (isDigitByte a); discriminate.
    + destruct (isDigitByte a) eqn:Ha; [|discriminate].
      destruct (isDigitByte b) eqn:Hb; [|discriminate].
      intros [= <- <-]. exists (String a (String b "")).
      rewrite number_2, digitsOf_2. eauto 8.
  - intros (d & -> & (a & b & -> & Ha & Hb)%digitsOf_2 & ->).
    rewrite number_2. rewrite !append_cons, append_nil. unfold time.getnum.
    rewrite Ha, Hb. reflexivity.
Qed.

Lemma number_nonneg (s : string) : allDigits s = true -> 0 <= number s.
Proof.
  unfold number.
  assert (forall acc, allDigits s = true -> 0 <= acc -> 0 <= numberFrom acc s) as Hgen.
  { induction s as [|c s IH]; intros acc Hs Hacc; [assumption|].
    cbn [allDigits] in Hs. apply andb_true_iff in Hs as [Hc Hs].
    pose proof (digit_val_range c Hc). cbn [numberFrom]. apply IH; [assumption|lia]. }
  intros Hs. apply Hgen; [assumption|lia].
Qed.

Lemma year_iff (f f' : time.fields) (v v' : string) :
  time.parseChunk time.stdLongYear f v = Some (f', v')
  <-> exists Y, v = Y +:+ v' /\ digitsOf 4 Y /\ f' = time.setYear f (number Y).
Proof.
  split.
  - cbn [time.parseChunk]. destruct v as [|a [|b [|c [|d rest]]]]; try discriminate.
    destruct (isDigitByte a) eqn:Ha; [|discriminate].
    destruct (time.atoi _) as [y|] eqn:Hy; [|discriminate].
    cbn. intros [= <- <-]. destruct (atoi_inv _ _ _ Ha Hy) as [Hd ->].
    exists (String a (String b (String c (String d "")))).
    repeat split; assumption.
  - intros (Y & -> & [Hlen HY] & ->).
    destruct Y as [|a [|b [|c [|d [|? ?]]]]]; try discriminate Hlen.
    rewrite !append_cons, append_nil. cbn [time.parseChunk].
    pose proof HY as Ha. cbn [allDigits] in Ha. apply andb_true_iff in Ha as [-> _].
    rewrite atoi_digits by (try assumption; try discriminate; cbn; lia).
    reflexivity.
Qed.

Lemma month_iff (f f' : time.fields) (v v' : string) :
  time.parseChunk time.stdZeroMonth f v = Some (f', v')
  <-> exists M, v = M +:+ v' /\ digitsOf 2 M /\ 1 <= number M <= 12
                /\ f' = time.setMonth f (number M).
Proof.
  cbn [time.parseChunk]. split.
  - destruct (time.getnum v true) as [[n w]|] eqn:Hg; [|discriminate].
    apply getnum_fixed_iff in Hg as (M & -> & HM & ->). cbn.
    destruct (Z.leb_spec (number M) 0); [discriminate|].
    destruct (Z.ltb_spec 12 (number M)); [discriminate|].
    intros [= <- <-]. exists M. repeat split; try apply HM; lia.
  - intros (M & -> & HM & Hr & ->).
    rewrite (proj2 (getnum_fixed_iff _ _ _) (ex_intro _ M (conj eq_refl (conj HM eq_refl)))).
    cbn. decide_ranges. reflexivity.
Qed.

Lemma day_iff (f f' : time.fields) (v v' : string) :
  time.parseChunk time.stdZeroDay f v = Some (f', v')
  <-> exists D, v = D +:+ v' /\ digitsOf 2 D /\ f' = time.setDay f (number D).
Proof.
  cbn [time.parseChunk]. split.
  - destruct (time.getnum v true) as [[n w]|] eqn:Hg; [|discriminate].
    apply getnum_fixed_iff in Hg as (D & -> & HD & ->). cbn.
    intros [= <- <-]. exists D. repeat split; apply HD.
  - intros (D & -> & HD & ->).
    rewrite (proj2 (getnum_fixed_iff _ _ _) (ex_intro _ D (conj eq_refl (conj HD eq_refl)))).
    reflexivity.
Qed.

Lemma minute_iff (f f' : time.fields) (v v' : string) :
  time.parseChunk time.stdZeroMinute f v = Some (f', v')
  <-> exists mi, v = mi +:+ v' /\ digitsOf 2 mi /\ number mi <= 59
                 /\ f' = time.setMin f (number mi).
Proof.
  cbn [time.parseChunk]. split.
  - destruct (time.getnum v true) as [[n w]|] eqn:Hg; [|discriminate].
    apply getnum_fixed_iff in Hg as (M & -> & HM & ->). cbn.
    destruct (Z.ltb_spec (number M) 0); [discriminate|].
    destruct (Z.leb_spec 60 (number M)); [discriminate|].
    intros [= <- <-]. exists M. repeat split; try apply HM; lia.
  - intros (M & -> & HM & Hr & ->).
    rewrite (proj2 (getnum_fixed_iff _ _ _) (ex_intro _ M (conj eq_refl (conj HM eq_refl)))).
    pose proof (number_nonneg M (proj2 HM)).
    cbn. decide_ranges. reflexivity.
Qed.

Lemma hour_colon_iff (f f' : time.fields) (v v' : string) :
  (exists f1 v1, time.parseChunk time.stdHour f v = Some (f1, v1)
                 /\ time.parseChunk (time.literal ":") f1 v1 = Some (f', v'))
  <-> exists h, v = h +:+ ":" +:+ v' /\ (digitsOf 1 h \/ digitsOf 2 h)
                /\ number h <= 23 /\ f' = time.setHour f (number h).
Proof.
  split.
  - intros (f1 & v1 & Hh & [-> ->]%literal_iff). revert Hh.
    cbn [time.parseChunk]. unfold time.getnum.
    destruct v as [|a [|b rest]]; try discriminate.
    + destruct (isDigitByte a); cbn; [|discriminate].
      destruct (_ || _); [discriminate|intros [=]].
    + destruct (isDigitByte a) eqn:Ha; [|discriminate].
      destruct (isDigitByte b) eqn:Hb; cbn.
      * destruct (Z.ltb_spec (digit_val a * 10 + digit_val b) 0); [discriminate|].
        destruct (Z.leb_spec 24 (digit_val a * 10 + digit_val b)); [discriminate|].
        intros [= <- ->]. exists (String a (String b "")).
        rewrite number_2, digitsOf_2. repeat split; eauto 8; lia.
      * destruct (Z.ltb_spec (digit_val a) 0); [discriminate|].
        destruct (Z.leb_spec 24 (digit_val a)); [discriminate|].
        intros [= <- -> ->]. exists (String a "").
        rewrite digitsOf_1. unfold number. cbn [numberFrom].
        repeat split; eauto; lia.
  - intros (h & -> & Hd & Hr & ->).
    exists (time.setHour f (number h)), (":" +:+ v'). split; [|apply literal_iff; tauto].
    cbn [time.parseChunk]. unfold time.getnum.
    destruct Hd as [(a & -> & Ha)%digitsOf_1|(a & b & -> & Ha & Hb)%digitsOf_2];
      rewrite !append_cons, !append_nil, Ha.
    + pose proof (digit_val_range a Ha). unfold number in *. cbn [numberFrom] in *.
      change (isDigitByte ":") with false. cbn. decide_ranges. reflexivity.
    + pose proof (digit_val_range a Ha). pose proof (digit_val_range b Hb).
      rewrite number_2 in *. rewrite Hb. cbn. decide_ranges. reflexivity.
Qed.

Lemma spanDigits_all (s : string) :
  allDigits s = true -> time.spanDigits s = (s, "").
Proof.
  induction s as [|c s IH]; [reflexivity|]. cbn [allDigits time.spanDigits].
  intros [-> Hs]%andb_true_iff. rewrite IH by assumption. reflexivity.
Qed.

Lemma spanDigits_end (s ds : string) :
  time.spanDigits s = (ds, "") -> ds = s /\ allDigits s = true.
Proof.
  revert ds. induction s as [|c s IH]; intros ds; cbn [time.spanDigits allDigits].
  - intros [= <-]. split; reflexivity.
  - destruct (isDigitByte c); [|discriminate].
    destruct (time.spanDigits s) as [ds' tl] eqn:Hs. intros [= <- ->].
    destruct (IH ds' eq_refl) as [-> ->]. split; reflexivity.
Qed.

Lemma takeBytes_digits (n : nat) (s : string) :
  allDigits s = true ->
  allDigits (time.takeBytes n s) = true
  /\ (String.length (time.takeBytes n s) <= n)%nat
  /\ (s <> "" -> n <> O -> time.takeBytes n s <> "").
Proof.
  revert s. induction n as [|n IH]; intros s Hs.
  - cbn. repeat split; [lia|]. intros _ []. reflexivity.
  - destruct s as [|c s]; cbn [time.takeBytes].
    + repeat split; [cbn; lia|]. intros []. reflexivity.
    + cbn [allDigits] in *. apply andb_true_iff in Hs as [Hc Hs].
      destruct (IH s Hs) as (Hd & Hl & _). rewrite Hc, Hd.
      repeat split; [cbn [String.length]; lia|discriminate].
Qed.

Lemma fraction_sound (f f' : time.fields) (v : string) :
  time.parseFraction f v = Some (f', "") ->
  fraction v /\ exists ns, f' = time.setNsec f ns.
Proof.
  assert (Hsame : f = time.setNsec f (time.f_nsec f)) by (destruct f; reflexivity).
  unfold time.parseFraction. destruct v as [|c [|d rest]].
  - intros [= <-]. split; [left; reflexivity|eauto].
  - discriminate.
  - destruct (time.commaOrPeriod c && isDigitByte d) eqn:Hcond; [|discriminate].
    apply andb_true_iff in Hcond as [Hc Hd].
    destruct (time.spanDigits _) as [ds tl] eqn:Hspan.
    destruct (time.parseNanoseconds ds) as [ns|]; [|discriminate].
    cbn. intros [= <- ->]. apply spanDigits_end in Hspan as [-> Hall].
    split; [|eauto]. right. exists c, (String d rest).
    repeat split; try assumption. discriminate.
Qed.

Lemma fraction_complete (f : time.fields) (v : string) :
  fraction v -> exists ns, time.parseFraction f v = Some (time.setNsec f ns, "").
Proof.
  intros [->|(c & ds & -> & Hc & Hne & Hds)].
  - exists (time.f_nsec f). destruct f; reflexivity.
  - destruct ds as [|d rest]; [contradiction|]. unfold time.parseFraction.
    pose proof Hds as Hd. cbn [allDigits] in Hd. apply andb_true_iff in Hd as [Hd _].
    rewrite Hc, Hd, spanDigits_all by assumption. cbn [andb].
    unfold time.parseNanoseconds.
    destruct (takeBytes_digits 9 (String d rest) Hds) as (Htd & Htl & Htn).
    rewrite atoi_digits by (try assumption; try lia; apply Htn; discriminate).
    cbn. eexists. reflexivity.
Qed.

Lemma second_fraction_sound (f f' : time.fields) (v : string) :
  time.parseChunk time.stdZeroSecond f v = Some (f', "") ->
  exists se frac ns, v = se +:+ frac /\ digitsOf 2 se /\ number se <= 59
                     /\ fraction frac /\ f' = time.setNsec (time.setSec f (number se)) ns.
Proof.
  cbn [time.parseChunk].
  destruct (time.getnum v true) as [[n w]|] eqn:Hg; [|discriminate].
  apply getnum_fixed_iff in Hg as (se & -> & Hse & ->). cbn.
  destruct (Z.ltb_spec (number se) 0); [discriminate|].
  destruct (Z.leb_spec 60 (number se)); [discriminate|]. cbn.
  intros (Hfrac & ns & ->)%fraction_sound.
  exists se, w, ns. repeat split; try apply Hse; try assumption; lia.
Qed.

Lemma second_fraction_complete (f : time.fields) (se frac : string) :
  digitsOf 2 se -> number se <= 59 -> fraction frac ->
  exists ns, time.parseChunk time.stdZeroSecond f (se +:+ frac)
             = Some (time.setNsec (time.setSec f (number se)) ns, "").
Proof.
  intros Hse Hr Hfrac. cbn [time.parseChunk].
  rewrite (proj2 (getnum_fixed_iff _ _ _) (ex_intro _ se (conj eq_refl (conj Hse eq_refl)))).
  pose proof (number_nonneg se (proj2 Hse)). cbn. decide_ranges. cbn.
  apply (fraction_complete (time.setSec f (number se)) frac Hfrac).
Qed.

(** What the chunks of the fallback layout read, and from which text. *)
Lemma naive_chunks_sound (s : string) (r : time.fields) :
  time.parseChunks time.dateTimeChunks time.fields0 s = Some r ->
  exists Y M D h mi se frac ns,
    s = Y +:+ "-" +:+ M +:+ "-" +:+ D +:+ "T" +:+ h +:+ ":" +:+ mi +:+ ":" +:+ se +:+ frac
    /\ digitsOf 4 Y /\ digitsOf 2 M /\ digitsOf 2 D
    /\ (digitsOf 1 h \/ digitsOf 2 h) /\ digitsOf 2 mi /\ digitsOf 2 se
    /\ fraction frac
    /\ 1 <= number M <= 12 /\ number h <= 23 /\ number mi <= 59 /\ number se <= 59
    /\ r = time.mkFields (number Y) (number M) (number D) (number h) (number mi)
             (number se) ns false (-1).
Proof.
  unfold time.dateTimeChunks. intros H.
  apply parseChunks_cons_iff in H as (f1 & v1 & (Y & -> & HY & ->)%year_iff & H).
  apply parseChunks_cons_iff in H as (f2 & v2 & [-> ->]%literal_iff & H).
  apply parseChunks_cons_iff in H as (f3 & v3 & (M & -> & HM & HMr & ->)%month_iff & H).
  apply parseChunks_cons_iff in H as (f4 & v4 & [-> ->]%literal_iff & H).
  apply parseChunks_cons_iff in H as (f5 & v5 & (D & -> & HD & ->)%day_iff & H).
  apply parseChunks_cons_iff in H as (f6 & v6 & [-> ->]%literal_iff & H).
  apply parseChunks_cons_iff in H as (f7 & v7 & Hhour & H).
  apply parseChunks_cons_iff in H as (f8 & v8 & Hcolon & H).
  assert (exists f1 v1, time.parseChunk time.stdHour (time.setDay (time.setMonth (time.setYear time.fields0 (number Y)) (number M)) (number D)) v6 = Some (f1, v1)
                        /\ time.parseChunk (time.literal ":") f1 v1 = Some (f8, v8))
    as (h & -> & Hh & Hhr & ->)%hour_colon_iff by eauto.
  clear Hhour Hcolon.
  apply parseChunks_cons_iff in H as (f9 & v9 & (mi & -> & Hmi & Hmir & ->)%minute_iff & H).
  apply parseChunks_cons_iff in H as (f10 & v10 & [-> ->]%literal_iff & H).
  apply parseChunks_cons_iff in H as (f11 & v11 & Hsec & H).
  apply parseChunks_nil_iff in H as [-> ->].
  apply second_fraction_sound in Hsec as (se & frac & ns & -> & Hse & Hser & Hfrac & ->).
  exists Y, M, D, h, mi, se, frac, ns. repeat split; try assumption; try lia;
    try apply HY; try apply HM; try apply HD; try apply Hmi; try apply Hse.
Qed.

Lemma naive_chunks_complete (Y M D h mi se frac : string) :
  digitsOf 4 Y -> digitsOf 2 M -> digitsOf 2 D ->
  digitsOf 1 h \/ digitsOf 2 h -> digitsOf 2 mi -> digitsOf 2 se ->
  fraction frac ->
  1 <= number M <= 12 -> number h <= 23 -> number mi <= 59 -> number se <= 59 ->
  exists ns,
    time.parseChunks time.dateTimeChunks time.fields0
      (Y +:+ "-" +:+ M +:+ "-" +:+ D +:+ "T" +:+ h +:+ ":" +:+ mi +:+ ":" +:+ se +:+ frac)
    = Some (time.mkFields (number Y) (number M) (number D) (number h) (number mi)
              (number se) ns false (-1)).
Proof.
  intros HY HM HD Hh Hmi Hse Hfrac HMr Hhr Hmir Hser. unfold time.dateTimeChunks.
  destruct (second_fraction_complete
              (time.setMin (time.setHour (time.setDay (time.setMonth (time.setYear time.fields0 (number Y))
                 (number M)) (number D)) (number h)) (number mi))
              se frac Hse Hser Hfrac) as [ns Hsec].
  destruct (proj2 (hour_colon_iff
              (time.setDay (time.setMonth (time.setYear time.fields0 (number Y)) (number M)) (number D))
              _ (h +:+ ":" +:+ mi +:+ ":" +:+ se +:+ frac) (mi +:+ ":" +:+ se +:+ frac))
              (ex_intro _ h (conj eq_refl (conj Hh (conj Hhr eq_refl)))))
    as (fh & vh & Hhour & Hcolon).
  exists ns.
  rewrite (parseChunks_step _ _ _ _ _ _
             (proj2 (year_iff _ _ _ _) (ex_intro _ Y (conj eq_refl (conj HY eq_refl))))).
  rewrite (parseChunks_step _ _ _ _ _ _ (parse_literal_app _ _ _)).
  rewrite (parseChunks_step _ _ _ _ _ _
             (proj2 (month_iff _ _ _ _)
                (ex_intro _ M (conj eq_refl (conj HM (conj HMr eq_refl)))))).
  rewrite (parseChunks_step _ _ _ _ _ _ (parse_literal_app _ _ _)).
  rewrite (parseChunks_step _ _ _ _ _ _
             (proj2 (day_iff _ _ _ _) (ex_intro _ D (conj eq_refl (conj HD eq_refl))))).
  rewrite (parseChunks_step _ _ _ _ _ _ (parse_literal_app _ _ _)).
  rewrite (parseChunks_step _ _ _ _ _ _ Hhour).
  rewrite (parseChunks_step _ _ _ _ _ _ Hcolon).
  rewrite (parseChunks_step _ _ _ _ _ _
             (proj2 (minute_iff _ _ _ _)
                (ex_intro _ mi (conj eq_refl (conj Hmi (conj Hmir eq_refl)))))).
  rewrite (parseChunks_step _ _ _ _ _ _ (parse_literal_app _ _ _)).
  rewrite (parseChunks_step _ _ _ _ _ _ Hsec).
  reflexivity.
Qed.

Lemma naive_fieldsTime (y m d h mi se ns : Z) :
  1 <= m -> 0 <= d ->
  time.fieldsTime (time.mkFields y m d h mi se ns false (-1))
  = if (d <? 1) || (time.daysIn m y <? d) then None
    else Some (time.Date y m d h mi se ns).
Proof.
  intros Hm Hd. unfold time.fieldsTime.
  cbn [time.f_year time.f_month time.f_day time.f_hour time.f_min time.f_sec
       time.f_nsec time.f_z time.f_zoneOffset].
  destruct (Z.ltb_spec m 0); [lia|]. destruct (Z.ltb_spec d 0); [lia|].
  destruct (_ || _); reflexivity.
Qed.

(** The texts the fallback layout accepts. *)
Lemma naive_accepts_iff (v : string) :
  (exists parsed, time.Parse time.naiveLayout v = Ok parsed) <-> naiveText v.
Proof.
  unfold time.Parse, time.naiveLayout. cbn [time.chunks time.text]. split.
  - intros [parsed Hp].
    destruct (time.parseChunks time.dateTimeChunks time.fields0 v) as [r|] eqn:Hr;
      [|discriminate].
    apply naive_chunks_sound in Hr
      as (Y & M & D & h & mi & se & frac & ns & -> & HY & HM & HD & Hh & Hmi & Hse
          & Hfrac & HMr & Hhr & Hmir & Hser & ->).
    cbn [mbind option_bind] in Hp.
    rewrite naive_fieldsTime in Hp by (try lia; apply number_nonneg, HD).
    destruct (Z.ltb_spec (number D) 1); [discriminate|].
    destruct (Z.ltb_spec (time.daysIn (number M) (number Y)) (number D)); [discriminate|].
    exists Y, M, D, h, mi, se, frac. repeat split; try assumption; try lia;
      try apply HY; try apply HM; try apply HD; try apply Hmi; try apply Hse.
  - intros (Y & M & D & h & mi & se & frac & -> & HY & HM & HD & Hh & Hmi & Hse
            & Hfrac & HMr & HDr & Hhr & Hmir & Hser).
    destruct (naive_chunks_complete Y M D h mi se frac) as [ns ->]; try assumption.
    cbn [mbind option_bind].
    rewrite naive_fieldsTime by lia. decide_ranges. cbn. eexists. reflexivity.
Qed.

(** C8 (amended).  The quotes around the input are trimmed first.  A text
    that is then [null] or empty is not parsed at all: the receiver is left
    as it is and no error is returned, although neither layout accepts such
    a text.  Every other text is tried against the RFC 3339 layout first and
    against the fallback layout only when that fails.  The fallback layout
    accepts exactly the texts of the form year-month-dayThour:minute:second
    with a four-digit year, a two-digit month, day, minute and second, an
    hour of one or two digits, all within their calendar ranges, and
    optionally a fraction of a second (a period or comma and digits), with
    no offset.  When both layouts refuse a text that is neither [null] nor
    empty, the receiver is left as it is and the error is the fallback's
    ParseError, whose value is the trimmed text. *)
Theorem fallback_parsing (t : qi.Time) (data : string) :
  let s := strings.Trim data quote_str in
  qi.UnmarshalJSON t data
  = (if decide (s = "null" \/ s = "") then (t, None)
     else
       match time.Parse time.RFC3339 s with
       | Ok parsed => (qi.NewTime parsed, None)
       | Fail _ =>
           match time.Parse time.naiveLayout s with
           | Ok parsed => (qi.NewTime parsed, None)
           | Fail err => (t, Some err)
           end
       end)
  /\ (forall v : string,
        (exists parsed, time.Parse time.naiveLayout v = Ok parsed) <-> naiveText v)
  /\ ((forall parsed, time.Parse time.RFC3339 s <> Ok parsed) ->
      (forall parsed, time.Parse time.naiveLayout s <> Ok parsed) ->
      qi.UnmarshalJSON t data
      = (if decide (s = "null" \/ s = "") then (t, None)
         else (t, Some (time.mkParseError "2006-01-02T15:04:05" s))))
  /\ (forall (l : time.layout) (v : string),
        l = time.RFC3339 \/ l = time.naiveLayout -> v = "null" \/ v = "" ->
        time.Parse l v = Fail (time.mkParseError (time.text l) v)).
Proof.
  intros s.
  assert (Horder :
    qi.UnmarshalJSON t data
    = (if decide (s = "null" \/ s = "") then (t, None)
       else
         match time.Parse time.RFC3339 s with
         | Ok parsed => (qi.NewTime parsed, None)
         | Fail _ =>
             match time.Parse time.naiveLayout s with
             | Ok parsed => (qi.NewTime parsed, None)
             | Fail err => (t, Some err)
             end
         end)).
  { unfold qi.UnmarshalJSON. fold s.
    destruct (decide (s = "null" \/ s = "")) as [[->| ->]|Hne]; [reflexivity..|].
    destruct (String.eqb_spec s "null"); [tauto|].
    destruct (String.eqb_spec s ""); [tauto|]. cbn [orb].
    destruct (time.Parse time.RFC3339 s); [reflexivity|].
    destruct (time.Parse time.naiveLayout s); reflexivity. }
  split; [exact Horder|]. split; [exact naive_accepts_iff|]. split.
  - intros Hprimary Hfallback. rewrite Horder.
    destruct (decide (s = "null" \/ s = "")); [reflexivity|].
    destruct (time.Parse time.RFC3339 s) as [p|e]; [destruct (Hprimary p eq_refl)|].
    unfold time.Parse in *. cbn [time.text time.naiveLayout] in *.
    destruct (_ ≫= _) as [p|]; [destruct (Hfallback p eq_refl)|reflexivity].
  - intros l v [->| ->] [->| ->]; reflexivity.
Qed.

(** A text that neither layout accepts, and the text [null]. *)
Lemma fallback_parsing_witness :
  qi.UnmarshalJSON qi.zeroTime (spec.quoted "20/01/2026")
  = (qi.zeroTime, Some (time.mkParseError "2006-01-02T15:04:05" "20/01/2026"))
  /\ qi.UnmarshalJSON qi.zeroTime (spec.quoted "null") = (qi.zeroTime, None).
Proof.
  split.
  - refine (proj1 (proj2 (proj2 (fallback_parsing qi.zeroTime (spec.quoted "20/01/2026"))))
              _ _).
    + intros parsed. vm_compute. discriminate.
    + intros parsed. vm_compute. discriminate.
  - exact (proj1 (fallback_parsing qi.zeroTime (spec.quoted "null"))).
Defined.

(** C8, as stated, fails on a text with a fraction of a second: the RFC 3339
    layout refuses it for want of a zone, and the fallback layout accepts it
    and keeps the fraction. *)
Lemma fallback_accepts_fraction :
  time.Parse time.RFC3339 "2026-01-20T11:57:31.5"
  = Fail (time.mkParseError "2006-01-02T15:04:05Z07:00" "2026-01-20T11:57:31.5")
  /\ time.Parse time.naiveLayout "2026-01-20T11:57:31.5"
     = Ok (time.mkTime 63904507051 500000000 0)
  /\ qi.UnmarshalJSON qi.zeroTime (spec.quoted "2026-01-20T11:57:31.5")
     = (qi.NewTime (time.mkTime 63904507051 500000000 0), None).
Proof. repeat split; vm_compute; reflexivity. Qed.

(** * Further properties *)

(** ** The error model: classes and texts *)

(** X1.  No error is put into two classes: of the three predicates at most
    one holds, with or without an envelope. *)
Theorem classification_is_exclusive (e : qi.APIError) :
  qi.IsNotFound e && qi.IsValidationError e = false
  /\ qi.IsNotFound e && qi.IsAuthenticationError e = false
  /\ qi.IsValidationError e && qi.IsAuthenticationError e = false.
Proof.
  destruct e as [status msg [[[code m]]|]];
    unfold qi.IsNotFound, qi.IsValidationError, qi.IsAuthenticationError;
    cbn [qi.Err qi.Error_ qi.Code qi.StatusCode];
    unfold qi.ErrorCodePaymentNotFound, qi.ErrorCodeOrderNotFound,
      qi.ErrorCodeTransferNotFound, qi.ErrorCodeTokenNotFound,
      qi.ErrorCodeValidationError, qi.ErrorCodeBadCredentials;
    repeat split;
    repeat match goal with
           | |- context [?x =? ?k] => destruct (Z.eqb_spec x k); try lia
           end; reflexivity.
Qed.

Lemma append_assoc (a b c : string) : (a +:+ b) +:+ c = a +:+ (b +:+ c).
Proof.
  induction a as [|ch a IH]; [reflexivity|].
  rewrite !append_cons, IH. reflexivity.
Qed.

(** X2.  The text of an error does not tell the two cases apart: an error
    with an envelope reads like the error without one whose raw message is
    the envelope's line. *)
Theorem error_text_of_envelope_is_a_raw_text (status : Z) (msg : string) (env : qi.Error) :
  qi.APIError_Error (qi.mkAPIError status msg (Some env))
  = qi.APIError_Error
      (qi.mkAPIError status
         ("code=" +:+ fmt.formatInt (qi.Code (qi.Error_ env)) +:+ ", message="
          +:+ qi.Message (qi.Error_ env)) None).
Proof.
  unfold qi.APIError_Error. cbn [qi.Err qi.StatusCode qi.APIError_Message].
  reflexivity.
Qed.

(** *** The decimal digits of a number *)

Lemma utoa_number (fuel : nat) : forall (u a : Z) (acc : string),
  0 <= u < 10 ^ Z.of_nat fuel ->
  exists k, 0 <= k /\ numberFrom a (time.utoa fuel u acc) = numberFrom (a * 10 ^ k + u) acc.
Proof.
  induction fuel as [|fuel IH]; intros u a acc Hu.
  - exists 0. cbn [time.utoa]. split; [lia|]. f_equal. cbn in Hu. lia.
  - cbn [time.utoa].
    assert (0 <= u mod 10 < 10) as Hd by (apply Z.mod_pos_bound; lia).
    destruct (Z.eqb_spec (u / 10) 0) as [Hq|Hq].
    + exists 1. split; [lia|]. cbn [numberFrom].
      rewrite (proj2 (digit_byte_facts _ Hd)). f_equal.
      Z.to_euclidean_division_equations; lia.
    + destruct (IH (u / 10) a (String (digit_byte (u mod 10)) acc)) as (k & Hk & ->).
      { rewrite Nat2Z.inj_succ, Z.pow_succ_r in Hu by lia.
        Z.to_euclidean_division_equations; lia. }
      exists (k + 1). split; [lia|]. cbn [numberFrom].
      rewrite (proj2 (digit_byte_facts _ Hd)). f_equal.
      rewrite Z.pow_add_r by lia. Z.to_euclidean_division_equations; lia.
Qed.

Lemma utoa_plain (fuel : nat) : forall (u : Z) (acc : string),
  allPlain acc = true -> allPlain (time.utoa fuel u acc) = true.
Proof.
  induction fuel as [|fuel IH]; intros u acc Hacc; [exact Hacc|].
  cbn [time.utoa].
  assert (allPlain (String (digit_byte (u mod 10)) acc) = true) as Hacc'.
  { cbn [allPlain]. rewrite plainb_digit by (apply Z.mod_pos_bound; lia). exact Hacc. }
  destruct (u / 10 =? 0); [exact Hacc'|]. apply IH, Hacc'.
Qed.

Lemma utoa_head (fuel : nat) : forall (u : Z) (acc : string),
  exists c rest, time.utoa (S fuel) u acc = String c rest /\ isDigitByte c = true.
Proof.
  induction fuel as [|fuel IH]; intros u acc.
  - cbn [time.utoa]. exists (digit_byte (u mod 10)), acc.
    split; [destruct (u / 10 =? 0); reflexivity|].
    apply digit_byte_facts, Z.mod_pos_bound. lia.
  - change (time.utoa (S (S fuel)) u acc)
      with (if u / 10 =? 0 then String (digit_byte (u mod 10)) acc
            else time.utoa (S fuel) (u / 10) (String (digit_byte (u mod 10)) acc)).
    destruct (u / 10 =? 0); [|apply IH].
    exists (digit_byte (u mod 10)), acc. split; [reflexivity|].
    apply digit_byte_facts, Z.mod_pos_bound. lia.
Qed.

Lemma formatInt_plain (x : Z) : allPlain (fmt.formatInt x) = true.
Proof.
  unfold fmt.formatInt.
  destruct (x <? 0); norm_app; cbn [allPlain]; rewrite ?utoa_plain; reflexivity.
Qed.

Lemma formatInt_inj (x y : Z) :
  - 10 ^ 20 < x < 10 ^ 20 -> - 10 ^ 20 < y < 10 ^ 20 ->
  fmt.formatInt x = fmt.formatInt y -> x = y.
Proof.
  intros Hx Hy. unfold fmt.formatInt.
  assert (forall u, 0 <= u < 10 ^ 20 -> number (time.utoa 20 u "") = u) as Hnum.
  { intros u Hu. destruct (utoa_number 20 u 0 "" Hu) as (k & _ & Hk).
    unfold number. rewrite Hk. reflexivity. }
  assert (forall u rest, time.utoa 20 u "" <> String "-" rest) as Hminus.
  { intros u rest Heq. destruct (utoa_head 19 u "") as (c & r & Hc & Hd).
    rewrite Hc in Heq. injection Heq as -> _. discriminate. }
  pose proof (Hnum (Z.abs x)) as Nx. pose proof (Hnum (Z.abs y)) as Ny.
  pose proof (Hminus (Z.abs x)) as Mx. pose proof (Hminus (Z.abs y)) as My.
  destruct (Z.ltb_spec x 0), (Z.ltb_spec y 0); norm_app;
    generalize dependent (time.utoa 20 (Z.abs x) "");
    generalize dependent (time.utoa 20 (Z.abs y) "");
    intros dy Ny My dx Nx Mx Heq.
  - injection Heq as ->. rewrite Ny in Nx by lia. lia.
  - symmetry in Heq. destruct (My _ Heq).
  - destruct (Mx _ Heq).
  - subst dy. rewrite Ny in Nx by lia. lia.
Qed.

(** Texts of digits and signs that are followed by the same other byte. *)
Lemma plain_prefix_unique (c : ascii) (a b r r' : string) :
  plainb c = false -> allPlain a = true -> allPlain b = true ->
  a +:+ String c r = b +:+ String c r' -> a = b.
Proof.
  intros Hc. revert b. induction a as [|x a IH]; intros [|y b]; norm_app;
    cbn [allPlain]; intros Ha Hb Heq.
  - reflexivity.
  - injection Heq as -> _. rewrite Hc in Hb. discriminate.
  - injection Heq as -> _. rewrite Hc in Ha. discriminate.
  - injection Heq as -> Heq. apply andb_true_iff in Ha as [_ Ha], Hb as [_ Hb].
    f_equal. apply IH; assumption.
Qed.

Lemma append_inj_l (a x y : string) : a +:+ x = a +:+ y -> x = y.
Proof.
  induction a as [|c a IH]; norm_app; [tauto|]. intros [= Heq]. exact (IH Heq).
Qed.

(** The text of an error, up to the status. *)
Lemma APIError_Error_status (e : qi.APIError) :
  exists rest,
    qi.APIError_Error e
    = "API error (status " +:+ fmt.formatInt (qi.StatusCode e) +:+ String ")" rest.
Proof.
  unfold qi.APIError_Error. destruct (qi.Err e) as [env|]; eexists; reflexivity.
Qed.

(** X3.  The status can be read back from the text of an error: two errors
    with the same text have the same status. *)
Theorem error_text_tells_the_status (e1 e2 : qi.APIError) :
  - 2 ^ 63 <= qi.StatusCode e1 < 2 ^ 63 ->
  - 2 ^ 63 <= qi.StatusCode e2 < 2 ^ 63 ->
  qi.APIError_Error e1 = qi.APIError_Error e2 ->
  qi.StatusCode e1 = qi.StatusCode e2.
Proof.
  intros H1 H2 Heq.
  destruct (APIError_Error_status e1) as [r1 E1], (APIError_Error_status e2) as [r2 E2].
  rewrite E1, E2 in Heq. apply append_inj_l in Heq.
  apply formatInt_inj; [lia|lia|].
  apply (plain_prefix_unique ")" _ _ r1 r2); [reflexivity| | |exact Heq];
    apply formatInt_plain.
Qed.

Lemma error_text_witness :
  qi.StatusCode (qi.mkAPIError 404 ""
                   (Some (qi.mkError (qi.mkErrorDetails 12 "PAYMENT_NOT_FOUND"))))
  = qi.StatusCode (qi.mkAPIError 404 "code=12, message=PAYMENT_NOT_FOUND" None).
Proof.
  apply error_text_tells_the_status; [cbn; lia | cbn; lia | reflexivity].
Defined.

(** ** The client and its options *)

Lemma NewClient_snoc dflt terminalID (opts : list qi.ClientOption) (opt : qi.ClientOption) :
  qi.NewClient dflt terminalID (opts ++ [opt]) = opt (qi.NewClient dflt terminalID opts).
Proof. unfold qi.NewClient. rewrite fold_left_app. reflexivity. Qed.

Lemma lastOf_snoc {A : Type} (pick : setting -> option A) ss s d :
  lastOf pick (ss ++ [s]) d
  = match pick s with Some a => a | None => lastOf pick ss d end.
Proof.
  unfold lastOf. rewrite omap_app.
  change (omap pick [s]) with (match pick s with Some y => [y] | None => [] end).
  destruct (pick s) as [a|].
  - apply last_last.
  - rewrite app_nil_r. reflexivity.
Qed.

(** X4.  A client is the defaults overridden by the options in order: each
    field holds what the last option of its kind set, the default when there
    is none, and the terminal id is the one given, whatever the options. *)
Theorem NewClient_last_setting_wins (dflt : qi.HTTPClient) (terminalID : string)
    (ss : list setting) :
  qi.NewClient dflt terminalID (map optionOf ss)
  = qi.mkClient (lastOf pickBaseURL ss qi.DefaultBaseURL) terminalID
      (fst (lastOf pickBasicAuth ss ("", ""))) (snd (lastOf pickBasicAuth ss ("", "")))
      (lastOf pickSignature ss "") (lastOf pickHTTPClient ss dflt).
Proof.
  induction ss as [|s ss IH] using rev_ind; [reflexivity|].
  rewrite map_app. cbn [map]. rewrite NewClient_snoc, IH, !lastOf_snoc.
  destruct s; reflexivity.
Qed.

(** ** The ways of a call *)

Section PipelineOutcomes.

Variable url_Parse_ok : string -> bool.
Context {B R : Type} `{qi.Marshal B} `{qi.Unmarshal R}.

(** A request fails to be built on an encoding or a creation fault only. *)
Lemma buildRequest_fault c method path (body : option B) err :
  qi.buildRequest url_Parse_ok c method path body = Fail err ->
  (exists e, err = qi.failedToMarshal e) \/ (exists e, err = qi.failedToCreate e).
Proof.
  unfold qi.buildRequest. intros Hb.
  destruct body as [b|]; [destruct (qi.marshal b) as [j|e]|];
    try (destruct (http.NewRequestWithContext _ _ _ _) as [req|e'];
         [discriminate | injection Hb as <-; right; eauto]).
  injection Hb as <-. left. eauto.
Qed.

(** The error of a call whose request was built. *)
Lemma doRequest_built_failure c method path (body : option B) (result : option R) req :
  qi.buildRequest url_Parse_ok c method path body = Ok req ->
  match qi.failure (qi.doRequest url_Parse_ok c method path body result) with
  | Some (qi.failedToMarshal _) | Some (qi.failedToCreate _) => False
  | _ => True
  end.
Proof.
  intros Hb. unfold qi.doRequest. rewrite Hb.
  destruct (qi.httpClient c req) as [resp|]; [|exact I].
  destruct (http.ReadAll resp); [|exact I].
  destruct (400 <=? _); [destruct (qi.Unmarshal_Error _ _); exact I|].
  destruct result as [r|]; [|exact I].
  destruct (_ <? _)%nat; [|exact I].
  destruct (qi.unmarshal _ _) as [r' [e|]]; exact I.
Qed.

(** X5.  A call hands nothing to the HTTP client exactly when it fails on
    encoding the body or on creating the request; the result is then as it
    was. *)
Theorem nothing_is_sent_on_local_faults c method path (body : option B)
    (result : option R) :
  let call := qi.doRequest url_Parse_ok c method path body result in
  (qi.sent call = [] <->
     (exists e, qi.failure call = Some (qi.failedToMarshal e))
     \/ (exists e, qi.failure call = Some (qi.failedToCreate e)))
  /\ (qi.sent call = [] -> qi.value call = result).
Proof.
  intros call. subst call.
  pose proof (doRequest_sent url_Parse_ok c method path body result) as Hsent.
  pose proof (doRequest_built_failure c method path body result) as Hbuilt.
  destruct (qi.buildRequest url_Parse_ok c method path body) as [req|err] eqn:Hb.
  - specialize (Hbuilt req eq_refl). rewrite Hsent. split; [split|]; try discriminate.
    intros [[e He]|[e He]]; rewrite He in Hbuilt; destruct Hbuilt.
  - clear Hbuilt. unfold qi.doRequest in *. rewrite Hb in *. cbn [qi.sent qi.failure qi.value].
    split; [split; [intros _|reflexivity]|reflexivity].
    destruct (buildRequest_fault _ _ _ _ _ Hb) as [[e ->]|[e ->]]; eauto.
Qed.

(** X6.  A call fails with an [APIError] exactly when its request was
    answered with a status of 400 or more and the body was read; every
    other fault, and every answer below 400, gives something else. *)
Theorem api_error_iff_error_status c method path (body : option B)
    (result : option R) (e : qi.APIError) :
  qi.failure (qi.doRequest url_Parse_ok c method path body result)
  = Some (qi.apiError e)
  <-> exists req resp respBody,
        qi.buildRequest url_Parse_ok c method path body = Ok req
        /\ qi.httpClient c req = Ok resp
        /\ http.ReadAll resp = Ok respBody
        /\ 400 <= http.StatusCode resp
        /\ e = match qi.Unmarshal_Error respBody qi.zeroError with
               | Ok env => qi.mkAPIError (http.StatusCode resp) "" (Some env)
               | Fail _ => qi.mkAPIError (http.StatusCode resp) respBody None
               end.
Proof.
  split.
  - unfold qi.doRequest.
    destruct (qi.buildRequest _ _ _ _ _) as [req|err0] eqn:Hb.
    2:{ cbn. intros [= ->].
        destruct (buildRequest_fault _ _ _ _ _ Hb) as [[x Hx]|[x Hx]]; discriminate. }
    destruct (qi.httpClient c req) as [resp|] eqn:Hdo; [|discriminate].
    destruct (http.ReadAll resp) as [respBody|] eqn:Hread; [|discriminate].
    destruct (Z.leb_spec 400 (http.StatusCode resp)) as [Hst|Hst].
    + intros Hf. exists req, resp, respBody. repeat split; try assumption.
      destruct (qi.Unmarshal_Error respBody qi.zeroError); cbn in Hf; congruence.
    + destruct result as [r|]; [|discriminate].
      destruct (_ <? _)%nat; [|discriminate].
      destruct (qi.unmarshal _ _) as [r' [x|]]; discriminate.
  - intros (req & resp & respBody & Hb & Hdo & Hread & Hst & ->).
    apply (doRequest_error_status url_Parse_ok c method path body result req resp
             respBody Hb Hdo Hread Hst).
Qed.

(** X7.  A call returns no error exactly when its request was answered with
    a status below 400, the body was read, and the body was not to be
    decoded (no result pointer, or an empty body) or decoded without
    error. *)
Theorem success_iff_decoded_answer c method path (body : option B)
    (result : option R) :
  qi.failure (qi.doRequest url_Parse_ok c method path body result) = None
  <-> exists req resp respBody,
        qi.buildRequest url_Parse_ok c method path body = Ok req
        /\ qi.httpClient c req = Ok resp
        /\ http.ReadAll resp = Ok respBody
        /\ http.StatusCode resp < 400
        /\ match result with
           | Some r => respBody = "" \/ snd (qi.unmarshal respBody r) = None
           | None => True
           end.
Proof.
  unfold qi.doRequest. split.
  - destruct (qi.buildRequest _ _ _ _ _) as [req|err0] eqn:Hb; [|discriminate].
    destruct (qi.httpClient c req) as [resp|] eqn:Hdo; [|discriminate].
    destruct (http.ReadAll resp) as [respBody|] eqn:Hread; [|discriminate].
    destruct (Z.leb_spec 400 (http.StatusCode resp)) as [Hst|Hst];
      [destruct (qi.Unmarshal_Error _ _); discriminate|].
    intros Hf. exists req, resp, respBody. repeat split; try assumption.
    destruct result as [r|]; [|exact I].
    destruct respBody as [|ch tl]; [left; reflexivity|right].
    cbn in Hf. destruct (qi.unmarshal _ r) as [r' [x|]]; [discriminate|reflexivity].
  - intros (req & resp & respBody & -> & -> & -> & Hst & Hres).
    apply Z.leb_gt in Hst. rewrite Hst.
    destruct result as [r|]; [|reflexivity].
    destruct respBody as [|ch tl]; [reflexivity|].
    destruct Hres as [Hres|Hres]; [discriminate|]. cbn.
    destruct (qi.unmarshal _ r) as [r' [x|]]; [discriminate|reflexivity].
Qed.

(** X8.  The value behind the result pointer changes only by decoding the
    non-empty body of an answer below 400: on every error other than a
    decoding one it is as it was, and a nil pointer stays nil. *)
Theorem result_is_kept_on_failure c method path (body : option B)
    (result : option R) :
  let call := qi.doRequest url_Parse_ok c method path body result in
  match qi.failure call with
  | Some (qi.failedToUnmarshal _) | None => True
  | Some _ => qi.value call = result
  end
  /\ (qi.value call = None <-> result = None).
Proof.
  intros call. subst call. unfold qi.doRequest.
  destruct (qi.buildRequest _ _ _ _ _) as [req|err0] eqn:Hb.
  2:{ cbn. split; [destruct err0; auto|reflexivity]. }
  destruct (qi.httpClient c req) as [resp|]; [|cbn; split; reflexivity].
  destruct (http.ReadAll resp) as [respBody|]; [|cbn; split; reflexivity].
  destruct (400 <=? http.StatusCode resp);
    [destruct (qi.Unmarshal_Error _ _); cbn; split; reflexivity|].
  destruct result as [r|]; [|cbn; split; reflexivity].
  destruct (_ <? _)%nat; [|cbn; split; [exact I|reflexivity]].
  destruct (qi.unmarshal _ _) as [r' [x|]]; cbn; (split; [exact I|split; discriminate]).
Qed.

End PipelineOutcomes.

(** ** The operations *)

(** A call with a result pointer ends with a value behind it. *)
Lemma doRequest_value_some (url_Parse_ok : string -> bool) {B R : Type}
    `{qi.Marshal B} `{qi.Unmarshal R} c method path (body : option B) (r : R) :
  exists r', qi.value (qi.doRequest url_Parse_ok c method path body (Some r)) = Some r'.
Proof.
  unfold qi.doRequest.
  destruct (qi.buildRequest _ _ _ _ _) as [req|]; [|eauto].
  destruct (qi.httpClient c req) as [resp|]; [|eauto].
  destruct (http.ReadAll resp); [|eauto].
  destruct (400 <=? _); [destruct (qi.Unmarshal_Error _ _); eauto|].
  destruct (_ <? _)%nat; [|eauto].
  destruct (qi.unmarshal _ _) as [r' [e|]]; eauto.
Qed.

Lemma returned_valueOrError (url_Parse_ok : string -> bool) {B R : Type}
    `{qi.Marshal B} `{qi.Unmarshal R} c method path (body : option B) (r : R) :
  valueOrError (qi.returned (qi.doRequest url_Parse_ok c method path body (Some r))).
Proof.
  unfold valueOrError, qi.returned.
  destruct (doRequest_value_some url_Parse_ok c method path body r) as [r' Hv].
  destruct (qi.failure _) as [e|]; cbn; [right; eauto|left; eauto].
Qed.

Lemma setHeaders_body c req : http.Body (qi.setHeaders c req) = http.Body req.
Proof. apply setHeaders_line. Qed.

(** The body of the request of a call. *)
Lemma doRequest_carries (url_Parse_ok : string -> bool) {B R : Type}
    `{qi.Marshal B} `{qi.Unmarshal R} c method path (body : option B)
    (result : option R) :
  match body with
  | Some b =>
      forall j, qi.marshal b = Ok j ->
                carries (qi.returned (qi.doRequest url_Parse_ok c method path body result))
                  (Some j)
  | None => carries (qi.returned (qi.doRequest url_Parse_ok c method path body result)) None
  end.
Proof.
  unfold carries. rewrite returned_sent.
  destruct body as [b|]; [intros j Hj|]; intros r Hin;
    apply doRequest_sent_inv, buildRequest_inv in Hin as (m & rb & -> & _ & _ & Hbody);
    rewrite setHeaders_body; cbn [http.Body].
  - destruct Hbody as (j' & Hj' & ->). congruence.
  - exact Hbody.
Qed.

Section Operations.

Variable url_Parse_ok : string -> bool.
Context {CreatePaymentRequest CancelPaymentRequest CreateRefundRequest : Type}.
Context {Payment PaymentStatusResponse PaymentCancelResponse Refund : Type}.
Context `{qi.Marshal CreatePaymentRequest} `{qi.Marshal CancelPaymentRequest}
        `{qi.Marshal CreateRefundRequest}.
Context `{qi.Unmarshal Payment} `{qi.Zero Payment}
        `{qi.Unmarshal PaymentStatusResponse} `{qi.Zero PaymentStatusResponse}
        `{qi.Unmarshal PaymentCancelResponse} `{qi.Zero PaymentCancelResponse}
        `{qi.Unmarshal Refund} `{qi.Zero Refund}.

(** X9.  Each of the seven operations returns either a value and no error
    or no value and an error, never both and never neither; a result that a
    failed decoding left half-filled is not returned. *)
Theorem operations_return_value_or_error (c : qi.Client)
    (paymentID requestID : string) (create : option CreatePaymentRequest)
    (cancel : option CancelPaymentRequest) (refund : option CreateRefundRequest) :
  valueOrError (qi.CreatePayment (Payment := Payment) url_Parse_ok c create)
  /\ valueOrError (qi.GetPaymentStatus (PaymentStatusResponse := PaymentStatusResponse)
                     url_Parse_ok c paymentID)
  /\ valueOrError (qi.GetPaymentStatusByRequest
                     (PaymentStatusResponse := PaymentStatusResponse)
                     url_Parse_ok c requestID)
  /\ valueOrError (qi.CancelPayment (PaymentCancelResponse := PaymentCancelResponse)
                     url_Parse_ok c paymentID cancel)
  /\ valueOrError (qi.CancelPaymentByRequest
                     (PaymentCancelResponse := PaymentCancelResponse)
                     url_Parse_ok c requestID cancel)
  /\ valueOrError (qi.RefundPayment (Refund := Refund) url_Parse_ok c paymentID refund)
  /\ valueOrError (qi.RefundPaymentByRequest (Refund := Refund)
                     url_Parse_ok c requestID refund).
Proof.
  unfold qi.CreatePayment, qi.GetPaymentStatus, qi.GetPaymentStatusByRequest,
    qi.CancelPayment, qi.CancelPaymentByRequest, qi.RefundPayment,
    qi.RefundPaymentByRequest.
  refine (conj _ (conj _ (conj _ (conj _ (conj _ (conj _ _))))));
    apply returned_valueOrError.
Qed.

(** X10.  The two status operations send no body; the five others send the
    encoding of the request record, and the text [null] for a nil one. *)
Theorem operations_send_the_encoded_record (c : qi.Client)
    (paymentID requestID : string) (create : option CreatePaymentRequest)
    (cancel : option CancelPaymentRequest) (refund : option CreateRefundRequest) :
  carries (qi.GetPaymentStatus (PaymentStatusResponse := PaymentStatusResponse)
             url_Parse_ok c paymentID) None
  /\ carries (qi.GetPaymentStatusByRequest
                (PaymentStatusResponse := PaymentStatusResponse)
                url_Parse_ok c requestID) None
  /\ (forall j, qi.marshal create = Ok j ->
        carries (qi.CreatePayment (Payment := Payment) url_Parse_ok c create) (Some j))
  /\ (forall j, qi.marshal cancel = Ok j ->
        carries (qi.CancelPayment (PaymentCancelResponse := PaymentCancelResponse)
                   url_Parse_ok c paymentID cancel) (Some j)
        /\ carries (qi.CancelPaymentByRequest
                      (PaymentCancelResponse := PaymentCancelResponse)
                      url_Parse_ok c requestID cancel) (Some j))
  /\ (forall j, qi.marshal refund = Ok j ->
        carries (qi.RefundPayment (Refund := Refund) url_Parse_ok c paymentID refund)
          (Some j)
        /\ carries (qi.RefundPaymentByRequest (Refund := Refund)
                      url_Parse_ok c requestID refund) (Some j))
  /\ carries (qi.CreatePayment (CreatePaymentRequest := CreatePaymentRequest)
                (Payment := Payment) url_Parse_ok c None) (Some "null").
Proof.
  unfold qi.CreatePayment, qi.GetPaymentStatus, qi.GetPaymentStatusByRequest,
    qi.CancelPayment, qi.CancelPaymentByRequest, qi.RefundPayment,
    qi.RefundPaymentByRequest.
  refine (conj _ (conj _ (conj _ (conj _ (conj _ _))))).
  - exact (doRequest_carries url_Parse_ok c _ _ qi.noBody _).
  - exact (doRequest_carries url_Parse_ok c _ _ qi.noBody _).
  - intros j Hj. exact (doRequest_carries url_Parse_ok c _ _ (Some create) _ _ Hj).
  - intros j Hj.
    split; exact (doRequest_carries url_Parse_ok c _ _ (Some cancel) _ _ Hj).
  - intros j Hj.
    split; exact (doRequest_carries url_Parse_ok c _ _ (Some refund) _ _ Hj).
  - exact (doRequest_carries url_Parse_ok c _ _
             (Some (None : option CreatePaymentRequest)) _ _ eq_refl).
Qed.

(** X11.  Identifiers go into the path unescaped, so the routes by payment
    id and by request id overlap: an operation by payment id whose id
    starts with the words of the by-request route is, call for call, the
    by-request operation. *)
Theorem routes_overlap (c : qi.Client) (x : string)
    (cancel : option CancelPaymentRequest) (refund : option CreateRefundRequest) :
  qi.GetPaymentStatus (PaymentStatusResponse := PaymentStatusResponse)
    url_Parse_ok c ("status/by/request/" +:+ x)
  = qi.GetPaymentStatusByRequest url_Parse_ok c (x +:+ "/status")
  /\ qi.CancelPayment (PaymentCancelResponse := PaymentCancelResponse)
       url_Parse_ok c ("cancel/by/request/" +:+ x) cancel
     = qi.CancelPaymentByRequest url_Parse_ok c (x +:+ "/cancel") cancel
  /\ qi.RefundPayment (Refund := Refund) url_Parse_ok c ("refund/by/request/" +:+ x) refund
     = qi.RefundPaymentByRequest url_Parse_ok c (x +:+ "/refund") refund.
Proof.
  unfold qi.GetPaymentStatus, qi.GetPaymentStatusByRequest,
    qi.CancelPayment, qi.CancelPaymentByRequest, qi.RefundPayment,
    qi.RefundPaymentByRequest.
  rewrite !append_assoc. repeat split; reflexivity.
Qed.

End Operations.

(** ** The headers of a request *)

(** Five keys set in a row, the last two on condition: what is found under
    the first two, and that nothing is found under any other key. *)
Lemma five_headers_all (kct kac kti kau ksi : string) (vct vac vti vau vsi : list string)
    (auth sig : bool) :
  kct <> kac -> kct <> kti -> kac <> kti -> kct <> kau -> kac <> kau ->
  kct <> ksi -> kac <> ksi ->
  let h3 : gmap string (list string) := <[kti := vti]> (<[kac := vac]> (<[kct := vct]> ∅)) in
  let h4 := if auth then <[kau := vau]> h3 else h3 in
  let h5 := if sig then <[ksi := vsi]> h4 else h4 in
  h5 !! kct = Some vct
  /\ h5 !! kac = Some vac
  /\ forall k, is_Some (h5 !! k) -> In k [kct; kac; kti; kau; ksi].
Proof.
  cbv zeta. intros. destruct auth, sig; (split; [|split]); try by simplify_map_eq.
  all: intros k [v Hk]; cbn [In];
    destruct (decide (k = kct)) as [->|]; [auto 10|];
    destruct (decide (k = kac)) as [->|]; [auto 10|];
    destruct (decide (k = kti)) as [->|]; [auto 10|];
    destruct (decide (k = kau)) as [->|]; [auto 10|];
    destruct (decide (k = ksi)) as [->|]; [auto 10|];
    by simplify_map_eq.
Qed.

Lemma setHeaders_all (c : qi.Client) (req : http.Request) :
  http.Header req = ∅ ->
  let h := http.Header (qi.setHeaders c req) in
  h !! "Content-Type" = Some ["application/json"]
  /\ h !! "Accept" = Some ["application/json"]
  /\ forall k, is_Some (h !! k) -> In k headerNames.
Proof.
  destruct req as [m u h b]. cbn [http.Header]. intros ->.
  pose proof (five_headers_all "Content-Type" "Accept" "X-Terminal-Id" "Authorization"
                "X-Signature" ["application/json"] ["application/json"]
                [qi.terminalID c] [spec.basicAuth (qi.username c) (qi.password c)]
                [qi.signature c]
                (negb (String.eqb (qi.username c) "") && negb (String.eqb (qi.password c) ""))
                (negb (String.eqb (qi.signature c) ""))) as Hfive.
  unfold qi.setHeaders, headerNames.
  destruct (negb (String.eqb (qi.username c) "") && negb (String.eqb (qi.password c) ""));
    destruct (negb (String.eqb (qi.signature c) ""));
    apply Hfive; discriminate.
Qed.

(** X12.  Every request that a call sends says that its body is JSON and
    that JSON is wanted back, and carries no header other than these two,
    the terminal id and the two kinds of credentials. *)
Theorem requests_carry_only_the_five_headers (url_Parse_ok : string -> bool)
    {B R : Type} `{qi.Marshal B} `{qi.Unmarshal R}
    (c : qi.Client) (method path : string) (body : option B) (result : option R)
    (req : http.Request) :
  In req (qi.sent (qi.doRequest url_Parse_ok c method path body result)) ->
  http.Header req !! "Content-Type" = Some ["application/json"]
  /\ http.Header req !! "Accept" = Some ["application/json"]
  /\ forall k, is_Some (http.Header req !! k) -> In k headerNames.
Proof.
  intros Hin. apply doRequest_sent_inv, buildRequest_inv in Hin as (m & rb & -> & _).
  apply setHeaders_all. reflexivity.
Qed.


Lemma five_headers_witness :
  http.Header (qi.setHeaders (testClient (server 200 ""))
                 (http.mkRequest "POST" "http://127.0.0.1:8080/payment" ∅ (Some "{}")))
    !! "Content-Type" = Some ["application/json"].
Proof.
  exact (proj1 (requests_carry_only_the_five_headers anyURL (R := raw)
                  (testClient (server 200 "")) "POST" "/payment"
                  (Some (Some (mkRaw "{}"))) None _ (testClient_sends _ _))).
Defined.

(** ** From the options to the request *)


Lemma authClient_sends {R : Type} `{qi.Unmarshal R} h (result : option R) :
  In (qi.setHeaders (authClient h)
        (http.mkRequest "POST" "http://127.0.0.1:8080/payment" ∅ (Some "{}")))
     (qi.sent (qi.doRequest anyURL (authClient h) "POST" "/payment"
                 (Some (Some (mkRaw "{}"))) result)).
Proof. rewrite doRequest_sent. left. reflexivity. Qed.

(** X13.  What the options say is what goes out: a request of a client made
    by [NewClient] goes to the base URL of the last [WithBaseURL] (the
    default one when there is none) followed by the path, names the terminal
    id given to [NewClient], has the basic-auth header exactly when the last
    [WithBasicAuth] gave a user name and a password that are both non-empty,
    and has the signature header exactly when the last [WithSignature] gave
    a non-empty one. *)
Theorem requests_follow_the_options (url_Parse_ok : string -> bool)
    {B R : Type} `{qi.Marshal B} `{qi.Unmarshal R}
    (dflt : qi.HTTPClient) (terminalID : string) (ss : list setting)
    (method path : string) (body : option B) (result : option R) (req : http.Request) :
  In req (qi.sent (qi.doRequest url_Parse_ok
                     (qi.NewClient dflt terminalID (map optionOf ss))
                     method path body result)) ->
  let auth := lastOf pickBasicAuth ss ("", "") in
  let sig := lastOf pickSignature ss "" in
  http.URL req = lastOf pickBaseURL ss qi.DefaultBaseURL +:+ path
  /\ http.Header req !! "X-Terminal-Id" = Some [terminalID]
  /\ http.Header req !! "Authorization"
     = (if decide (fst auth <> "" /\ snd auth <> "")
        then Some [basicAuth (fst auth) (snd auth)] else None)
  /\ http.Header req !! "X-Signature"
     = (if decide (sig <> "") then Some [sig] else None).
Proof.
  intros Hin auth sig. subst auth sig.
  assert (qi.NewClient dflt terminalID (map optionOf ss)
          = qi.mkClient (lastOf pickBaseURL ss qi.DefaultBaseURL) terminalID
              (fst (lastOf pickBasicAuth ss ("", "")))
              (snd (lastOf pickBasicAuth ss ("", "")))
              (lastOf pickSignature ss "") (lastOf pickHTTPClient ss dflt)) as Hc.
  { clear. induction ss as [|s ss IH] using rev_ind; [reflexivity|].
    rewrite map_app. cbn [map]. rewrite NewClient_snoc, IH, !lastOf_snoc.
    destruct s; reflexivity. }
  rewrite Hc in Hin. apply doRequest_sent_inv in Hin.
  pose proof (buildRequest_contract url_Parse_ok _ _ _ _ _ Hin) as Hcontract.
  apply buildRequest_inv in Hin as (m & rb & -> & _).
  split; [apply setHeaders_line|exact Hcontract].
Qed.

Lemma requests_follow_the_options_witness :
  let req := qi.setHeaders (authClient (server 200 ""))
               (http.mkRequest "POST" "http://127.0.0.1:8080/payment" ∅ (Some "{}")) in
  http.URL req = "http://127.0.0.1:8080/payment"
  /\ http.Header req !! "X-Terminal-Id" = Some ["test-terminal"]
  /\ http.Header req !! "Authorization" = Some ["Basic dXNlcm5hbWU6cGFzc3dvcmQ="]
  /\ http.Header req !! "X-Signature" = Some ["sig-1"].
Proof.
  exact (requests_follow_the_options anyURL (R := raw) offline "test-terminal"
           [SetBaseURL "http://127.0.0.1:8080"; SetHTTPClient (server 200 "");
            SetBasicAuth "username" "password"; SetSignature "sig-1"]
           "POST" "/payment" (Some (Some (mkRaw "{}"))) None _
           (authClient_sends (server 200 "") None)).
Defined.

(** *** Faults and their causes *)

Section Faults.

Variable url_Parse_ok : string -> bool.
Context {B R : Type} `{qi.Marshal B} `{qi.Unmarshal R}.

(** A request fails to be built on encoding exactly when there is a body
    that does not encode. *)
Lemma buildRequest_marshal_fault c method path (body : option B) (e : json.error) :
  qi.buildRequest url_Parse_ok c method path body = Fail (qi.failedToMarshal e)
  <-> exists b, body = Some b /\ qi.marshal b = Fail e.
Proof.
  unfold qi.buildRequest. destruct body as [b|].
  - destruct (qi.marshal b) as [j|e'] eqn:Hj.
    + destruct (http.NewRequestWithContext _ _ _ _); (split; [discriminate|]);
        intros (b' & [= <-] & Hm'); congruence.
    + split; [intros [= ->]; eauto|]. intros (b' & [= <-] & Hm'). congruence.
  - destruct (http.NewRequestWithContext _ _ _ _); (split; [discriminate|]);
      intros (b' & [=] & _).
Qed.

(** The ways of a call, one by one. *)
Lemma doRequest_cases c method path (body : option B) (result : option R) :
  let call := qi.doRequest url_Parse_ok c method path body result in
  (exists err, qi.buildRequest url_Parse_ok c method path body = Fail err
               /\ call = qi.mkCall [] result (Some err))
  \/ (exists req e, qi.buildRequest url_Parse_ok c method path body = Ok req
                    /\ qi.httpClient c req = Fail e
                    /\ call = qi.mkCall [req] result (Some (qi.failedToExecute e)))
  \/ (exists req resp e, qi.buildRequest url_Parse_ok c method path body = Ok req
                         /\ qi.httpClient c req = Ok resp
                         /\ http.ReadAll resp = Fail e
                         /\ call = qi.mkCall [req] result (Some (qi.failedToRead e)))
  \/ (exists req resp respBody a,
        qi.buildRequest url_Parse_ok c method path body = Ok req
        /\ qi.httpClient c req = Ok resp
        /\ http.ReadAll resp = Ok respBody
        /\ 400 <= http.StatusCode resp
        /\ call = qi.mkCall [req] result (Some (qi.apiError a)))
  \/ (exists req resp respBody,
        qi.buildRequest url_Parse_ok c method path body = Ok req
        /\ qi.httpClient c req = Ok resp
        /\ http.ReadAll resp = Ok respBody
        /\ http.StatusCode resp < 400
        /\ (result = None \/ respBody = "")
        /\ call = qi.mkCall [req] result None)
  \/ (exists req resp respBody r,
        qi.buildRequest url_Parse_ok c method path body = Ok req
        /\ qi.httpClient c req = Ok resp
        /\ http.ReadAll resp = Ok respBody
        /\ http.StatusCode resp < 400
        /\ result = Some r /\ respBody <> ""
        /\ call = qi.mkCall [req] (Some (fst (qi.unmarshal respBody r)))
                    (qi.failedToUnmarshal <$> snd (qi.unmarshal respBody r))).
Proof.
  cbv zeta. unfold qi.doRequest.
  destruct (qi.buildRequest _ _ _ _ _) as [req|err0] eqn:Hb; [|left; eauto].
  right. destruct (qi.httpClient c req) as [resp|e1] eqn:Hdo; [|left; eauto 6].
  right. destruct (http.ReadAll resp) as [respBody|e2] eqn:Hread; [|left; eauto 8].
  right. destruct (Z.leb_spec 400 (http.StatusCode resp)) as [Hst|Hst].
  { left. destruct (qi.Unmarshal_Error respBody qi.zeroError); eauto 12. }
  right. destruct result as [r|]; [|left; eauto 12].
  destruct respBody as [|ch tl]; [left; eauto 12|].
  right. cbn [String.length Nat.ltb Nat.leb].
  exists req, resp, (String ch tl), r.
  destruct (qi.unmarshal (String ch tl) r) as [r' [x|]];
    repeat split; try assumption; discriminate.
Qed.

(** X14.  The other faults are reported as what they are, with their cause:
    a call fails on encoding exactly when there is a body and it does not
    encode; on execution exactly when the request was built and the HTTP
    client returned an error; on reading exactly when the answer came and
    its body could not be read; on decoding exactly when an answer below
    400 with a body that is not empty did not decode into the result. *)
Theorem faults_are_reported_with_their_cause c method path (body : option B)
    (result : option R) :
  let call := qi.doRequest url_Parse_ok c method path body result in
  (forall e, qi.failure call = Some (qi.failedToMarshal e)
             <-> exists b, body = Some b /\ qi.marshal b = Fail e)
  /\ (forall e, qi.failure call = Some (qi.failedToExecute e)
                <-> exists req, qi.buildRequest url_Parse_ok c method path body = Ok req
                                /\ qi.httpClient c req = Fail e)
  /\ (forall e, qi.failure call = Some (qi.failedToRead e)
                <-> exists req resp,
                      qi.buildRequest url_Parse_ok c method path body = Ok req
                      /\ qi.httpClient c req = Ok resp
                      /\ http.ReadAll resp = Fail e)
  /\ (forall e, qi.failure call = Some (qi.failedToUnmarshal e)
                <-> exists req resp respBody r,
                      qi.buildRequest url_Parse_ok c method path body = Ok req
                      /\ qi.httpClient c req = Ok resp
                      /\ http.ReadAll resp = Ok respBody
                      /\ http.StatusCode resp < 400
                      /\ result = Some r /\ respBody <> ""
                      /\ snd (qi.unmarshal respBody r) = Some e).
Proof.
  intros call. subst call.
  pose proof (buildRequest_marshal_fault c method path body) as Hm.
  destruct (doRequest_cases c method path body result)
    as [(err0 & Hb & ->)|[(req & e1 & Hb & Hdo & ->)|[(req & resp & e2 & Hb & Hdo & Hread & ->)
       |[(req & resp & respBody & a & Hb & Hdo & Hread & Hst & ->)
       |[(req & resp & respBody & Hb & Hdo & Hread & Hst & Hnone & ->)
       |(req & resp & respBody & r & Hb & Hdo & Hread & Hst & -> & Hne & ->)]]]]];
    cbn [qi.failure]; rewrite Hb in Hm;
    [destruct (buildRequest_fault url_Parse_ok c method path body _ Hb) as [[x ->]|[x ->]]
    |..];
    (split; [intros e; rewrite <- Hm; clear Hm|clear Hm; split; [|split]; intros e]).
  all: try (split;
            [ first [discriminate | destruct (snd (qi.unmarshal respBody r)); discriminate]
            | first [ discriminate
                    | intros (rq & Hb' & Hdo'); congruence
                    | intros (rq & rs & Hb' & Hdo' & Hread'); congruence
                    | intros (rq & rs & bd & r0 & Hb' & Hdo' & Hread' & Hst' & Hres'
                              & Hne' & Hs');
                      first [ congruence
                            | assert (rs = resp) as -> by congruence;
                              first [lia | destruct Hnone; congruence] ] ] ]; fail).
  - split; congruence.
  - split; [intros [= ->]; eauto|]. intros (rq & Hb' & Hdo'). congruence.
  - split; [intros [= ->]; eauto|]. intros (rq & rs & Hb' & Hdo' & Hread'). congruence.
  - split.
    + intros Hf. exists req, resp, respBody, r. repeat split; try assumption.
      destruct (snd (qi.unmarshal respBody r)); cbn in Hf; congruence.
    + intros (rq & rs & bd & r0 & Hb' & Hdo' & Hread' & Hst' & Hres' & Hne' & Hs').
      assert (rs = resp) as -> by congruence.
      assert (bd = respBody) as -> by congruence.
      assert (r0 = r) as -> by congruence.
      rewrite Hs'. reflexivity.
Qed.

End Faults.

(** ** Error envelopes *)

(** A string literal of bytes that stand for themselves. *)
Lemma stringBody_safe (msg rest : string) :
  allSafe msg = true ->
  json.stringBody (msg +:+ String quote_byte rest) O O = Some (msg, rest).
Proof.
  induction msg as [|c msg IH]; intros Hs.
  - rewrite append_nil. cbn [json.stringBody]. rewrite Ascii.eqb_refl. reflexivity.
  - cbn [allSafe] in Hs. apply andb_true_iff in Hs as [Hc Hs].
    unfold safeByte in Hc. rewrite !andb_true_iff, !negb_true_iff in Hc.
    destruct Hc as [[[H32 H128] Hq] Hb].
    rewrite append_cons.
    cbn [json.stringBody]. rewrite Hq, Hb, H128.
    assert ((byte_val c <? 32) = false) as -> by (apply Z.ltb_ge, Z.leb_le, H32).
    rewrite (IH Hs). reflexivity.
Qed.

(** *** Number literals *)

Lemma digit_cases (c : ascii) :
  isDigitByte c = true ->
  c = "0"%char \/ c = "1"%char \/ c = "2"%char \/ c = "3"%char \/ c = "4"%char
  \/ c = "5"%char \/ c = "6"%char \/ c = "7"%char \/ c = "8"%char \/ c = "9"%char.
Proof.
  destruct c as [b0 b1 b2 b3 b4 b5 b6 b7].
  destruct b0, b1, b2, b3, b4, b5, b6, b7; intros Hc;
    try (vm_compute in Hc; discriminate Hc); tauto.
Qed.

(** The digits of a positive number: no zero in front. *)
Lemma utoa_shape (fuel : nat) : forall (u : Z) (acc : string),
  0 < u < 10 ^ Z.of_nat fuel -> allDigits acc = true ->
  exists c r, time.utoa fuel u acc = String c r
              /\ isDigitByte c = true /\ c <> "0"%char /\ allDigits r = true.
Proof.
  induction fuel as [|fuel IH]; intros u acc Hu Hacc; [cbn in Hu; lia|].
  cbn [time.utoa].
  assert (0 <= u mod 10 < 10) as Hd by (apply Z.mod_pos_bound; lia).
  destruct (digit_byte_facts _ Hd) as [Hdig Hval].
  destruct (Z.eqb_spec (u / 10) 0) as [Hq|Hq].
  - exists (digit_byte (u mod 10)), acc. repeat split; try assumption.
    intros Hzero. rewrite Hzero in Hval. change (digit_val "0") with 0 in Hval.
    Z.to_euclidean_division_equations; lia.
  - apply IH.
    + rewrite Nat2Z.inj_succ, Z.pow_succ_r in Hu by lia.
      Z.to_euclidean_division_equations; lia.
    + cbn [allDigits]. rewrite Hdig, Hacc. reflexivity.
Qed.

Lemma utoa_value (u : Z) : 0 <= u < 10 ^ 20 -> number (time.utoa 20 u "") = u.
Proof.
  intros Hu. destruct (utoa_number 20 u 0 "" Hu) as (k & _ & Hk).
  unfold number. rewrite Hk. reflexivity.
Qed.

Lemma json_spanDigits_app (ds rest : string) (c : ascii) :
  allDigits ds = true -> isDigitByte c = false ->
  json.spanDigits (ds +:+ String c rest) = (ds, String c rest).
Proof.
  intros Hds Hc. induction ds as [|d ds IH].
  - rewrite append_nil. cbn [json.spanDigits]. rewrite Hc. reflexivity.
  - cbn [allDigits] in Hds. apply andb_true_iff in Hds as [Hd Hds].
    rewrite append_cons. cbn [json.spanDigits]. rewrite Hd, (IH Hds). reflexivity.
Qed.

Lemma decimal_digits (ds : string) : forall a : Z,
  allDigits ds = true -> json.decimal ds a = Some (numberFrom a ds).
Proof.
  induction ds as [|d ds IH]; intros a Hds; [reflexivity|].
  cbn [allDigits] in Hds. apply andb_true_iff in Hds as [Hd Hds].
  cbn [json.decimal numberFrom]. rewrite Hd. apply IH, Hds.
Qed.

(** The text of an integer is a minus sign or nothing, and then [0] or
    digits with no zero in front. *)
Lemma formatInt_shape (n : Z) :
  - 10 ^ 20 < n < 10 ^ 20 ->
  exists sign ds,
    fmt.formatInt n = sign +:+ ds
    /\ (sign = "" /\ 0 <= n \/ sign = "-" /\ n < 0)
    /\ number ds = Z.abs n
    /\ (ds = "0" \/ exists c r, ds = String c r /\ isDigitByte c = true
                                /\ c <> "0"%char /\ allDigits r = true).
Proof.
  intros Hn. unfold fmt.formatInt.
  exists (if n <? 0 then "-" else ""), (time.utoa 20 (Z.abs n) "").
  split; [reflexivity|]. split; [destruct (Z.ltb_spec n 0); [right|left]; split; try reflexivity; lia|].
  split; [apply utoa_value; lia|].
  destruct (Z.eq_dec n 0) as [->|Hnz]; [left; reflexivity|right].
  apply utoa_shape; [|reflexivity]. change (Z.of_nat 20) with 20. lia.
Qed.

Lemma numberLit_int (c : ascii) (r rest : string) :
  isDigitByte c = true -> c <> "0"%char -> allDigits r = true ->
  json.numberLit (String c r +:+ String "," rest) = Some (String c r, String "," rest)
  /\ json.numberLit (String "-" (String c r) +:+ String "," rest)
     = Some (String "-" (String c r), String "," rest).
Proof.
  intros Hc Hnz Hr. unfold json.numberLit. rewrite !append_cons.
  pose proof (json_spanDigits_app r rest "," Hr eq_refl) as Hspan.
  destruct (digit_cases c Hc) as [->|[->|[->|[->|[->|[->|[->|[->|[->| ->]]]]]]]]];
    [contradiction|..];
    rewrite Hc, Hspan; cbn; rewrite ?append_empty_r; split; reflexivity.
Qed.

(** An integer literal where a value is expected, before a comma. *)
Lemma parseValue_int (fuel : nat) (depth : Z) (sign ds rest : string) :
  sign = "" \/ sign = "-" ->
  ds = "0" \/ (exists c r, ds = String c r /\ isDigitByte c = true
                           /\ c <> "0"%char /\ allDigits r = true) ->
  sign +:+ ds <> "-0" ->
  json.parseValue (S fuel) depth ((sign +:+ ds) +:+ String "," rest)
  = Some (json.Number (sign +:+ ds), String "," rest).
Proof.
  intros Hsign Hds Hnz.
  destruct Hds as [->|(c & r & -> & Hc & Hc0 & Hr)].
  - destruct Hsign as [->| ->]; [reflexivity|]. contradiction Hnz. reflexivity.
  - destruct (numberLit_int c r rest Hc Hc0 Hr) as [Hpos Hneg].
    destruct Hsign as [->| ->]; rewrite ?append_nil, ?append_cons in *.
    + destruct (digit_cases c Hc) as [->|[->|[->|[->|[->|[->|[->|[->|[->| ->]]]]]]]]];
        [contradiction|..];
        cbn -[json.numberLit String.append]; rewrite Hpos; reflexivity.
    + cbn -[json.numberLit String.append]. rewrite ?append_nil, ?append_cons.
      rewrite Hneg. reflexivity.
Qed.

(** *** Objects *)

(** A member with a plain key, where members are expected. *)
Lemma parseMembers_member (fuel : nat) (depth : Z) (key text : string) :
  allSafe key = true ->
  json.parseMembers (S fuel) depth
    (String quote_byte (key +:+ String quote_byte (String ":" text)))
  = '(v, rest) ← json.parseValue fuel depth text;
    match json.skipSpace rest with
    | String "," rest =>
        '(ms, rest) ← json.parseMembers fuel depth rest;
        Some ((key, v) :: ms, rest)
    | String "}" rest => Some ([(key, v)], rest)
    | _ => None
    end.
Proof.
  intros Hkey.
  change (json.parseMembers (S fuel) depth
            (String quote_byte (key +:+ String quote_byte (String ":" text))))
    with ('(k, rest) ← json.stringBody (key +:+ String quote_byte (String ":" text)) O O;
          match json.skipSpace rest with
          | String ":" rest =>
              '(v, rest) ← json.parseValue fuel depth rest;
              match json.skipSpace rest with
              | String "," rest =>
                  '(ms, rest) ← json.parseMembers fuel depth rest;
                  Some ((k, v) :: ms, rest)
              | String "}" rest => Some ([(k, v)], rest)
              | _ => None
              end
          | _ => None
          end).
  rewrite (stringBody_safe key _ Hkey). reflexivity.
Qed.

(** An object whose first member follows the brace at once. *)
Lemma parseValue_object (fuel : nat) (depth : Z) (text : string) :
  depth + 1 <= json.maxNestingDepth ->
  json.parseValue (S fuel) depth (String "{" (String quote_byte text))
  = '(ms, rest) ← json.parseMembers fuel (depth + 1) (String quote_byte text);
    Some (json.Object ms, rest).
Proof.
  intros Hd.
  change (json.parseValue (S fuel) depth (String "{" (String quote_byte text)))
    with (if json.maxNestingDepth <? depth + 1 then None
          else '(ms, rest) ← json.parseMembers fuel (depth + 1) (String quote_byte text);
               Some (json.Object ms, rest)).
  destruct (Z.ltb_spec json.maxNestingDepth (depth + 1)); [lia|reflexivity].
Qed.

(** A string literal of plain bytes, where a value is expected. *)
Lemma parseValue_string (fuel : nat) (depth : Z) (msg rest : string) :
  allSafe msg = true ->
  json.parseValue (S fuel) depth (String quote_byte (msg +:+ String quote_byte rest))
  = Some (json.Str msg, rest).
Proof.
  intros Hmsg.
  change (json.parseValue (S fuel) depth
            (String quote_byte (msg +:+ String quote_byte rest)))
    with ('(str, rest') ← json.stringBody (msg +:+ String quote_byte rest) O O;
          Some (json.Str str, rest')).
  rewrite (stringBody_safe msg _ Hmsg). reflexivity.
Qed.

(** The envelope text, byte by byte around its two variable parts. *)
Lemma envelopeText_bytes (code : Z) (msg : string) :
  envelopeText code msg
  = String "{" (String quote_byte ("error" +:+ String quote_byte (String ":"
      (String "{" (String quote_byte ("code" +:+ String quote_byte (String ":"
         (fmt.formatInt code +:+ String ","
            (String quote_byte ("message" +:+ String quote_byte (String ":"
               (String quote_byte (msg +:+ String quote_byte "}}"))))))))))))).
Proof. reflexivity. Qed.

Lemma parse_envelope (code : Z) (msg : string) :
  - 10 ^ 20 < code < 10 ^ 20 -> allSafe msg = true ->
  json.parse (envelopeText code msg)
  = Some (json.Object
            [("error", json.Object [("code", json.Number (fmt.formatInt code));
                                    ("message", json.Str msg)])]).
Proof.
  intros Hcode Hmsg. unfold json.parse.
  assert (exists k, (2 * String.length (envelopeText code msg) + 2
                     = S (S (S (S (S (S k))))))%nat) as [k ->].
  { rewrite envelopeText_bytes. cbn [String.length].
    match goal with
    | |- context [S (S (String.length ?x))] => exists (2 * String.length x)%nat
    end. lia. }
  rewrite envelopeText_bytes.
  destruct (formatInt_shape code Hcode) as (sign & ds & -> & Hsign & Hnum & Hds).
  assert (sign +:+ ds <> "-0") as Hnz.
  { destruct Hsign as [[-> _]|[-> Hneg]].
    - rewrite append_nil. intros ->.
      destruct Hds as [Hd|(c & r & Hd & Hc & _)]; [discriminate Hd|].
      injection Hd as <- _. vm_compute in Hc. discriminate Hc.
    - rewrite append_cons, append_nil. intros [= ->].
      change (number "0") with 0 in Hnum. lia. }
  rewrite parseValue_object by (unfold json.maxNestingDepth; lia).
  rewrite parseMembers_member by reflexivity.
  rewrite parseValue_object by (unfold json.maxNestingDepth; lia).
  rewrite parseMembers_member by reflexivity.
  rewrite parseValue_int by (try assumption; destruct Hsign as [[-> _]|[-> _]]; tauto).
  cbn [mbind option_bind json.skipSpace json.isSpace Ascii.eqb Bool.eqb orb].
  rewrite parseMembers_member by reflexivity.
  rewrite parseValue_string by assumption.
  reflexivity.
Qed.

(** [strconv.ParseInt] reads the text of a 64-bit integer back. *)
Lemma ParseInt64_formatInt (n : Z) :
  - 2 ^ 63 <= n < 2 ^ 63 -> json.ParseInt64 (fmt.formatInt n) = Some n.
Proof.
  intros Hn.
  destruct (formatInt_shape n ltac:(lia)) as (sign & ds & -> & Hsign & Hnum & Hds).
  assert (allDigits ds = true /\ ds <> "") as [Hdig Hne].
  { destruct Hds as [->|(c & r & -> & Hc & _ & Hr)]; [split; [reflexivity|discriminate]|].
    cbn [allDigits]. rewrite Hc, Hr. split; [reflexivity|discriminate]. }
  assert (json.decimal ds 0 = Some (Z.abs n)) as Hdec
    by (rewrite decimal_digits by exact Hdig; fold (number ds); rewrite Hnum; reflexivity).
  assert (forall neg : bool,
            (if String.eqb ds "" then None
             else n0 ← json.decimal ds 0;
                  let n1 := if neg then - n0 else n0 in
                  if (- 9223372036854775808 <=? n1) && (n1 <=? 9223372036854775807)
                  then Some n1 else None)
            = Some (if neg then - Z.abs n else Z.abs n) \/
            ~ (- 2 ^ 63 <= (if neg then - Z.abs n else Z.abs n) < 2 ^ 63)) as Hbody.
  { intros neg. destruct (String.eqb_spec ds ""); [contradiction|]. rewrite Hdec.
    cbn [mbind option_bind]. cbv zeta.
    destruct (Z.leb_spec (- 9223372036854775808) (if neg then - Z.abs n else Z.abs n));
      [|right; lia].
    destruct (Z.leb_spec (if neg then - Z.abs n else Z.abs n) 9223372036854775807);
      [left; reflexivity|right; lia]. }
  destruct Hsign as [[-> Hpos]|[-> Hneg]].
  - rewrite append_nil.
    assert (json.ParseInt64 ds
            = (if String.eqb ds "" then None
               else n0 ← json.decimal ds 0;
                    let n1 := if false then - n0 else n0 in
                    if (- 9223372036854775808 <=? n1) && (n1 <=? 9223372036854775807)
                    then Some n1 else None)) as ->.
    { destruct Hds as [->|(c & r & -> & Hc & _)]; [reflexivity|].
      destruct (digit_cases c Hc) as [->|[->|[->|[->|[->|[->|[->|[->|[->| ->]]]]]]]]];
        reflexivity. }
    destruct (Hbody false) as [->|Hout]; [f_equal; lia|lia].
  - rewrite append_cons, append_nil.
    change (json.ParseInt64 (String "-" ds))
      with (if String.eqb ds "" then None
            else n0 ← json.decimal ds 0;
                 let n1 := if true then - n0 else n0 in
                 if (- 9223372036854775808 <=? n1) && (n1 <=? 9223372036854775807)
                 then Some n1 else None).
    destruct (Hbody true) as [->|Hout]; [f_equal; lia|lia].
Qed.

(** The envelope text decodes to its code and message, whatever the
    destination held. *)
Lemma Unmarshal_envelope (code : Z) (msg : string) (e0 : qi.Error) :
  - 2 ^ 63 <= code < 2 ^ 63 -> allSafe msg = true ->
  qi.Unmarshal_Error (envelopeText code msg) e0
  = Ok (qi.mkError (qi.mkErrorDetails code msg)).
Proof.
  intros Hcode Hmsg. unfold qi.Unmarshal_Error.
  rewrite parse_envelope by (try assumption; lia).
  unfold qi.decodeError. cbn [qi.storeAll].
  change (qi.storeErrorField e0 _)
    with (d ← qi.decodeErrorDetails
               (json.Object [("code", json.Number (fmt.formatInt code));
                             ("message", json.Str msg)]) (qi.Error_ e0);
          Some (qi.mkError d)).
  unfold qi.decodeErrorDetails. cbn [qi.storeAll].
  change (qi.storeDetailsField (qi.Error_ e0) ("code", json.Number (fmt.formatInt code)))
    with (n ← json.ParseInt64 (fmt.formatInt code);
          Some (qi.mkErrorDetails n (qi.Message (qi.Error_ e0)))).
  rewrite ParseInt64_formatInt by assumption. reflexivity.
Qed.

(** X15.  An answer of status 400 or more whose body is the envelope text of
    a 64-bit code and a message of plain bytes makes the call fail with the
    [APIError] of that status that carries exactly this code and this
    message, and no raw text. *)
Theorem envelope_answer_gives_code_and_message (url_Parse_ok : string -> bool)
    {B R : Type} `{qi.Marshal B} `{qi.Unmarshal R}
    (c : qi.Client) (method path : string) (body : option B) (result : option R)
    (req : http.Request) (resp : http.Response) (code : Z) (msg : string) :
  In req (qi.sent (qi.doRequest url_Parse_ok c method path body result)) ->
  qi.httpClient c req = Ok resp ->
  http.ReadAll resp = Ok (envelopeText code msg) ->
  400 <= http.StatusCode resp ->
  - 2 ^ 63 <= code < 2 ^ 63 ->
  allSafe msg = true ->
  qi.failure (qi.doRequest url_Parse_ok c method path body result)
  = Some (qi.apiError
            (qi.mkAPIError (http.StatusCode resp) ""
               (Some (qi.mkError (qi.mkErrorDetails code msg))))).
Proof.
  intros Hin Hdo Hread Hst Hcode Hmsg. apply doRequest_sent_inv in Hin.
  rewrite (doRequest_error_status url_Parse_ok c method path body result req resp
             _ Hin Hdo Hread Hst).
  rewrite Unmarshal_envelope by assumption. reflexivity.
Qed.


Lemma envelope_answer_witness :
  qi.failure (qi.doRequest anyURL
                (testClient (server 404 (envelopeText 12 qi.ErrorMessagePaymentNotFound)))
                "POST" "/payment" (Some (Some (mkRaw "{}"))) (Some (mkRaw "")))
  = Some (qi.apiError (qi.mkAPIError 404 ""
            (Some (qi.mkError (qi.mkErrorDetails 12 "PAYMENT_NOT_FOUND"))))).
Proof.
  refine (envelope_answer_gives_code_and_message anyURL _ _ _ _ _ _
            (http.mkResponse 404 (Ok _)) 12 qi.ErrorMessagePaymentNotFound
            (testClient_sends _ _) eq_refl eq_refl _ _ eq_refl); cbn; lia.
Defined.

(** ** The timestamp codec: what is written and read back *)

(** *** The fraction of a second *)

(** The RFC 3339 text of a Time does not show its nanoseconds. *)
Lemma Format_whole_second (t : time.Time) :
  time.Format t time.RFC3339
  = time.Format (time.mkTime (time.sec t) 0 (time.offset t)) time.RFC3339.
Proof. rewrite !Format_RFC3339. reflexivity. Qed.

(** X16.  Writing a Time and reading the text back drops the fraction of a
    second and nothing else: a Time other than the zero instant, in the
    years 0 to 9999 of its own zone and with a zone offset of whole minutes
    under 25 hours, comes back on the whole second it lies in, whatever the
    receiver held. *)
Theorem round_trip_keeps_the_whole_second (T t0 : qi.Time) :
  time.IsZero (qi.Time_ T) = false ->
  0 <= time.Year (qi.Time_ T) <= 9999 ->
  Z.rem (time.offset (qi.Time_ T)) 60 = 0 ->
  -90000 < time.offset (qi.Time_ T) < 90000 ->
  exists out : string,
    qi.MarshalJSON T = Ok out
    /\ qi.UnmarshalJSON t0 out
       = (qi.NewTime (time.mkTime (time.sec (qi.Time_ T)) 0 (time.offset (qi.Time_ T))),
          None).
Proof.
  destruct T as [t]. cbn [qi.Time_]. intros Hzero Hyear Hrem Hrange.
  set (t' := time.mkTime (time.sec t) 0 (time.offset t)).
  destruct (Format_plain t' Hyear Hrem Hrange) as [Hplain Hne].
  exists (spec.quoted (time.Format t' time.RFC3339)). split.
  - unfold qi.MarshalJSON. cbn [qi.Time_]. rewrite Hzero, Format_whole_second.
    fold t'. unfold json.Marshal_string. rewrite escape_plain by assumption.
    reflexivity.
  - unfold qi.UnmarshalJSON. rewrite Trim_quoted by assumption.
    rewrite plain_not_null by assumption.
    rewrite Parse_Format_RFC3339 by (try assumption; reflexivity). reflexivity.
Qed.

Lemma round_trip_whole_second_witness :
  exists out : string,
    qi.MarshalJSON (qi.NewTime (time.mkTime 63904507051 500000000 3600)) = Ok out
    /\ qi.UnmarshalJSON qi.zeroTime out
       = (qi.NewTime (time.mkTime 63904507051 0 3600), None).
Proof.
  apply (round_trip_keeps_the_whole_second
           (qi.NewTime (time.mkTime 63904507051 500000000 3600)) qi.zeroTime).
  - reflexivity.
  - vm_compute. split; discriminate.
  - reflexivity.
  - cbn. lia.
Defined.

(** *** From calendar fields to a count of seconds and back *)

Lemma daysSinceEpoch_succ (y : Z) :
  time.daysSinceEpoch (y + 1)
  = time.daysSinceEpoch y + (if time.isLeap y then 366 else 365).
Proof.
  pose proof (isLeap_spec y) as Hleap.
  unfold time.daysSinceEpoch, time.daysPer400Years, time.daysPer100Years,
    time.daysPer4Years. cbv zeta.
  destruct (time.isLeap y).
  - destruct (proj1 Hleap eq_refl) as [H4 H100].
    Z.to_euclidean_division_equations; lia.
  - assert (~ (y mod 4 = 0 /\ (y mod 100 <> 0 \/ y mod 400 = 0))) as Hn
      by (intros Hc; apply Hleap in Hc; discriminate).
    Z.to_euclidean_division_equations; lia.
Qed.

Lemma daysSinceEpoch_next (y y' : Z) :
  y < y' ->
  time.daysSinceEpoch y + (if time.isLeap y then 366 else 365) <= time.daysSinceEpoch y'.
Proof.
  intros Hlt. replace y' with (y + 1 + (y' - y - 1)) by lia.
  assert (0 <= y' - y - 1) as Hk by lia. revert Hk.
  generalize (y' - y - 1). clear y' Hlt.
  apply natlike_ind.
  - rewrite Z.add_0_r, daysSinceEpoch_succ. lia.
  - intros k Hk IH.
    replace (y + 1 + Z.succ k) with (y + 1 + k + 1) by lia.
    rewrite (daysSinceEpoch_succ (y + 1 + k)).
    destruct (time.isLeap (y + 1 + k)); lia.
Qed.

(** The year and the day of the year of a count of days are the only ones
    that give the count. *)
Lemma absYear_unique (y yd : Z) :
  0 <= yd < (if time.isLeap y then 366 else 365) ->
  time.absYear (time.daysSinceEpoch y + yd) = (y, yd).
Proof.
  intros Hyd.
  destruct (absYear_spec (time.daysSinceEpoch y + yd)) as [Hsum Hrange].
  destruct (time.absYear _) as [y' yd']. cbn [fst snd] in *.
  assert (y' = y) as ->.
  { destruct (Z.lt_trichotomy y' y) as [Hlt|[Heq|Hgt]]; [|exact Heq|].
    - pose proof (daysSinceEpoch_next y' y Hlt). lia.
    - pose proof (daysSinceEpoch_next y y' Hgt). lia. }
  f_equal. lia.
Qed.

Lemma twelve (m : Z) :
  1 <= m <= 12 ->
  m = 1 \/ m = 2 \/ m = 3 \/ m = 4 \/ m = 5 \/ m = 6
  \/ m = 7 \/ m = 8 \/ m = 9 \/ m = 10 \/ m = 11 \/ m = 12.
Proof. lia. Qed.

Ltac calc_days :=
  repeat match goal with
    | |- context [time.daysBefore_at ?k] =>
        let v := eval vm_compute in (time.daysBefore_at k) in
        change (time.daysBefore_at k) with v
    | H : context [time.daysBefore_at ?k] |- _ =>
        let v := eval vm_compute in (time.daysBefore_at k) in
        change (time.daysBefore_at k) with v in H
    end.

Lemma yday_in_year (y m d : Z) :
  1 <= m <= 12 -> 1 <= d <= time.daysIn m y ->
  0 <= time.daysBefore_at (m - 1)
       + (if time.isLeap y && (time.March <=? m) then 1 else 0) + (d - 1)
  < (if time.isLeap y then 366 else 365).
Proof.
  intros Hm Hd. unfold time.daysIn in Hd.
  destruct (time.isLeap y);
    destruct (twelve m Hm) as [->|[->|[->|[->|[->|[->|[->|[->|[->|[->|[->| ->]]]]]]]]]]];
    calc_days; cbn in Hd |- *; lia.
Qed.

Lemma absMonthDay_unique (y m d : Z) :
  1 <= m <= 12 -> 1 <= d <= time.daysIn m y ->
  time.absMonthDay y
    (time.daysBefore_at (m - 1)
     + (if time.isLeap y && (time.March <=? m) then 1 else 0) + (d - 1))
  = (m, d).
Proof.
  intros Hm Hd.
  set (yd := time.daysBefore_at (m - 1)
             + (if time.isLeap y && (time.March <=? m) then 1 else 0) + (d - 1)).
  assert (0 <= yd < (if time.isLeap y then 366 else 365)) as Hyd
    by (apply yday_in_year; assumption).
  pose proof (absMonthDay_spec y yd Hyd) as Hspec. cbv zeta in Hspec.
  destruct (time.absMonthDay y yd) as [m' d']. cbn [fst snd] in Hspec.
  destruct Hspec as (Hm' & Hd' & Hsum). subst yd.
  unfold time.daysIn in Hd, Hd'.
  destruct (time.isLeap y);
    destruct (twelve m Hm) as [->|[->|[->|[->|[->|[->|[->|[->|[->|[->|[->| ->]]]]]]]]]]];
    destruct (twelve m' Hm') as [->|[->|[->|[->|[->|[->|[->|[->|[->|[->|[->| ->]]]]]]]]]]];
    calc_days; cbn in Hd, Hd', Hsum; first [f_equal; lia | exfalso; lia].
Qed.

(** The calendar fields of the count of seconds of calendar fields are the
    fields. *)
Lemma absDate_Date (y m d h mi s : Z) :
  1 <= m <= 12 -> 1 <= d <= time.daysIn m y ->
  0 <= h < 24 -> 0 <= mi < 60 -> 0 <= s < 60 ->
  time.absDate (time.sec (time.Date y m d h mi s 0)) = (y, m, d)
  /\ time.absClock (time.sec (time.Date y m d h mi s 0)) = (h, mi, s).
Proof.
  intros Hm Hd Hh Hmi Hs. rewrite Date_in_range by assumption. cbn [time.sec].
  set (yd := time.daysBefore_at (m - 1)
             + (if time.isLeap y && (time.March <=? m) then 1 else 0) + (d - 1)).
  replace (time.daysSinceEpoch y + time.daysBefore_at (m - 1)
           + (if time.isLeap y && (time.March <=? m) then 1 else 0) + (d - 1))
    with (time.daysSinceEpoch y + yd) by (subst yd; lia).
  assert (0 <= h * 3600 + mi * 60 + s < 86400) as Hclock by lia.
  split.
  - unfold time.absDate, time.secondsPerDay.
    replace (((time.daysSinceEpoch y + yd) * 86400 + (h * 3600 + mi * 60 + s)) / 86400)
      with (time.daysSinceEpoch y + yd)
      by (Z.to_euclidean_division_equations; lia).
    assert (0 <= yd < (if time.isLeap y then 366 else 365)) as Hyd
      by (apply yday_in_year; assumption).
    rewrite absYear_unique by exact Hyd. subst yd.
    rewrite absMonthDay_unique by assumption. reflexivity.
  - unfold time.absClock, time.secondsPerDay, time.secondsPerHour,
      time.secondsPerMinute. cbv zeta.
    generalize (time.daysSinceEpoch y + yd). intros days.
    replace ((days * 86400 + (h * 3600 + mi * 60 + s)) mod 86400)
      with (h * 3600 + mi * 60 + s) by (Z.to_euclidean_division_equations; lia).
    replace ((h * 3600 + mi * 60 + s) / 3600) with h
      by (Z.to_euclidean_division_equations; lia).
    replace ((h * 3600 + mi * 60 + s - h * 3600) / 60) with mi
      by (Z.to_euclidean_division_equations; lia).
    do 2 f_equal. lia.
Qed.

(** *** Trimming *)

Lemma rev_onto_acc (s acc : string) :
  strings.rev_onto s acc = strings.rev_onto s "" +:+ acc.
Proof.
  revert acc. induction s as [|c s IH]; intros acc; [reflexivity|].
  cbn [strings.rev_onto]. rewrite (IH (String c acc)), (IH (String c "")).
  generalize (strings.rev_onto s ""). intros r.
  induction r as [|x r IHr]; [reflexivity|]. rewrite !append_cons, IHr. reflexivity.
Qed.

(** Trimming on the left a text that ends with a byte of the cutset. *)
Lemma TrimLeft_snoc (s cutset : string) (c : ascii) :
  strings.IndexByte cutset c = true ->
  strings.TrimLeft (s +:+ String c "") cutset
  = if String.eqb (strings.TrimLeft s cutset) "" then ""
    else strings.TrimLeft s cutset +:+ String c "".
Proof.
  intros Hc. induction s as [|x s IH].
  - rewrite append_nil. cbn [strings.TrimLeft]. rewrite Hc. reflexivity.
  - rewrite append_cons. cbn [strings.TrimLeft].
    destruct (strings.IndexByte cutset x); [exact IH|]. reflexivity.
Qed.

Lemma Trim_snoc (s cutset : string) (c : ascii) :
  strings.IndexByte cutset c = true ->
  strings.Trim (s +:+ String c "") cutset = strings.Trim s cutset.
Proof.
  intros Hc. unfold strings.Trim, strings.TrimRight. rewrite rev_onto_app.
  cbn [strings.rev_onto strings.TrimLeft]. rewrite Hc. reflexivity.
Qed.

Lemma Trim_cons (s cutset : string) (c : ascii) :
  strings.IndexByte cutset c = true ->
  strings.Trim (String c s) cutset = strings.Trim s cutset.
Proof.
  intros Hc. unfold strings.Trim, strings.TrimRight.
  cbn [strings.rev_onto].
  rewrite (rev_onto_acc s (String c "")), TrimLeft_snoc by exact Hc.
  destruct (String.eqb_spec (strings.TrimLeft (strings.rev_onto s "") cutset) "")
    as [->|Hne]; [reflexivity|].
  rewrite rev_onto_app. cbn [strings.rev_onto strings.TrimLeft]. rewrite Hc.
  reflexivity.
Qed.

(** X17.  The decoder trims quotes, it does not match them: a quote more at
    either end of the input, paired or not, changes neither the Time read
    nor the error. *)
Theorem quotes_are_trimmed_not_matched (t : qi.Time) (data : string) :
  qi.UnmarshalJSON t (quote_str +:+ data) = qi.UnmarshalJSON t data
  /\ qi.UnmarshalJSON t (data +:+ quote_str) = qi.UnmarshalJSON t data.
Proof.
  unfold qi.UnmarshalJSON, quote_str. rewrite append_cons, append_nil.
  rewrite Trim_cons, Trim_snoc by reflexivity.
  split; reflexivity.
Qed.

(** *** The two texts of a UTC Time *)

Lemma Year_Date (y m d h mi s : Z) :
  1 <= m <= 12 -> 1 <= d <= time.daysIn m y ->
  0 <= h < 24 -> 0 <= mi < 60 -> 0 <= s < 60 ->
  time.Year (time.Date y m d h mi s 0) = y.
Proof.
  intros Hm Hd Hh Hmi Hs. unfold time.Year.
  destruct (absDate_Date y m d h mi s Hm Hd Hh Hmi Hs) as [HD _].
  rewrite (Date_in_range y m d h mi s) in * by assumption.
  cbn [time.sec time.offset] in *. rewrite Z.add_0_r, HD. reflexivity.
Qed.

Lemma Format_Date (y m d h mi s : Z) :
  1 <= m <= 12 -> 1 <= d <= time.daysIn m y ->
  0 <= h < 24 -> 0 <= mi < 60 -> 0 <= s < 60 ->
  time.Format (time.Date y m d h mi s 0) time.RFC3339 = zoneless y m d h mi s +:+ "Z".
Proof.
  intros Hm Hd Hh Hmi Hs. rewrite Format_RFC3339.
  destruct (absDate_Date y m d h mi s Hm Hd Hh Hmi Hs) as [HD HC].
  rewrite (Date_in_range y m d h mi s) in * by assumption.
  cbn [time.sec time.offset] in *. rewrite Z.add_0_r, HD, HC.
  unfold zoneless. rewrite !append_assoc. reflexivity.
Qed.

Lemma parse_second_end (f : time.fields) (s : Z) :
  0 <= s < 60 ->
  time.parseChunk time.stdZeroSecond f (two s) = Some (time.setSec f s, "").
Proof.
  intros Hs. change (two s) with (two s +:+ "").
  cbn [time.parseChunk]. rewrite getnum_two by lia.
  cbn [mbind option_bind]. decide_ranges. reflexivity.
Qed.

(** The fields read from a zone-less text, by the chunks both layouts start
    with. *)
Lemma parse_zoneless (cs : list time.chunk) (y m d h mi s : Z) :
  0 <= y <= 9999 -> 1 <= m <= 12 -> 1 <= d <= time.daysIn m y ->
  0 <= h < 24 -> 0 <= mi < 60 -> 0 <= s < 60 ->
  time.parseChunks (time.dateTimeChunks ++ cs) time.fields0 (zoneless y m d h mi s)
  = time.parseChunks cs (time.mkFields y m d h mi s 0 false (-1)) "".
Proof.
  intros Hy Hm Hd Hh Hmi Hs. pose proof (daysIn_le_31 m y Hm) as Hd31.
  unfold zoneless. rewrite appendInt_four, !appendInt_two by lia.
  unfold time.dateTimeChunks. cbn [app].
  rewrite (parseChunks_step _ _ _ _ _ _ (parse_year _ y _ ltac:(lia))). fields_simpl.
  rewrite (parseChunks_step _ _ _ _ _ _ (parse_literal_app _ _ _)).
  rewrite (parseChunks_step _ _ _ _ _ _ (parse_month _ m _ Hm)). fields_simpl.
  rewrite (parseChunks_step _ _ _ _ _ _ (parse_literal_app _ _ _)).
  rewrite (parseChunks_step _ _ _ _ _ _ (parse_day _ d _ ltac:(lia))). fields_simpl.
  rewrite (parseChunks_step _ _ _ _ _ _ (parse_literal_app _ _ _)).
  rewrite (parseChunks_step _ _ _ _ _ _ (parse_hour _ h _ Hh)). fields_simpl.
  rewrite (parseChunks_step _ _ _ _ _ _ (parse_literal_app _ _ _)).
  rewrite (parseChunks_step _ _ _ _ _ _ (parse_minute _ mi _ Hmi)). fields_simpl.
  rewrite (parseChunks_step _ _ _ _ _ _ (parse_literal_app _ _ _)).
  rewrite (parseChunks_step _ _ _ _ _ _ (parse_second_end _ s Hs)). fields_simpl.
  reflexivity.
Qed.

Lemma Parse_zoneless (y m d h mi s : Z) :
  0 <= y <= 9999 -> 1 <= m <= 12 -> 1 <= d <= time.daysIn m y ->
  0 <= h < 24 -> 0 <= mi < 60 -> 0 <= s < 60 ->
  time.Parse time.RFC3339 (zoneless y m d h mi s)
  = Fail (time.mkParseError "2006-01-02T15:04:05Z07:00" (zoneless y m d h mi s))
  /\ time.Parse time.naiveLayout (zoneless y m d h mi s)
     = Ok (time.Date y m d h mi s 0).
Proof.
  intros Hy Hm Hd Hh Hmi Hs. unfold time.Parse, time.RFC3339, time.naiveLayout.
  cbn [time.chunks time.text]. split.
  - rewrite parse_zoneless by assumption. reflexivity.
  - rewrite <- (app_nil_r time.dateTimeChunks), parse_zoneless by assumption.
    cbn [time.parseChunks String.eqb mbind option_bind].
    rewrite fieldsTime_valid by lia. reflexivity.
Qed.

Lemma allPlain_zoneless (y m d h mi s : Z) :
  0 <= y <= 9999 -> 1 <= m <= 12 -> 1 <= d <= time.daysIn m y ->
  0 <= h < 24 -> 0 <= mi < 60 -> 0 <= s < 60 ->
  allPlain (zoneless y m d h mi s) = true /\ zoneless y m d h mi s <> "".
Proof.
  intros Hy Hm Hd Hh Hmi Hs. pose proof (daysIn_le_31 m y Hm) as Hd31.
  unfold zoneless. rewrite appendInt_four, !appendInt_two by lia. split.
  - rewrite !allPlain_app, allPlain_four, !allPlain_two by lia. reflexivity.
  - unfold four. rewrite append_cons. discriminate.
Qed.

(** X18.  A zone-less text of calendar fields in their ranges and the same
    text followed by [Z] are read as one and the same Time, the fields taken
    as UTC; and that Time, unless it is the zero instant, is written as the
    text with the [Z]. *)
Theorem zoneless_text_is_read_as_the_Z_text (t0 : qi.Time) (y m d h mi s : Z) :
  0 <= y <= 9999 -> 1 <= m <= 12 -> 1 <= d <= time.daysIn m y ->
  0 <= h < 24 -> 0 <= mi < 60 -> 0 <= s < 60 ->
  let text := zoneless y m d h mi s in
  let T := qi.NewTime (time.Date y m d h mi s 0) in
  qi.UnmarshalJSON t0 (quoted text) = (T, None)
  /\ qi.UnmarshalJSON t0 (quoted (text +:+ "Z")) = (T, None)
  /\ (time.IsZero (qi.Time_ T) = false -> qi.MarshalJSON T = Ok (quoted (text +:+ "Z"))).
Proof.
  intros Hy Hm Hd Hh Hmi Hs text T. subst text T.
  destruct (allPlain_zoneless y m d h mi s Hy Hm Hd Hh Hmi Hs) as [Hplain Hne].
  destruct (Parse_zoneless y m d h mi s Hy Hm Hd Hh Hmi Hs) as [Hrfc Hnaive].
  pose proof (Format_Date y m d h mi s Hm Hd Hh Hmi Hs) as Hfmt.
  pose proof (Year_Date y m d h mi s Hm Hd Hh Hmi Hs) as Hyear.
  assert (allPlain (zoneless y m d h mi s +:+ "Z") = true) as HplainZ
    by (rewrite allPlain_app, Hplain; reflexivity).
  assert (zoneless y m d h mi s +:+ "Z" <> "") as HneZ.
  { destruct (zoneless y m d h mi s); [contradiction|]. rewrite append_cons. discriminate. }
  split; [|split].
  - unfold qi.UnmarshalJSON. rewrite Trim_quoted by assumption.
    rewrite plain_not_null by assumption. rewrite Hrfc, Hnaive. reflexivity.
  - unfold qi.UnmarshalJSON. rewrite Trim_quoted by assumption.
    rewrite plain_not_null by assumption. rewrite <- Hfmt.
    rewrite Parse_Format_RFC3339; [reflexivity| | | |].
    + rewrite Date_in_range by assumption. reflexivity.
    + rewrite Hyear. lia.
    + rewrite Date_in_range by assumption. reflexivity.
    + rewrite Date_in_range by assumption. cbn. lia.
  - cbn [qi.Time_]. intros Hz. unfold qi.MarshalJSON. cbn [qi.Time_].
    rewrite Hz, Hfmt. unfold json.Marshal_string.
    rewrite escape_plain by assumption. reflexivity.
Qed.

Lemma zoneless_text_witness :
  qi.UnmarshalJSON qi.zeroTime (quoted "2026-01-20T11:57:31")
  = (qi.NewTime (time.Date 2026 1 20 11 57 31 0), None)
  /\ qi.UnmarshalJSON qi.zeroTime (quoted "2026-01-20T11:57:31Z")
     = (qi.NewTime (time.Date 2026 1 20 11 57 31 0), None).
Proof.
  pose proof (zoneless_text_is_read_as_the_Z_text qi.zeroTime 2026 1 20 11 57 31
                ltac:(lia) ltac:(lia) ltac:(vm_compute; split; discriminate)
                ltac:(lia) ltac:(lia) ltac:(lia)) as H.
  exact (conj (proj1 H) (proj1 (proj2 H))).
Defined.

(** *** What the parser leaves in the fields *)

Lemma numberFrom_bound (s : string) : forall a : Z,
  allDigits s = true -> 0 <= a ->
  0 <= numberFrom a s < (a + 1) * 10 ^ Z.of_nat (String.length s).
Proof.
  induction s as [|c s IH]; intros a Hs Ha; cbn [numberFrom String.length].
  - cbn. lia.
  - cbn [allDigits] in Hs. apply andb_true_iff in Hs as [Hc Hs].
    pose proof (digit_val_range c Hc) as Hv.
    specialize (IH (a * 10 + digit_val c) Hs ltac:(lia)).
    rewrite Nat2Z.inj_succ, Z.pow_succ_r by lia.
    assert (0 < 10 ^ Z.of_nat (String.length s)) by (apply Z.pow_pos_nonneg; lia).
    nia.
Qed.

Lemma getnum_range (v v' : string) (fixed : bool) (n : Z) :
  time.getnum v fixed = Some (n, v') -> 0 <= n < 100.
Proof.
  unfold time.getnum. destruct v as [|a [|b r]]; [discriminate| |].
  - destruct (isDigitByte a) eqn:Ha; [|discriminate].
    destruct fixed; [discriminate|]. intros [= <- _].
    pose proof (digit_val_range a Ha). lia.
  - destruct (isDigitByte a) eqn:Ha; [|discriminate].
    pose proof (digit_val_range a Ha).
    destruct (isDigitByte b) eqn:Hb.
    + intros [= <- _]. pose proof (digit_val_range b Hb). lia.
    + destruct fixed; [discriminate|]. intros [= <- _]. lia.
Qed.

Lemma spanDigits_digits (s : string) :
  allDigits (fst (time.spanDigits s)) = true.
Proof.
  induction s as [|c s IH]; [reflexivity|]. cbn [time.spanDigits].
  destruct (isDigitByte c) eqn:Hc; [|reflexivity].
  destruct (time.spanDigits s) as [ds tl]. cbn [fst allDigits] in *.
  rewrite Hc, IH. reflexivity.
Qed.

Lemma parseNanoseconds_range (ds : string) (ns : Z) :
  allDigits ds = true -> time.parseNanoseconds ds = Some ns -> 0 <= ns < 1000000000.
Proof.
  intros Hds. unfold time.parseNanoseconds.
  destruct (takeBytes_digits 9 ds Hds) as (Hd9 & Hlen & _).
  destruct (time.takeBytes 9 ds) as [|a r] eqn:Ht; [intros [= <-]; cbn; lia|].
  destruct (time.atoi (String a r)) as [n0|] eqn:Hatoi; [|discriminate].
  cbn [mbind option_bind]. intros [= <-].
  pose proof Hd9 as Hd9'. cbn [allDigits] in Hd9'. apply andb_true_iff in Hd9' as [Ha _].
  destruct (atoi_inv a r n0 Ha Hatoi) as [_ ->].
  pose proof (numberFrom_bound (String a r) 0 Hd9 ltac:(lia)) as Hb.
  fold (number (String a r)) in Hb.
  set (k := Z.of_nat (String.length (String a r))) in *.
  assert (0 <= k <= 9) as Hk by lia.
  assert (10 ^ k * 10 ^ (9 - k) = 1000000000) as Hpow
    by (rewrite <- Z.pow_add_r by lia; replace (k + (9 - k)) with 9 by lia; reflexivity).
  assert (0 < 10 ^ (9 - k)) as Hq by (apply Z.pow_pos_nonneg; lia).
  rewrite Z.mul_1_l in Hb. split; [apply Z.mul_nonneg_nonneg; lia|].
  rewrite <- Hpow. apply Z.mul_lt_mono_pos_r; [exact Hq|lia].
Qed.

Lemma parseFraction_range (f f' : time.fields) (v v' : string) :
  time.parseFraction f v = Some (f', v') ->
  f' = f \/ exists ns, 0 <= ns < 1000000000 /\ f' = time.setNsec f ns.
Proof.
  unfold time.parseFraction. destruct v as [|c [|d rest]]; try (intros [= <- _]; tauto).
  destruct (time.commaOrPeriod c && isDigitByte d); [|intros [= <- _]; tauto].
  pose proof (spanDigits_digits (String d rest)) as Hds.
  destruct (time.spanDigits (String d rest)) as [ds tl]. cbn [fst] in Hds.
  destruct (time.parseNanoseconds ds) as [ns|] eqn:Hns; [|discriminate].
  cbn [mbind option_bind]. intros [= <- _]. right. exists ns.
  split; [exact (parseNanoseconds_range ds ns Hds Hns)|reflexivity].
Qed.

Lemma parseZone_range (f f' : time.fields) (v v' : string) :
  time.parseZone f v = Some (f', v') ->
  f' = time.setZ f true
  \/ exists zo, Z.rem zo 60 = 0 /\ -90000 <= zo <= 90000 /\ f' = time.setZoneOffset f zo.
Proof.
  unfold time.parseZone.
  destruct v as [|sign v1]; [discriminate|].
  destruct (Ascii.eqb_spec sign "Z") as [->|Hsign]; [intros [= <- _]; tauto|].
  assert (forall r,
    match v1 with
    | String h1 (String h2 (String colon (String m1 (String m2 rest)))) =>
        if negb (Ascii.eqb colon ":") then None
        else
          '(hr, _) ← time.getnum (String h1 (String h2 "")) true;
          '(mm, _) ← time.getnum (String m1 (String m2 "")) true;
          if (24 <? hr) || (60 <? mm) then None
          else
            let zoneOffset := (hr * 60 + mm) * 60 + 0 in
            zoneOffset ←
              (if Ascii.eqb sign "+" then Some zoneOffset
               else if Ascii.eqb sign "-" then Some (- zoneOffset)
               else None);
            Some (time.setZoneOffset f zoneOffset, rest)
    | _ => None
    end = Some r ->
    exists zo, Z.rem zo 60 = 0 /\ -90000 <= zo <= 90000
               /\ fst r = time.setZoneOffset f zo) as Hgen.
  { intros r. destruct v1 as [|h1 [|h2 [|colon [|m1 [|m2 rest]]]]]; try discriminate.
    destruct (negb (Ascii.eqb colon ":")); [discriminate|].
    destruct (time.getnum (String h1 (String h2 "")) true) as [[hr x]|] eqn:Hhr;
      [|discriminate].
    destruct (time.getnum (String m1 (String m2 "")) true) as [[mm x']|] eqn:Hmm;
      [|discriminate].
    cbn [mbind option_bind].
    apply getnum_range in Hhr, Hmm.
    destruct (Z.ltb_spec 24 hr); [discriminate|].
    destruct (Z.ltb_spec 60 mm); [discriminate|]. cbn [orb]. cbv zeta.
    destruct (Ascii.eqb sign "+"); [|destruct (Ascii.eqb sign "-"); [|discriminate]];
      cbn [mbind option_bind]; intros [= <-]; cbn [fst]; eexists;
      (split; [|split; [|reflexivity]]); try lia.
    - rewrite Z.add_0_r. apply Z.rem_mul. lia.
    - rewrite Z.add_0_r, <- Z.mul_opp_l. apply Z.rem_mul. lia. }
  intros Hz. right.
  destruct sign as [b0 b1 b2 b3 b4 b5 b6 b7].
  destruct b0, b1, b2, b3, b4, b5, b6, b7; try (contradiction Hsign; reflexivity);
    apply (Hgen (f', v')) in Hz; exact Hz.
Qed.

Lemma fields0_OK : fieldsOK time.fields0.
Proof. unfold fieldsOK. cbn. lia. Qed.

(** Every element of a layout keeps the fields in their ranges. *)
Lemma parseChunk_fieldsOK (c : time.chunk) (f f' : time.fields) (v v' : string) :
  time.parseChunk c f v = Some (f', v') -> fieldsOK f -> fieldsOK f'.
Proof.
  destruct f as [y m d h mi s ns z zo]. unfold fieldsOK.
  cbn [time.f_year time.f_month time.f_day time.f_hour time.f_min time.f_sec
       time.f_nsec time.f_z time.f_zoneOffset].
  intros Hc (Hy & Hh & Hmi & Hs & Hns & Hm & Hzo). destruct c; cbn [time.parseChunk] in Hc.
  - destruct (time.skip v s0); [|discriminate]. cbn in Hc. injection Hc as <- _.
    cbn. tauto.
  - apply year_iff in Hc as (Y & _ & [Hlen Hdig] & ->).
    pose proof (numberFrom_bound Y 0 Hdig ltac:(lia)) as Hb. fold (number Y) in Hb.
    rewrite Hlen in Hb. change (10 ^ Z.of_nat 4) with 10000 in Hb.
    cbn. repeat split; try tauto; lia.
  - destruct (time.getnum v true) as [[n r]|]; [|discriminate].
    cbn [mbind option_bind] in Hc.
    destruct (Z.leb_spec n 0); [discriminate|].
    destruct (Z.ltb_spec 12 n); [discriminate|]. cbn in Hc. injection Hc as <- _.
    cbn. repeat split; try tauto; try lia.
  - destruct (time.getnum v true) as [[n r]|]; [|discriminate].
    cbn in Hc. injection Hc as <- _. cbn. tauto.
  - destruct (time.getnum v false) as [[n r]|]; [|discriminate].
    cbn [mbind option_bind] in Hc.
    destruct (Z.ltb_spec n 0); [discriminate|].
    destruct (Z.leb_spec 24 n); [discriminate|]. cbn in Hc. injection Hc as <- _.
    cbn. repeat split; try tauto; lia.
  - destruct (time.getnum v true) as [[n r]|]; [|discriminate].
    cbn [mbind option_bind] in Hc.
    destruct (Z.ltb_spec n 0); [discriminate|].
    destruct (Z.leb_spec 60 n); [discriminate|]. cbn in Hc. injection Hc as <- _.
    cbn. repeat split; try tauto; lia.
  - destruct (time.getnum v true) as [[n r]|]; [|discriminate].
    cbn [mbind option_bind] in Hc.
    destruct (Z.ltb_spec n 0); [discriminate|].
    destruct (Z.leb_spec 60 n); [discriminate|]. cbn [orb] in Hc.
    apply parseFraction_range in Hc as [->|(ns' & Hns' & ->)];
      cbn; repeat split; try tauto; lia.
  - apply parseZone_range in Hc as [->|(zo' & Hrem & Hzo' & ->)];
      cbn; repeat split; try tauto; lia.
Qed.

Lemma parseChunks_fieldsOK (cs : list time.chunk) : forall (f r : time.fields) (v : string),
  time.parseChunks cs f v = Some r -> fieldsOK f -> fieldsOK r.
Proof.
  induction cs as [|c cs IH]; intros f r v Hp Hf.
  - apply parseChunks_nil_iff in Hp as [_ ->]. exact Hf.
  - apply parseChunks_cons_iff in Hp as (f' & v' & Hc & Hp).
    exact (IH _ _ _ Hp (parseChunk_fieldsOK _ _ _ _ _ Hc Hf)).
Qed.

(** [Date] with nanoseconds within the second. *)
Lemma Date_nsec (y m d h mi s ns : Z) :
  0 <= ns < 1000000000 ->
  time.Date y m d h mi s ns
  = time.mkTime (time.sec (time.Date y m d h mi s 0)) ns 0.
Proof.
  intros Hns. unfold time.Date, time.norm. cbv beta iota zeta.
  rewrite (Z.div_small ns), (Z.mod_small ns) by lia.
  change (0 / 1000000000) with 0. change (0 mod 1000000000) with 0.
  reflexivity.
Qed.

(** The year of a Time that shows given calendar fields in its own zone. *)
Lemma Year_local (t : time.Time) (y m d h mi s : Z) :
  1 <= m <= 12 -> 1 <= d <= time.daysIn m y ->
  0 <= h < 24 -> 0 <= mi < 60 -> 0 <= s < 60 ->
  time.sec t + time.offset t = time.sec (time.Date y m d h mi s 0) ->
  time.Year t = y.
Proof.
  intros Hm Hd Hh Hmi Hs Hlocal. unfold time.Year. rewrite Hlocal.
  destruct (absDate_Date y m d h mi s Hm Hd Hh Hmi Hs) as [-> _]. reflexivity.
Qed.

Lemma fieldsTime_wellFormed (f : time.fields) (t : time.Time) :
  fieldsOK f -> time.fieldsTime f = Some t -> wellFormed t.
Proof.
  destruct f as [y m d h mi s ns z zo]. unfold fieldsOK, time.fieldsTime.
  cbn [time.f_year time.f_month time.f_day time.f_hour time.f_min time.f_sec
       time.f_nsec time.f_z time.f_zoneOffset].
  intros (Hy & Hh & Hmi & Hs & Hns & Hm & Hzo).
  set (m' := if m <? 0 then 1 else m). set (d' := if d <? 0 then 1 else d).
  assert (1 <= m' <= 12) as Hm' by (subst m'; destruct (Z.ltb_spec m 0); lia).
  clearbody m' d'.
  destruct (Z.ltb_spec d' 1); [discriminate|].
  destruct (Z.ltb_spec (time.daysIn m' y) d'); [discriminate|]. cbn [orb].
  rewrite (Date_nsec y m' d' h mi s ns Hns).
  pose proof (fun t => Year_local t y m' d' h mi s Hm' ltac:(lia) Hh Hmi Hs) as Hyear.
  generalize dependent (time.sec (time.Date y m' d' h mi s 0)). intros sD Hyear.
  cbn [time.sec time.nsec].
  assert (forall off, Z.rem off 60 = 0 -> -90000 <= off <= 90000 ->
                      wellFormed (time.mkTime (sD - off) ns off)) as Hwf.
  { intros off Hrem Hoff. unfold wellFormed. cbn [time.nsec time.offset].
    rewrite (Hyear (time.mkTime (sD - off) ns off)) by (cbn [time.sec time.offset]; lia).
    tauto. }
  destruct z; [|destruct (Z.eqb_spec zo (-1)); cbn [negb]]; intros [= <-].
  - rewrite <- (Z.sub_0_r sD). apply Hwf; [reflexivity|lia].
  - rewrite <- (Z.sub_0_r sD). apply Hwf; [reflexivity|lia].
  - destruct Hzo as [?|[? ?]]; [contradiction|]. apply Hwf; assumption.
Qed.

(** A Time that [time.Parse] returns, under any layout of these elements,
    is well formed. *)
Lemma Parse_wellFormed (l : time.layout) (v : string) (t : time.Time) :
  time.Parse l v = Ok t -> wellFormed t.
Proof.
  unfold time.Parse.
  destruct (time.parseChunks (time.chunks l) time.fields0 v) as [f|] eqn:Hp;
    cbn [mbind option_bind]; [|discriminate].
  destruct (time.fieldsTime f) as [t'|] eqn:Ht; [|discriminate]. intros [= <-].
  exact (fieldsTime_wellFormed f t' (parseChunks_fieldsOK _ _ _ _ Hp fields0_OK) Ht).
Qed.

(** X19.  Decoding keeps a Time well formed: what [UnmarshalJSON] leaves in
    the receiver has its nanoseconds within the second, a year from 0 to
    9999 in its own zone and a zone offset of whole minutes of at most 25
    hours, whenever the receiver had before; so has every Time decoded into
    a zero value. *)
Theorem decoding_keeps_times_well_formed (t : qi.Time) (data : string) :
  wellFormed (qi.Time_ t) ->
  wellFormed (qi.Time_ (fst (qi.UnmarshalJSON t data))).
Proof.
  intros Ht. unfold qi.UnmarshalJSON.
  destruct (_ || _); [exact Ht|].
  destruct (time.Parse time.RFC3339 _) as [p|e] eqn:Hrfc.
  - exact (Parse_wellFormed _ _ _ Hrfc).
  - destruct (time.Parse time.naiveLayout _) as [p|e'] eqn:Hnaive; [|exact Ht].
    exact (Parse_wellFormed _ _ _ Hnaive).
Qed.

Lemma decoding_well_formed_witness :
  wellFormed (qi.Time_ (fst (qi.UnmarshalJSON qi.zeroTime
                               (quoted "2026-01-20T11:57:31.25+03:30")))).
Proof.
  apply decoding_keeps_times_well_formed.
  unfold wellFormed. repeat split; vm_compute; congruence.
Defined.

(** *** The text written, as JSON *)

Lemma plainb_safe (c : ascii) : plainb c = true -> safeByte c = true.
Proof.
  destruct c as [b0 b1 b2 b3 b4 b5 b6 b7].
  destruct b0, b1, b2, b3, b4, b5, b6, b7; intros Hc;
    try (vm_compute in Hc; discriminate Hc); reflexivity.
Qed.

Lemma allPlain_safe (s : string) : allPlain s = true -> allSafe s = true.
Proof.
  induction s as [|c s IH]; [reflexivity|]. cbn [allPlain allSafe].
  intros [Hc Hs]%andb_true_iff. rewrite (plainb_safe c Hc), (IH Hs). reflexivity.
Qed.

(** A JSON string of plain bytes, as a whole JSON text. *)
Lemma parse_quoted (s : string) :
  allSafe s = true -> json.parse (quoted s) = Some (json.Str s).
Proof.
  intros Hs. unfold json.parse, quoted, quote_str. rewrite append_cons, append_nil.
  cbn [String.length]. rewrite Nat.add_comm. cbn [Nat.add].
  rewrite parseValue_string by exact Hs. reflexivity.
Qed.

(** X20.  What [MarshalJSON] writes is one JSON text: [null] for the zero
    instant, and otherwise the JSON string of the RFC 3339 text of the Time,
    for a Time with a year from 0 to 9999 in its own zone and a zone offset
    of whole minutes under 25 hours. *)
Theorem marshalled_time_is_a_json_text (T : qi.Time) :
  0 <= time.Year (qi.Time_ T) <= 9999 ->
  Z.rem (time.offset (qi.Time_ T)) 60 = 0 ->
  -90000 < time.offset (qi.Time_ T) < 90000 ->
  exists out : string,
    qi.MarshalJSON T = Ok out
    /\ json.parse out
       = Some (if time.IsZero (qi.Time_ T) then json.Null
               else json.Str (time.Format (qi.Time_ T) time.RFC3339)).
Proof.
  destruct T as [t]. cbn [qi.Time_]. intros Hyear Hrem Hrange.
  unfold qi.MarshalJSON. cbn [qi.Time_].
  destruct (time.IsZero t).
  - exists "null". split; reflexivity.
  - destruct (Format_plain t Hyear Hrem Hrange) as [Hplain _].
    exists (quoted (time.Format t time.RFC3339)). split.
    + unfold json.Marshal_string. rewrite escape_plain by assumption. reflexivity.
    + apply parse_quoted, allPlain_safe, Hplain.
Qed.

Lemma marshalled_time_witness :
  exists out : string,
    qi.MarshalJSON (qi.NewTime (time.mkTime 63904507051 0 (-12600))) = Ok out
    /\ json.parse out = Some (json.Str "2026-01-20T08:27:31-03:30").
Proof.
  apply (marshalled_time_is_a_json_text (qi.NewTime (time.mkTime 63904507051 0 (-12600)))).
  - vm_compute. split; discriminate.
  - reflexivity.
  - cbn. lia.
Defined.

(** *** Years that do not fit four digits *)

Lemma digit_not_minus (c : ascii) : isDigitByte c = true -> Ascii.eqb c "-" = false.
Proof.
  intros Hc. destruct (Ascii.eqb_spec c "-") as [->|]; [|reflexivity].
  vm_compute in Hc. discriminate Hc.
Qed.

Lemma allPlain_zeros (n : nat) : allPlain (time.zeros n) = true.
Proof. induction n as [|n IH]; [reflexivity|]. cbn [time.zeros allPlain]. rewrite IH. reflexivity. Qed.

Lemma allPlain_appendInt (x : Z) (width : nat) : allPlain (time.appendInt x width) = true.
Proof.
  unfold time.appendInt. cbv zeta.
  rewrite !allPlain_app, allPlain_zeros, utoa_plain by reflexivity.
  destruct (x <? 0); reflexivity.
Qed.

Lemma utoa_allDigits (fuel : nat) : forall (u : Z) (acc : string),
  allDigits acc = true -> allDigits (time.utoa fuel u acc) = true.
Proof.
  induction fuel as [|fuel IH]; intros u acc Hacc; [exact Hacc|].
  cbn [time.utoa].
  assert (allDigits (String (digit_byte (u mod 10)) acc) = true) as Hacc'.
  { cbn [allDigits].
    rewrite (proj1 (digit_byte_facts (u mod 10) ltac:(apply Z.mod_pos_bound; lia))).
    exact Hacc. }
  destruct (u / 10 =? 0); [exact Hacc'|]. apply IH, Hacc'.
Qed.

(** Digits are only ever added in front. *)
Lemma utoa_length (fuel : nat) : forall (u : Z) (acc : string),
  (String.length acc <= String.length (time.utoa fuel u acc))%nat.
Proof.
  induction fuel as [|fuel IH]; intros u acc; [reflexivity|].
  cbn [time.utoa]. destruct (u / 10 =? 0); [cbn [String.length]; lia|].
  specialize (IH (u / 10) (String (digit_byte (u mod 10)) acc)).
  cbn [String.length] in IH. lia.
Qed.

Lemma utoa_length_S (fuel : nat) (u : Z) (acc : string) :
  (S (String.length acc) <= String.length (time.utoa (S fuel) u acc))%nat.
Proof.
  cbn [time.utoa]. destruct (u / 10 =? 0); [reflexivity|].
  apply (utoa_length fuel (u / 10) (String (digit_byte (u mod 10)) acc)).
Qed.

Lemma utoa_step (fuel : nat) (u : Z) (acc : string) :
  u / 10 <> 0 ->
  time.utoa (S fuel) u acc
  = time.utoa fuel (u / 10) (String (digit_byte (u mod 10)) acc).
Proof.
  intros Hq. cbn [time.utoa]. destruct (Z.eqb_spec (u / 10) 0); [contradiction|].
  reflexivity.
Qed.

(** The text of a year past 9999 has five digits or more. *)
Lemma appendInt_long_year (y : Z) :
  10000 <= y ->
  exists d1 d2 d3 d4 d5 r,
    time.appendInt y 4 = String d1 (String d2 (String d3 (String d4 (String d5 r))))
    /\ allDigits (String d1 (String d2 (String d3 (String d4 (String d5 ""))))) = true.
Proof.
  intros Hy. unfold time.appendInt. cbv zeta. rewrite Z.abs_eq by lia.
  destruct (Z.ltb_spec y 0); [lia|]. rewrite append_nil.
  pose proof (utoa_allDigits 20 y "" eq_refl) as Hdig.
  assert (5 <= String.length (time.utoa 20 y ""))%nat as Hlen.
  { rewrite !utoa_step by (Z.to_euclidean_division_equations; lia).
    match goal with
    | |- (_ <= String.length (time.utoa _ ?u ?acc))%nat =>
        exact (utoa_length_S 15 u acc)
    end. }
  destruct (time.utoa 20 y "") as [|d1 [|d2 [|d3 [|d4 [|d5 r]]]]];
    cbn [String.length] in Hlen; try lia.
  replace (4 - S (S (S (S (S (String.length r))))))%nat with O by lia.
  cbn [time.zeros]. rewrite append_nil. exists d1, d2, d3, d4, d5, r.
  split; [reflexivity|].
  cbn [allDigits] in Hdig |- *. rewrite !andb_true_iff in Hdig.
  destruct Hdig as (-> & -> & -> & -> & -> & _). reflexivity.
Qed.

(** The zone text of any offset is plain. *)
Lemma allPlain_zone_any (off : Z) : allPlain (time.appendZone off) = true.
Proof.
  unfold time.appendZone. destruct (off =? 0); [reflexivity|]. cbv zeta.
  destruct (Z.quot off 60 <? 0);
    rewrite !allPlain_app, !allPlain_appendInt; reflexivity.
Qed.

(** Neither layout reads a value that starts with a minus sign or with
    five digits. *)
Lemma long_year_is_not_parsed (cs : list time.chunk) (f : time.fields) (v : string) :
  (exists tail, v = String "-" tail)
  \/ (exists d1 d2 d3 d4 d5 r,
        v = String d1 (String d2 (String d3 (String d4 (String d5 r))))
        /\ allDigits (String d1 (String d2 (String d3 (String d4 (String d5 ""))))) = true) ->
  time.parseChunks (time.stdLongYear :: time.literal "-" :: cs) f v = None.
Proof.
  intros [(tail & ->)|(d1 & d2 & d3 & d4 & d5 & r & -> & Hdig)].
  - destruct tail as [|b [|c [|d rest]]]; reflexivity.
  - cbn [allDigits] in Hdig. rewrite !andb_true_iff in Hdig.
    destruct Hdig as (H1 & H2 & H3 & H4 & H5 & _).
    cbn [time.parseChunks time.parseChunk]. rewrite H1.
    rewrite atoi_digits
      by (cbn [allDigits String.length]; rewrite ?H1, ?H2, ?H3, ?H4; try reflexivity;
          try discriminate; lia).
    cbn [mbind option_bind time.skip]. rewrite (digit_not_minus d5 H5). reflexivity.
Qed.

Lemma append_cons_not_empty (a b : string) (c : ascii) : a +:+ String c b <> "".
Proof. destruct a; [rewrite append_nil|rewrite append_cons]; discriminate. Qed.

(** X21.  A Time other than the zero instant whose year in its own zone is
    negative or past 9999 is written as a text that is not read back,
    whatever its zone offset: [UnmarshalJSON] returns an error on what
    [MarshalJSON] wrote and leaves the receiver as it was. *)
Theorem year_outside_four_digits_is_not_read_back (T t0 : qi.Time) :
  time.IsZero (qi.Time_ T) = false ->
  time.Year (qi.Time_ T) < 0 \/ 9999 < time.Year (qi.Time_ T) ->
  exists (out : string) (err : time.ParseError),
    qi.MarshalJSON T = Ok out /\ qi.UnmarshalJSON t0 out = (t0, Some err).
Proof.
  destruct T as [t]. cbn [qi.Time_]. unfold time.Year. intros Hzero Hyear.
  pose proof (Format_RFC3339 t) as Hfmt.
  destruct (time.absDate _) as [[y m] d]. destruct (time.absClock _) as [[h mi] s].
  set (text := time.Format t time.RFC3339) in *.
  assert (allPlain text = true) as Hplain
    by (rewrite Hfmt, !allPlain_app, !allPlain_appendInt, allPlain_zone_any; reflexivity).
  assert (text <> "") as Hne by (rewrite Hfmt; apply append_cons_not_empty).
  assert (forall cs f, time.parseChunks (time.stdLongYear :: time.literal "-" :: cs) f text
                       = None) as Hnone.
  { intros cs f. apply long_year_is_not_parsed. rewrite Hfmt.
    destruct Hyear as [Hneg|Hpos].
    - left. unfold time.appendInt. cbv zeta.
      destruct (Z.ltb_spec y 0); [|lia]. rewrite !append_cons. eauto.
    - right. destruct (appendInt_long_year y ltac:(lia))
        as (d1 & d2 & d3 & d4 & d5 & r & -> & Hdig).
      rewrite !append_cons. eauto 10. }
  exists (quoted text), (time.mkParseError "2006-01-02T15:04:05" text). split.
  - unfold qi.MarshalJSON. cbn [qi.Time_]. rewrite Hzero. fold text.
    unfold json.Marshal_string. rewrite escape_plain by assumption. reflexivity.
  - unfold qi.UnmarshalJSON. rewrite Trim_quoted by assumption.
    rewrite plain_not_null by assumption.
    unfold time.Parse, time.RFC3339, time.naiveLayout, time.dateTimeChunks.
    cbn [time.chunks time.text app]. rewrite !Hnone. reflexivity.
Qed.

(** The year 12026, in a zone half a minute east of UTC. *)
Lemma year_outside_witness :
  exists (out : string) (err : time.ParseError),
    qi.MarshalJSON
      (qi.NewTime (time.mkTime (time.sec (time.Date 12026 1 20 11 57 31 0)) 0 30))
    = Ok out
    /\ qi.UnmarshalJSON qi.zeroTime out = (qi.zeroTime, Some err).
Proof.
  apply (year_outside_four_digits_is_not_read_back
           (qi.NewTime (time.mkTime (time.sec (time.Date 12026 1 20 11 57 31 0)) 0 30))
           qi.zeroTime).
  - reflexivity.
  - right. vm_compute. reflexivity.
Defined.

(** *** Texts with a zone offset *)

(** X22.  A text of calendar fields in their ranges followed by a zone
    offset of whole minutes under 25 hours is read as the instant at which
    a clock of that zone shows the fields, that is the fields taken as UTC
    less the offset, and the offset is kept; the Time is written back as the
    same text. *)
Theorem offset_text_is_local_time (t0 : qi.Time) (y m d h mi s off : Z) :
  0 <= y <= 9999 -> 1 <= m <= 12 -> 1 <= d <= time.daysIn m y ->
  0 <= h < 24 -> 0 <= mi < 60 -> 0 <= s < 60 ->
  Z.rem off 60 = 0 -> -90000 < off < 90000 ->
  let text := zoneless y m d h mi s +:+ time.appendZone off in
  let T := qi.NewTime
             (time.mkTime (time.sec (time.Date y m d h mi s 0) - off) 0 off) in
  qi.UnmarshalJSON t0 (quoted text) = (T, None)
  /\ (time.IsZero (qi.Time_ T) = false -> qi.MarshalJSON T = Ok (quoted text)).
Proof.
  intros Hy Hm Hd Hh Hmi Hs Hrem Hoff text T. subst text T. cbn [qi.Time_].
  set (t := time.mkTime (time.sec (time.Date y m d h mi s 0) - off) 0 off).
  assert (time.sec t + time.offset t = time.sec (time.Date y m d h mi s 0)) as Hlocal
    by (subst t; cbn [time.sec time.offset]; lia).
  assert (time.Format t time.RFC3339 = zoneless y m d h mi s +:+ time.appendZone off)
    as Hfmt.
  { rewrite Format_RFC3339, Hlocal.
    destruct (absDate_Date y m d h mi s Hm Hd Hh Hmi Hs) as [-> ->].
    unfold zoneless. rewrite !append_assoc. reflexivity. }
  pose proof (Year_local t y m d h mi s Hm Hd Hh Hmi Hs Hlocal) as Hyear.
  destruct (Format_plain t ltac:(lia) Hrem Hoff) as [Hplain Hne].
  rewrite <- Hfmt. split.
  - unfold qi.UnmarshalJSON. rewrite Trim_quoted by assumption.
    rewrite plain_not_null by assumption.
    rewrite Parse_Format_RFC3339 by (try assumption; try reflexivity; lia).
    reflexivity.
  - intros Hz. unfold qi.MarshalJSON. cbn [qi.Time_]. rewrite Hz.
    unfold json.Marshal_string. rewrite escape_plain by assumption. reflexivity.
Qed.

Lemma offset_text_witness :
  qi.UnmarshalJSON qi.zeroTime (quoted "2026-01-20T11:57:31+03:30")
  = (qi.NewTime (time.mkTime (time.sec (time.Date 2026 1 20 11 57 31 0) - 12600) 0 12600),
     None).
Proof.
  exact (proj1 (offset_text_is_local_time qi.zeroTime 2026 1 20 11 57 31 12600
                  ltac:(lia) ltac:(lia) ltac:(vm_compute; split; discriminate)
                  ltac:(lia) ltac:(lia) ltac:(lia) eq_refl ltac:(lia))).
Defined.
